(** * FlashStorage: a sequential file store on a NOR flash chip

    Shallow embedding of [FlashStorage.hpp] / [FlashStorage.cpp] and the
    properties of its file table, write pipeline and erase scheduling.

    Target conventions: [int], [unsigned int] and [unsigned long] are 32 bits
    wide (the ARM boards the library is used on); [byte] is 8 bits.  Unsigned
    arithmetic wraps modulo 2^32 and is written out with [u32]; a conversion
    to [int] is written [s32]. *)

From Stdlib Require Import ZArith List Bool Lia.
Import ListNotations.
Local Open Scope Z_scope.

(** ** Machine arithmetic *)

Definition u32 (x : Z) : Z := x mod 4294967296.
Definition s32 (x : Z) : Z := (x + 2147483648) mod 4294967296 - 2147483648.
Definition u8 (x : Z) : Z := x mod 256.

(** [E1 << E2] on [int]: undefined when the count is negative or not smaller
    than the width of [int]; otherwise the compiler's wrap-around result. *)
Definition int_shl (x n : Z) : option Z :=
  if (0 <=? n) && (n <? 32) then Some (s32 (Z.shiftl x n)) else None.

(** ** The flash chip *)

(** Modelled from the spec: the W25Q64 driver ([lib/W25Q64]) is not part of
    the sources.  The chip is a linear array of bytes; a sector erase restores
    every bit of one 4096-byte sector, a program can only clear bits, reads
    return the stored bytes.  An erase or program leaves the chip busy for an
    unknown time: [polls] lists what the next non-blocking [busy()] polls will
    answer while an operation is in progress (the chip is idle once the list
    runs out), [replies] the status of the next read commands ([W25Q64_OK]
    once it runs out).  [journal] records the erase and program commands the
    chip has received, most recent first. *)
Inductive W25Q64_status_t : Set :=
| W25Q64_OK
| W25Q64_BUSY
| W25Q64_FAIL.

Inductive command : Type :=
| SectorErase (addr : Z)
| PageProgram (addr : Z) (data : Z -> Z) (len : Z).

Record W25Q64 : Type := mkW25Q64 {
  cells : Z -> Z;
  in_progress : bool;
  polls : list bool;
  replies : list W25Q64_status_t;
  journal : list command
}.

Definition SECTOR : Z := 4096.
Definition PAGE : Z := 256.

(** Modelled from the spec: effect of one command on the array. *)
Definition apply_command (c : command) (m : Z -> Z) : Z -> Z :=
  match c with
  | SectorErase addr =>
      fun a => if a / SECTOR =? addr / SECTOR then 255 else m a
  | PageProgram addr data len =>
      fun a => if (addr <=? a) && (a <? addr + len)
               then Z.land (m a) (data (a - addr)) else m a
  end.

(** The array after a journal (most recent first) has been replayed. *)
Fixpoint replay (j : list command) (m : Z -> Z) : Z -> Z :=
  match j with
  | [] => m
  | c :: j' => apply_command c (replay j' m)
  end.

(** Modelled from the spec: a program is legal when it is at most one page
    long and stays inside one 256-byte page. *)
Definition legal_program (addr len : Z) : Prop :=
  0 <= len <= PAGE /\ (len = 0 \/ addr / PAGE = (addr + len - 1) / PAGE).

Definition legal_command (c : command) : Prop :=
  match c with
  | PageProgram addr _ len => legal_program addr len
  | SectorErase _ => True
  end.

Definition issue (c : command) (d : W25Q64) : W25Q64 :=
  mkW25Q64 (apply_command c (cells d)) true (polls d) (replies d)
           (c :: journal d).

(** Modelled from the spec: [busy()]. *)
Definition busy (d : W25Q64) : bool * W25Q64 :=
  if in_progress d then
    match polls d with
    | [] => (false, mkW25Q64 (cells d) false [] (replies d) (journal d))
    | b :: rest => (b, mkW25Q64 (cells d) b rest (replies d) (journal d))
    end
  else (false, d).

Fixpoint spin (fuel : nat) (d : W25Q64) : W25Q64 :=
  match fuel with
  | O => d
  | S k => let (b, d') := busy d in if b then spin k d' else d'
  end.

(** [while(_flash.busy());] *)
Definition wait_idle (d : W25Q64) : W25Q64 := spin (S (length (polls d))) d.

(** Modelled from the spec: [writeEnable()], [sectorErase(addr)],
    [pageProgram(addr, buf, len)]. *)
Definition writeEnable (d : W25Q64) : W25Q64 := d.
Definition sectorErase (addr : Z) (d : W25Q64) : W25Q64 :=
  issue (SectorErase addr) d.
Definition pageProgram (addr : Z) (data : Z -> Z) (len : Z) (d : W25Q64)
  : W25Q64 :=
  issue (PageProgram addr data len) d.

Definition stored (m : Z -> Z) (addr len : Z) : list Z :=
  map (fun i => m (addr + Z.of_nat i)) (seq 0 (Z.to_nat len)).

(** Modelled from the spec: [readData] and [fastRead]; a failed read delivers
    no data (the destination is filled with zeros here). *)
Definition readData (addr len : Z) (d : W25Q64)
  : W25Q64_status_t * list Z * W25Q64 :=
  match replies d with
  | [] => (W25Q64_OK, stored (cells d) addr len, d)
  | W25Q64_OK :: rest =>
      (W25Q64_OK, stored (cells d) addr len,
       mkW25Q64 (cells d) (in_progress d) (polls d) rest (journal d))
  | st :: rest =>
      (st, repeat 0 (Z.to_nat len),
       mkW25Q64 (cells d) (in_progress d) (polls d) rest (journal d))
  end.

Definition fastRead := readData.

(** The status the chip will give to the next read command. *)
Definition next_reply (d : W25Q64) : W25Q64_status_t :=
  match replies d with
  | [] => W25Q64_OK
  | st :: _ => st
  end.

(** Modelled from the spec: [init(selectLine)]. *)
Definition flash_init (d : W25Q64) : W25Q64_status_t * W25Q64 :=
  match replies d with
  | [] => (W25Q64_OK, d)
  | st :: rest =>
      (st, mkW25Q64 (cells d) (in_progress d) (polls d) rest (journal d))
  end.

(** ** FlashStorage.hpp *)

Definition FLASH_STORAGE_IDENTIFICATION_STRING : list Z :=
  [70; 76; 65; 83; 72; 0].
Definition FLASH_STORAGE_FIFO_BUFFER_SIZE : Z := 1024.
Definition FLASH_STORAGE_MAX_FILE_NUMBER : Z := 32.
Definition FLASH_STORAGE_STANDARD_LOOKAHEAD_SIZE : Z := 1024.

Inductive FlashStorage_status_t : Set :=
| FLASH_STORAGE_OK
| FLASH_STORAGE_FLASH_FAIL
| FLASH_STORAGE_BUSY
| FLASH_STORAGE_NO_FAT_FOUND
| FLASH_STORAGE_NO_SPACE
| FLASH_STORAGE_INVALID_FILE
| FLASH_STORAGE_WRONG_MODE.

Record FlashStorageFile : Set := mkFile {
  start_addr : Z;
  end_addr : Z
}.

(** [files] is the array as C++ subscripts it, without bounds check: indices
    [0 .. FLASH_STORAGE_MAX_FILE_NUMBER-1] are the table, any other index
    stands for the memory an out-of-range subscript lands on. *)
Record FlashStorageFAT : Type := mkFAT {
  files : Z -> FlashStorageFile;
  file_count : Z
}.

Definition in_table (i : Z) : Prop := 0 <= i < FLASH_STORAGE_MAX_FILE_NUMBER.

Inductive FlashStorageMode : Set :=
| FLASH_STORAGE_NO_MODE
| FLASH_STORAGE_READ_MODE
| FLASH_STORAGE_WRITE_MODE.

(** The private members of [class FlashStorage].  [_buff] is subscripted like
    [files]: offsets [0 .. 1023] are the buffer. *)
Record FlashStorage : Type := mkFlashStorage {
  _buff : Z -> Z;
  _buff_index : Z;
  _opened_file : Z;
  _curr_addr : Z;
  _max_erased_addr : Z;
  _lookahead_erase_size : Z;
  _flash : W25Q64;
  _flash_status : W25Q64_status_t;
  _fat : FlashStorageFAT;
  _status : FlashStorage_status_t;
  _mode : FlashStorageMode
}.

Definition set_buff (v : Z -> Z) (s : FlashStorage) : FlashStorage :=
  mkFlashStorage v (_buff_index s) (_opened_file s) (_curr_addr s)
    (_max_erased_addr s) (_lookahead_erase_size s) (_flash s)
    (_flash_status s) (_fat s) (_status s) (_mode s).
Definition set_buff_index (v : Z) (s : FlashStorage) : FlashStorage :=
  mkFlashStorage (_buff s) v (_opened_file s) (_curr_addr s)
    (_max_erased_addr s) (_lookahead_erase_size s) (_flash s)
    (_flash_status s) (_fat s) (_status s) (_mode s).
Definition set_opened_file (v : Z) (s : FlashStorage) : FlashStorage :=
  mkFlashStorage (_buff s) (_buff_index s) v (_curr_addr s)
    (_max_erased_addr s) (_lookahead_erase_size s) (_flash s)
    (_flash_status s) (_fat s) (_status s) (_mode s).
Definition set_curr_addr (v : Z) (s : FlashStorage) : FlashStorage :=
  mkFlashStorage (_buff s) (_buff_index s) (_opened_file s) v
    (_max_erased_addr s) (_lookahead_erase_size s) (_flash s)
    (_flash_status s) (_fat s) (_status s) (_mode s).
Definition set_max_erased_addr (v : Z) (s : FlashStorage) : FlashStorage :=
  mkFlashStorage (_buff s) (_buff_index s) (_opened_file s) (_curr_addr s)
    v (_lookahead_erase_size s) (_flash s)
    (_flash_status s) (_fat s) (_status s) (_mode s).
Definition set_flash (v : W25Q64) (s : FlashStorage) : FlashStorage :=
  mkFlashStorage (_buff s) (_buff_index s) (_opened_file s) (_curr_addr s)
    (_max_erased_addr s) (_lookahead_erase_size s) v
    (_flash_status s) (_fat s) (_status s) (_mode s).
Definition set_flash_status (v : W25Q64_status_t) (s : FlashStorage)
  : FlashStorage :=
  mkFlashStorage (_buff s) (_buff_index s) (_opened_file s) (_curr_addr s)
    (_max_erased_addr s) (_lookahead_erase_size s) (_flash s)
    v (_fat s) (_status s) (_mode s).
Definition set_fat (v : FlashStorageFAT) (s : FlashStorage) : FlashStorage :=
  mkFlashStorage (_buff s) (_buff_index s) (_opened_file s) (_curr_addr s)
    (_max_erased_addr s) (_lookahead_erase_size s) (_flash s)
    (_flash_status s) v (_status s) (_mode s).
Definition set_status (v : FlashStorage_status_t) (s : FlashStorage)
  : FlashStorage :=
  mkFlashStorage (_buff s) (_buff_index s) (_opened_file s) (_curr_addr s)
    (_max_erased_addr s) (_lookahead_erase_size s) (_flash s)
    (_flash_status s) (_fat s) v (_mode s).
Definition set_mode (v : FlashStorageMode) (s : FlashStorage) : FlashStorage :=
  mkFlashStorage (_buff s) (_buff_index s) (_opened_file s) (_curr_addr s)
    (_max_erased_addr s) (_lookahead_erase_size s) (_flash s)
    (_flash_status s) (_fat s) (_status s) v.

(** [_fat.files[i].start_addr = v;] and [_fat.files[i].end_addr = v;] *)
Definition set_file (i : Z) (f : FlashStorageFile) (t : FlashStorageFAT)
  : FlashStorageFAT :=
  mkFAT (fun j => if j =? i then f else files t j) (file_count t).
Definition set_start_addr (i v : Z) (t : FlashStorageFAT) : FlashStorageFAT :=
  set_file i (mkFile v (end_addr (files t i))) t.
Definition set_end_addr (i v : Z) (t : FlashStorageFAT) : FlashStorageFAT :=
  set_file i (mkFile (start_addr (files t i)) v) t.
Definition set_file_count (v : Z) (t : FlashStorageFAT) : FlashStorageFAT :=
  mkFAT (files t) v.

(** The record the session refers to: [_fat.files[_opened_file-1]]. *)
Definition opened_slot (s : FlashStorage) : Z := u32 (_opened_file s - 1).

(** Device calls made through [_flash]. *)
Definition flash_wait (s : FlashStorage) : FlashStorage :=
  set_flash (wait_idle (_flash s)) s.
Definition flash_writeEnable (s : FlashStorage) : FlashStorage :=
  set_flash (writeEnable (_flash s)) s.
Definition flash_sectorErase (addr : Z) (s : FlashStorage) : FlashStorage :=
  set_flash (sectorErase addr (_flash s)) s.
Definition flash_pageProgram (addr : Z) (data : Z -> Z) (len : Z)
  (s : FlashStorage) : FlashStorage :=
  set_flash (pageProgram addr data len (_flash s)) s.

(** [memcpy(&_buff[dst], &src[off], n)] *)
Definition memcpy_buff (dst : Z) (src : Z -> Z) (off n : Z) (s : FlashStorage)
  : FlashStorage :=
  set_buff (fun j => if (dst <=? j) && (j <? dst + n)
                     then src (off + (j - dst)) else _buff s j) s.

(** ** FlashStorage.cpp *)

(** *** The table on the chip: [writeFAT] and [readFAT] *)

Definition id_size : Z := 6.
Definition header_size : Z := id_size + 2.

Definition byte_at (l : list Z) (i : Z) : Z := nth (Z.to_nat i) l 0.

(** The five [buff[header_size + i*5 + k] = ...] stores of [writeFAT]. *)
Definition record_bytes (f : FlashStorageFile) : list Z :=
  [ u8 (Z.shiftr (start_addr f) 16); u8 (Z.shiftr (start_addr f) 8);
    u8 (Z.shiftr (end_addr f) 16); u8 (Z.shiftr (end_addr f) 8);
    u8 (end_addr f) ].

Definition fat_records (t : FlashStorageFAT) : list Z :=
  flat_map (fun i => record_bytes (files t (Z.of_nat i)))
           (seq 0 (Z.to_nat (file_count t))).

(** The local [buff] of [writeFAT] once it is filled in. *)
Definition fat_image (t : FlashStorageFAT) (opened : Z) : list Z :=
  FLASH_STORAGE_IDENTIFICATION_STRING
    ++ [u8 (file_count t); u8 opened] ++ fat_records t.

(** Body of the programming loop of [writeFAT]. *)
Definition fat_page (buff : list Z) (fat_size p : Z) (s : FlashStorage)
  : FlashStorage :=
  let s := flash_wait s in
  let s := flash_writeEnable s in
  let size := s32 (u32 (fat_size - u32 (p * 256))) in
  let size := if size <? 0 then size + 256 else size in
  let size := if 256 <? size then 256 else size in
  flash_pageProgram 0 (fun i => byte_at buff (p * 256 + i)) (u32 size) s.

Fixpoint fat_pages (n : nat) (buff : list Z) (fat_size p : Z)
  (s : FlashStorage) : FlashStorage :=
  match n with
  | O => s
  | S k => fat_pages k buff fat_size (p + 1) (fat_page buff fat_size p s)
  end.

Definition writeFAT (s : FlashStorage) : FlashStorage_status_t * FlashStorage :=
  let (b, d) := busy (_flash s) in
  let s := set_flash d s in
  if b then (FLASH_STORAGE_BUSY, s)
  else
    let s := flash_writeEnable s in
    let s := flash_sectorErase 0 s in
    let fat_size := u32 (header_size + file_count (_fat s) * 5) in
    let buff := fat_image (_fat s) (_opened_file s) in
    let s := fat_pages (Z.to_nat (u32 (1 + fat_size / 256))) buff fat_size 0 s in
    (FLASH_STORAGE_OK, s).

(** [strcmp(a, b) == 0] on arrays of known extent. *)
Fixpoint strcmp_eq (a b : list Z) : bool :=
  match a, b with
  | x :: a', y :: b' =>
      if x =? y then (if x =? 0 then true else strcmp_eq a' b') else false
  | _, _ => false
  end.

(** [_fat.files[i].start_addr = (c[i*5] << 8 | c[i*5+1])<<8;] *)
Definition decode_start (c : list Z) (i : Z) : option Z :=
  match int_shl (byte_at c (i * 5)) 8 with
  | Some hi =>
      match int_shl (Z.lor hi (byte_at c (i * 5 + 1))) 8 with
      | Some v => Some (u32 v)
      | None => None
      end
  | None => None
  end.

(** [_fat.files[i].end_addr = (c[i*5+2] << 8 | c[i*5+3])<<8 + c[i*5+4];]
    where [+] binds tighter than [<<]. *)
Definition decode_end (c : list Z) (i : Z) : option Z :=
  match int_shl (byte_at c (i * 5 + 2)) 8 with
  | Some hi =>
      match int_shl (Z.lor hi (byte_at c (i * 5 + 3)))
                    (8 + byte_at c (i * 5 + 4)) with
      | Some v => Some (u32 v)
      | None => None
      end
  | None => None
  end.

(** The record loop of [readFAT]; [None] when a shift is undefined. *)
Fixpoint parse_records (n : nat) (c : list Z) (i : Z) (t : FlashStorageFAT)
  : option FlashStorageFAT :=
  match n with
  | O => Some t
  | S k =>
      match decode_start c i, decode_end c i with
      | Some a, Some e =>
          parse_records k c (i + 1) (set_end_addr i e (set_start_addr i a t))
      | _, _ => None
      end
  end.

(** What [readFAT] makes of the bytes that follow the identification string:
    [header] then [fat_contents]. *)
Definition parse_fat (header contents : list Z) (t : FlashStorageFAT)
  : option FlashStorageFAT :=
  match parse_records (Z.to_nat (byte_at header 0)) contents 0 t with
  | Some t' => Some (set_file_count (byte_at header 0) t')
  | None => None
  end.

Definition readFAT (s : FlashStorage)
  : option (FlashStorage_status_t * FlashStorage) :=
  let read_size := id_size in
  let '(st, buff, d) := readData 0 read_size (_flash s) in
  let s := set_flash_status st (set_flash d s) in
  match st with
  | W25Q64_OK =>
      if strcmp_eq FLASH_STORAGE_IDENTIFICATION_STRING buff then
        let '(st, header, d) := readData read_size 2 (_flash s) in
        let s := set_flash_status st (set_flash d s) in
        let fat_len := u32 (byte_at header 0 * 5) in
        let '(st, fat_contents, d) := readData (read_size + 2) fat_len (_flash s) in
        let s := set_flash_status st (set_flash d s) in
        match parse_fat header fat_contents (_fat s) with
        | Some t => Some (FLASH_STORAGE_OK, set_fat t s)
        | None => None
        end
      else
        Some (FLASH_STORAGE_NO_FAT_FOUND,
              set_fat (set_file_count 0 (_fat s)) s)
  | W25Q64_BUSY => Some (FLASH_STORAGE_BUSY, s)
  | W25Q64_FAIL => Some (FLASH_STORAGE_FLASH_FAIL, s)
  end.

(** *** Erasing ahead *)

Definition eraseNextSector (s : FlashStorage)
  : FlashStorage_status_t * FlashStorage :=
  let (b, d) := busy (_flash s) in
  let s := set_flash d s in
  if b then (FLASH_STORAGE_BUSY, s)
  else
    let s := flash_writeEnable s in
    let s := flash_sectorErase (_max_erased_addr s) s in
    let s := set_max_erased_addr (u32 (_max_erased_addr s + 4096)) s in
    (FLASH_STORAGE_OK, s).

(** *** Flushing the buffer: [writeFIFO] *)

(** The [if(_curr_addr + _buff_index >= _max_erased_addr)] block. *)
Definition fifo_erase (s : FlashStorage) : FlashStorage :=
  if _max_erased_addr s <=? u32 (_curr_addr s + _buff_index s) then
    let s := flash_wait s in
    let s := flash_writeEnable s in
    let s := flash_sectorErase (_max_erased_addr s) s in
    set_max_erased_addr (u32 (_max_erased_addr s + 4096)) s
  else s.

(** The [if(_curr_addr%256 != 0)] block; returns [offset].  The expression
    [_curr_addr>>8+1<<8] parses as [(_curr_addr >> 9) << 8]. *)
Definition fifo_head (s : FlashStorage) : Z * FlashStorage :=
  if negb (_curr_addr s mod 256 =? 0) then
    let remaining :=
      u32 (u32 (Z.shiftl (Z.shiftr (_curr_addr s) 9) 8) - _curr_addr s) in
    let s := flash_wait s in
    let s := flash_writeEnable s in
    let s := flash_pageProgram (_curr_addr s) (_buff s) remaining s in
    let s := set_curr_addr (u32 (_curr_addr s + remaining)) s in
    (remaining, s)
  else (0, s).

(** Body of the [for] loop of [writeFIFO]. *)
Definition fifo_page (offset p : Z) (s : FlashStorage) : FlashStorage :=
  let s := flash_wait s in
  let s := flash_writeEnable s in
  let size := s32 (u32 (u32 (_buff_index s - offset) - u32 (p * 256))) in
  let size := if size <? 0 then size + 256 else size in
  let size := if 256 <? size then 256 else size in
  let from := u32 (p * 256 + offset) in
  let s := flash_pageProgram (_curr_addr s) (fun i => _buff s (from + i))
                             (u32 size) s in
  set_curr_addr (u32 (_curr_addr s + size)) s.

Fixpoint fifo_pages (n : nat) (offset p : Z) (s : FlashStorage)
  : FlashStorage :=
  match n with
  | O => s
  | S k => fifo_pages k offset (p + 1) (fifo_page offset p s)
  end.

Definition writeFIFO (s : FlashStorage)
  : FlashStorage_status_t * FlashStorage :=
  let s := fifo_erase s in
  let (offset, s) := fifo_head s in
  let n := Z.to_nat (u32 (u32 (_buff_index s - offset) / 256 + 1)) in
  let s := fifo_pages n offset 0 s in
  let s := set_buff_index 0 s in
  (FLASH_STORAGE_OK, s).

(** *** The public operations *)

(** [_mode == FLASH_STORAGE_NO_MODE;] at the end of both branches is a
    comparison whose value is dropped: the mode is left as it was. *)
Definition close (s : FlashStorage) : FlashStorage_status_t * FlashStorage :=
  match _mode s with
  | FLASH_STORAGE_NO_MODE => (FLASH_STORAGE_OK, s)
  | FLASH_STORAGE_WRITE_MODE =>
      let s := snd (writeFIFO s) in
      let s := set_fat (set_end_addr (opened_slot s) (_curr_addr s) (_fat s)) s in
      let s := set_opened_file 0 s in
      let s := flash_wait s in
      let s := snd (writeFAT s) in
      let s := set_curr_addr 0 s in
      let s := set_max_erased_addr 0 s in
      (FLASH_STORAGE_OK, s)
  | FLASH_STORAGE_READ_MODE =>
      let s := set_opened_file 0 s in
      let s := set_curr_addr 0 s in
      let s := set_max_erased_addr 0 s in
      (FLASH_STORAGE_OK, s)
  end.

Definition newFile (s : FlashStorage) : FlashStorage_status_t * FlashStorage :=
  let s := snd (close s) in
  if u32 (file_count (_fat s) + 1) <? FLASH_STORAGE_MAX_FILE_NUMBER then
    let new_addr :=
      if negb (file_count (_fat s) =? 0) then
        let last := files (_fat s) (u32 (file_count (_fat s) - 1)) in
        u32 (Z.shiftl (u32 (Z.shiftr (end_addr last) 12 + 1)) 12)
      else Z.shiftl 1 12 in
    let s := set_fat (set_file_count (u32 (file_count (_fat s) + 1)) (_fat s)) s in
    let slot := u32 (file_count (_fat s) - 1) in
    let s := set_fat (set_start_addr slot new_addr (_fat s)) s in
    let s := set_fat (set_end_addr slot new_addr (_fat s)) s in
    let s := set_opened_file (file_count (_fat s)) s in
    let s := set_mode FLASH_STORAGE_WRITE_MODE s in
    let s := flash_wait s in
    let s := flash_writeEnable s in
    let s := flash_sectorErase new_addr s in
    let s := set_curr_addr new_addr s in
    let s := set_max_erased_addr (u32 (_curr_addr s + 4096)) s in
    let s := flash_wait s in
    writeFAT s
  else (FLASH_STORAGE_NO_SPACE, s).

Definition openFile (file_index : Z) (s : FlashStorage)
  : FlashStorage_status_t * FlashStorage :=
  let s := snd (close s) in
  if file_count (_fat s) <? file_index then (FLASH_STORAGE_INVALID_FILE, s)
  else
    let s := set_opened_file file_index s in
    let s := set_curr_addr (start_addr (files (_fat s) (opened_slot s))) s in
    let s := set_mode FLASH_STORAGE_READ_MODE s in
    let s := flash_wait s in
    (FLASH_STORAGE_OK, s).

(** The [while(index + FLASH_STORAGE_FIFO_BUFFER_SIZE < length)] loop of
    [write]; [None] when it is still running after [fuel] rounds. *)
Fixpoint write_chunks (fuel : nat) (buff : Z -> Z) (length index : Z)
  (s : FlashStorage) : option (Z * FlashStorage) :=
  match fuel with
  | O =>
      if u32 (index + FLASH_STORAGE_FIFO_BUFFER_SIZE) <? length then None
      else Some (index, s)
  | S k =>
      if u32 (index + FLASH_STORAGE_FIFO_BUFFER_SIZE) <? length then
        let s := memcpy_buff 0 buff index FLASH_STORAGE_FIFO_BUFFER_SIZE s in
        let index := u32 (index + FLASH_STORAGE_FIFO_BUFFER_SIZE) in
        let s := set_buff_index FLASH_STORAGE_FIFO_BUFFER_SIZE s in
        let s := snd (writeFIFO s) in
        write_chunks k buff length index s
      else Some (index, s)
  end.

(** [write(buff, length)]: [buff i] is the byte at [buff[i]].  The loop runs
    at most [length / 1024] rounds unless [index + 1024] wraps around, in
    which case it never ends: the result is then [None]. *)
Definition write (buff : Z -> Z) (length : Z) (s : FlashStorage)
  : option (FlashStorage_status_t * FlashStorage) :=
  match _mode s with
  | FLASH_STORAGE_WRITE_MODE =>
      let remaining := u32 (FLASH_STORAGE_FIFO_BUFFER_SIZE - _buff_index s) in
      let filled :=
        if length <? remaining then
          let s := memcpy_buff (_buff_index s) buff 0 length s in
          Some (set_buff_index (u32 (_buff_index s + length)) s)
        else
          let index := remaining in
          let s := memcpy_buff (_buff_index s) buff 0 remaining s in
          let s := set_buff_index (u32 (_buff_index s + remaining)) s in
          let s := snd (writeFIFO s) in
          match write_chunks (S (Z.to_nat (length / 1024))) buff length index s with
          | Some (index, s) =>
              let s := memcpy_buff 0 buff index (u32 (length - index)) s in
              Some (set_buff_index (u32 (_buff_index s + u32 (length - index))) s)
          | None => None
          end in
      match filled with
      | Some s =>
          if u32 (_max_erased_addr s - _lookahead_erase_size s) <? _curr_addr s
          then Some (eraseNextSector s)
          else Some (FLASH_STORAGE_OK, s)
      | None => None
      end
  | _ => Some (FLASH_STORAGE_WRONG_MODE, s)
  end.

(** [read(buff, length)]: the bytes delivered into [buff] are returned with
    the count. *)
Definition read (length : Z) (s : FlashStorage) : Z * list Z * FlashStorage :=
  match _mode s with
  | FLASH_STORAGE_READ_MODE =>
      let left := u32 (end_addr (files (_fat s) (opened_slot s)) - _curr_addr s) in
      let length := if left <? length then left else length in
      let '(st, data, d) := fastRead (_curr_addr s) length (_flash s) in
      let s := set_flash_status st (set_flash d s) in
      match st with
      | W25Q64_OK => (length, data, set_curr_addr (u32 (_curr_addr s + length)) s)
      | _ => (0, data, s)
      end
  | _ => (0, [], s)
  end.

Definition peek (s : FlashStorage) : Z :=
  match _mode s with
  | FLASH_STORAGE_READ_MODE =>
      u32 (end_addr (files (_fat s) (opened_slot s)) - _curr_addr s)
  | _ => 0
  end.

Definition initializeFAT (s : FlashStorage)
  : FlashStorage_status_t * FlashStorage :=
  let s := flash_wait s in
  let s := set_fat (set_file_count 0 (_fat s)) s in
  writeFAT s.

Definition getFAT (s : FlashStorage) : FlashStorage_status_t * FlashStorageFAT :=
  (FLASH_STORAGE_OK, _fat s).

Definition deleteLastFile (s : FlashStorage)
  : FlashStorage_status_t * FlashStorage :=
  match _mode s with
  | FLASH_STORAGE_NO_MODE =>
      let s := if 0 <? file_count (_fat s)
               then set_fat (set_file_count (u32 (file_count (_fat s) - 1)) (_fat s)) s
               else s in
      let s := flash_wait s in
      let s := snd (writeFAT s) in
      (FLASH_STORAGE_OK, s)
  | _ => (FLASH_STORAGE_WRONG_MODE, s)
  end.

Definition deleteAllFiles (s : FlashStorage)
  : FlashStorage_status_t * FlashStorage :=
  match _mode s with
  | FLASH_STORAGE_NO_MODE =>
      let s := set_fat (set_file_count 0 (_fat s)) s in
      let s := flash_wait s in
      let s := snd (writeFAT s) in
      (FLASH_STORAGE_OK, s)
  | _ => (FLASH_STORAGE_WRONG_MODE, s)
  end.

Definition init (s : FlashStorage)
  : option (FlashStorage_status_t * FlashStorage) :=
  let (st, d) := flash_init (_flash s) in
  let s := set_flash_status st (set_flash d s) in
  match st with
  | W25Q64_OK =>
      match readFAT s with
      | Some (r, s) => Some (r, set_status r s)
      | None => None
      end
  | _ => Some (FLASH_STORAGE_FLASH_FAIL, s)
  end.

(** ** A store that has just been constructed *)

(** The object as a sketch declares it at file scope: zero-initialised, with
    the two default member initialisers; nothing is known of the chip's
    content. *)
Definition blank_chip (m : Z -> Z) : W25Q64 := mkW25Q64 m false [] [] [].

Definition power_on (m : Z -> Z) : FlashStorage :=
  mkFlashStorage (fun _ => 0) 0 0 0 0 FLASH_STORAGE_STANDARD_LOOKAHEAD_SIZE
    (blank_chip m) W25Q64_OK (mkFAT (fun _ => mkFile 0 0) 0)
    FLASH_STORAGE_OK FLASH_STORAGE_NO_MODE.

(** ** Vocabulary of the properties *)

(** The caller's array [buff] holding the bytes [B]. *)
Definition ptr (B : list Z) : Z -> Z := byte_at B.

Definition is_byte (b : Z) : Prop := 0 <= b < 256.

(** A run of [write] calls, one per byte sequence; the statuses are dropped. *)
Fixpoint writes (calls : list (list Z)) (s : FlashStorage)
  : option FlashStorage :=
  match calls with
  | [] => Some s
  | B :: rest =>
      match write (ptr B) (Z.of_nat (length B)) s with
      | Some (_, s') => writes rest s'
      | None => None
      end
  end.

Definition total (calls : list (list Z)) : Z :=
  fold_right (fun B acc => Z.of_nat (length B) + acc) 0 calls.

(** Every command moves one of the two pointers of the write session:
    [pageProgram(_curr_addr, .., size); _curr_addr += size;] and
    [sectorErase(_max_erased_addr); _max_erased_addr += 4096;].  The pointers
    at the moment a journal has been received are read off the journal. *)
Fixpoint cursor_after (start : Z) (j : list command) : Z :=
  match j with
  | [] => start
  | PageProgram a _ n :: _ => a + n
  | SectorErase _ :: j' => cursor_after start j'
  end.

Fixpoint frontier_after (start : Z) (j : list command) : Z :=
  match j with
  | [] => start
  | SectorErase a :: _ => a + SECTOR
  | PageProgram _ _ _ :: j' => frontier_after start j'
  end.

(** How many times an erase was issued for address [a]. *)
Fixpoint erases_of (a : Z) (j : list command) : nat :=
  match j with
  | [] => O
  | SectorErase b :: j' => if b =? a then S (erases_of a j') else erases_of a j'
  | PageProgram _ _ _ :: j' => erases_of a j'
  end.

(** [P] holds of the journal as it stood after each command (and before the
    first one). *)
Fixpoint every_moment (P : list command -> Prop) (j : list command) : Prop :=
  P j /\ match j with
         | [] => True
         | _ :: j' => every_moment P j'
         end.

(** The erase-scheduling condition at one moment of the session of the file
    created at [A]: [jc] are the commands of its creation, [m1] the array
    when [newFile] returned, [j] the commands received since. *)
Definition moment_ok (A : Z) (jc : list command) (m1 : Z -> Z)
  (j : list command) : Prop :=
  let cursor := cursor_after A j in
  let frontier := frontier_after (A + SECTOR) j in
  cursor < frontier
  /\ frontier mod SECTOR = 0
  /\ (forall a, cursor <= a < frontier -> replay j m1 a = 255)
  /\ erases_of (frontier - SECTOR) (j ++ jc) = 1%nat
  /\ (forall a, frontier <= a -> erases_of a (j ++ jc) = 0%nat).

(** The commands a flush of [n] buffered bytes sends when the cursor [c] is on
    a page boundary (most recent first): one program per round of the loop,
    after the erase at the frontier [f] if the flush reaches it. *)
Fixpoint page_programs (k : nat) (p c n : Z) (buff : Z -> Z) : list command :=
  match k with
  | O => []
  | S k' =>
      page_programs k' (p + 1) c n buff
        ++ [PageProgram (c + 256 * p) (fun i => buff (256 * p + i))
                        (Z.min 256 (n - 256 * p))]
  end.

Definition flush_commands (c n f : Z) (buff : Z -> Z) : list command :=
  page_programs (Z.to_nat (n / 256 + 1)) 0 c n buff
    ++ (if f <=? c + n then [SectorErase f] else []).

(** The commands [writeFAT] sends for a table that fits one page. *)
Definition fat_commands (t : FlashStorageFAT) (opened : Z) : list command :=
  [ PageProgram 0 (fun i => byte_at (fat_image t opened) (0 * 256 + i))
                (header_size + file_count t * 5);
    SectorErase 0 ].

(** The store [s] has received the commands [j] since [newFile] returned
    with journal [J1] and array [m1], and its two pointers are where the
    commands put them. *)
Definition follows (A : Z) (J1 : list command) (m1 : Z -> Z)
  (j : list command) (s : FlashStorage) : Prop :=
  journal (_flash s) = j ++ J1
  /\ cells (_flash s) = replay j m1
  /\ _curr_addr s = cursor_after A j
  /\ _max_erased_addr s = frontier_after (A + SECTOR) j.

(** A write session on the file at [A] that was given the bytes [D 0], [D 1],
    ... so far: the first [F] are on the chip, the next [n] in the buffer. *)
Definition core (A : Z) (jc J1 : list command) (m1 : Z -> Z) (D : Z -> Z)
  (F n : Z) (j : list command) (s : FlashStorage) : Prop :=
  follows A J1 m1 j s
  /\ every_moment (moment_ok A jc m1) j
  /\ _mode s = FLASH_STORAGE_WRITE_MODE
  /\ _lookahead_erase_size s = FLASH_STORAGE_STANDARD_LOOKAHEAD_SIZE
  /\ _buff_index s = n /\ _curr_addr s = A + F /\ 0 <= F /\ 0 <= n
  /\ (forall i, 0 <= i < n -> _buff s i = D (F + i))
  /\ (forall i, 0 <= i < F -> cells (_flash s) (A + i) = Z.land 255 (D i)).

Definition session (A : Z) (jc J1 : list command) (m1 : Z -> Z) (D : Z -> Z)
  (F n : Z) (j : list command) (s : FlashStorage) : Prop :=
  core A jc J1 m1 D F n j s
  /\ F mod 1024 = 0 /\ n <= 1024
  /\ A + F + 1024 <= _max_erased_addr s <= A + F + SECTOR.

(** The stream [D] of length [T] followed by the bytes of [buff]. *)
Definition extend (D : Z -> Z) (T : Z) (buff : Z -> Z) : Z -> Z :=
  fun i => if i <? T then D i else buff (i - T).

(** What [newFile] needs of the store it finds once the open session, if any,
    has been closed: an empty buffer, the default look-ahead, a table with
    room for one more record whose last end address is a valid address. *)
Definition room_for_file (sc : FlashStorage) : Prop :=
  _buff_index sc = 0
  /\ _lookahead_erase_size sc = FLASH_STORAGE_STANDARD_LOOKAHEAD_SIZE
  /\ 0 <= file_count (_fat sc)
  /\ file_count (_fat sc) + 1 < FLASH_STORAGE_MAX_FILE_NUMBER
  /\ (file_count (_fat sc) <> 0 ->
      0 <= end_addr (files (_fat sc) (file_count (_fat sc) - 1))).

(** The first sector boundary above the last file of the table. *)
Definition next_start (sc : FlashStorage) : Z :=
  if file_count (_fat sc) =? 0 then SECTOR
  else (end_addr (files (_fat sc) (file_count (_fat sc) - 1)) / SECTOR + 1)
       * SECTOR.

(** Address and length of the programs of a journal, oldest first. *)
Definition program_extents (j : list command) : list (Z * Z) :=
  flat_map (fun c => match c with
                     | PageProgram a _ n => [(a, n)]
                     | SectorErase _ => []
                     end) (rev j).






(** What [readFAT] makes of a table image read back from address 0: the
    identification string is compared, then the header and the records are
    parsed into the table [t0] held in memory. *)
Definition decode_image (img : list Z) (t0 : FlashStorageFAT)
  : option FlashStorageFAT :=
  if strcmp_eq FLASH_STORAGE_IDENTIFICATION_STRING (firstn 6 img) then
    let header := firstn 2 (skipn 6 img) in
    let fat_len := u32 (byte_at header 0 * 5) in
    parse_fat header (firstn (Z.to_nat fat_len) (skipn 8 img)) t0
  else Some (set_file_count 0 t0).

(** An address the record format stores without loss: below 2^24 and a
    multiple of 256. *)
Definition page_resolution (a : Z) : Prop :=
  0 <= a < 16777216 /\ a mod 256 = 0.

(** The [size] of round [p] of the loop of [writeFIFO] for [n] buffered bytes
    and no offset. *)
Definition page_size (n p : Z) : Z :=
  let size := s32 (u32 (u32 (n - 0) - u32 (p * 256))) in
  let size := if size <? 0 then size + 256 else size in
  if 256 <? size then 256 else size.

(** The public operations, and the states a sketch can bring the store to
    from construction. *)
Inductive call : Type :=
| Init
| InitializeFAT
| NewFile
| OpenFile (file_index : Z)
| Close
| Write (B : list Z)
| Read (length : Z)
| DeleteLastFile
| DeleteAllFiles.

Definition run (c : call) (s : FlashStorage) : option FlashStorage :=
  match c with
  | Init => option_map snd (init s)
  | InitializeFAT => Some (snd (initializeFAT s))
  | NewFile => Some (snd (newFile s))
  | OpenFile i => Some (snd (openFile i s))
  | Close => Some (snd (close s))
  | Write B => option_map snd (write (ptr B) (Z.of_nat (length B)) s)
  | Read n => Some (snd (read n s))
  | DeleteLastFile => Some (snd (deleteLastFile s))
  | DeleteAllFiles => Some (snd (deleteAllFiles s))
  end.

Inductive reachable : FlashStorage -> Prop :=
| reachable_power_on m : reachable (power_on m)
| reachable_run c s s' : reachable s -> run c s = Some s' -> reachable s'.

(** The members a flush does not touch. *)
Definition untouched (s s' : FlashStorage) : Prop :=
  _buff s' = _buff s /\ _opened_file s' = _opened_file s
  /\ _lookahead_erase_size s' = _lookahead_erase_size s
  /\ _fat s' = _fat s /\ _mode s' = _mode s.

(** The members of the session record and the pending replies of the chip. *)
Definition same_file (s s' : FlashStorage) : Prop :=
  _fat s' = _fat s /\ _opened_file s' = _opened_file s
  /\ _mode s' = _mode s
  /\ replies (_flash s') = replies (_flash s).

(** Two sessions used as running examples: a file that has just been created
    on a chip of zeros, and the same file reopened after three bytes were
    written to it. *)
Definition demo_writer : FlashStorage :=
  snd (newFile (power_on (fun _ => 0))).

Definition demo_reader : FlashStorage :=
  match write (ptr [1; 2; 3]) 3 demo_writer with
  | Some (_, s) => snd (openFile 1 (snd (close s)))
  | None => demo_writer
  end.


(** The array [m] holds the bytes [img] from address 0. *)
Definition holds_image (m : Z -> Z) (img : list Z) : Prop :=
  forall i, (i < length img)%nat -> m (Z.of_nat i) = nth i img 0.

(** A run of [write] calls with the statuses they return. *)
Fixpoint write_each (calls : list (list Z)) (s : FlashStorage)
  : option (list FlashStorage_status_t * FlashStorage) :=
  match calls with
  | [] => Some ([], s)
  | B :: rest =>
      match write (ptr B) (Z.of_nat (length B)) s with
      | Some (r, s') =>
          match write_each rest s' with
          | Some (rs, s'') => Some (r :: rs, s'')
          | None => None
          end
      | None => None
      end
  end.

(** The store as [close()] leaves it after a write session: the pointers are
    reset and no file is open, but the mode is still write mode. *)
Definition parked (s : FlashStorage) : Prop :=
  _mode s = FLASH_STORAGE_WRITE_MODE /\ _curr_addr s = 0
  /\ _buff_index s = 0 /\ _max_erased_addr s = 0 /\ _opened_file s = 0.

(** The array below the address [A] is as [m0] has it. *)
Definition kept_below (A : Z) (m0 : Z -> Z) (s : FlashStorage) : Prop :=
  forall a, a < A -> cells (_flash s) a = m0 a.



(** [newFile(); write(B, L); close();], then the board is reset: the object
    [s0] is constructed anew over the same chip, and [init(); openFile(index);
    read(L)] follow.  Returns the status of [init], the file count it found,
    the status of [openFile] and what [read] returns. *)
Definition write_restart_read (B : list Z) (s s0 : FlashStorage)
  : option (FlashStorage_status_t * Z * FlashStorage_status_t * (Z * list Z)) :=
  let L := Z.of_nat (length B) in
  let s1 := snd (newFile s) in
  match write (ptr B) L s1 with
  | Some (_, s2) =>
      let s3 := snd (close s2) in
      match init (set_flash (_flash s3) s0) with
      | Some (r, s4) =>
          let s5 := snd (openFile (file_count (_fat s1)) s4) in
          Some (r, file_count (_fat s4),
                fst (openFile (file_count (_fat s1)) s4), fst (read L s5))
      | None => None
      end
  | None => None
  end.

(** * Properties *)

(** ** Arithmetic *)

Lemma u32_small x : 0 <= x < 4294967296 -> u32 x = x.
Proof. intros H. unfold u32. apply Z.mod_small. exact H. Qed.

Lemma u32_range x : 0 <= u32 x < 4294967296.
Proof. unfold u32. apply Z.mod_pos_bound. lia. Qed.

Lemma s32_small x : 0 <= x < 2147483648 -> s32 x = x.
Proof. intros H. unfold s32. rewrite Z.mod_small; lia. Qed.

Lemma land_erased b : is_byte b -> Z.land 255 b = b.
Proof.
  intros H. rewrite Z.land_comm.
  change 255 with (Z.ones 8). rewrite Z.land_ones by lia.
  apply Z.mod_small. exact H.
Qed.

(** ** The chip *)

Lemma busy_keeps d :
  cells (snd (busy d)) = cells d /\ journal (snd (busy d)) = journal d
  /\ replies (snd (busy d)) = replies d.
Proof.
  unfold busy. destruct (in_progress d); [destruct (polls d)|]; simpl; auto.
Qed.

Lemma spin_keeps n : forall d,
  cells (spin n d) = cells d /\ journal (spin n d) = journal d
  /\ replies (spin n d) = replies d.
Proof.
  induction n as [|n IH]; intros d; simpl; auto.
  destruct (busy_keeps d) as (Hc & Hj & Hr).
  destruct (busy d) as [b d']; simpl in *.
  destruct b; auto.
  destruct (IH d') as (Hc' & Hj' & Hr'). rewrite Hc', Hj', Hr'. auto.
Qed.

Lemma spin_idle n : forall d,
  (length (polls d) < n)%nat -> in_progress (spin n d) = false.
Proof.
  induction n as [|n IH]; intros d Hn; [lia|]. simpl.
  unfold busy. destruct (in_progress d) eqn:Hp; [|exact Hp].
  destruct (polls d) as [|b rest] eqn:Hl; [reflexivity|].
  destruct b; [|reflexivity].
  apply IH. simpl in *. lia.
Qed.

Lemma wait_idle_cells d : cells (wait_idle d) = cells d.
Proof. apply spin_keeps. Qed.
Lemma wait_idle_journal d : journal (wait_idle d) = journal d.
Proof. apply spin_keeps. Qed.
Lemma wait_idle_replies d : replies (wait_idle d) = replies d.
Proof. apply spin_keeps. Qed.
Lemma wait_idle_idle d : in_progress (wait_idle d) = false.
Proof. apply spin_idle. lia. Qed.

Lemma busy_idle d : in_progress d = false -> busy d = (false, d).
Proof. intros H. unfold busy. rewrite H. reflexivity. Qed.

Lemma set_flash_same s : set_flash (_flash s) s = s.
Proof. destruct s; reflexivity. Qed.

(** ** What the private helpers leave alone *)

Lemma fat_pages_only_flash n : forall buff fat_size p s,
  fat_pages n buff fat_size p s
  = set_flash (_flash (fat_pages n buff fat_size p s)) s.
Proof.
  induction n as [|n IH]; intros buff fat_size p s; simpl.
  - symmetry. apply set_flash_same.
  - rewrite IH. reflexivity.
Qed.

Lemma writeFAT_only_flash s :
  snd (writeFAT s) = set_flash (_flash (snd (writeFAT s))) s.
Proof.
  unfold writeFAT. destruct (busy (_flash s)) as [b d]. destruct b; simpl.
  - reflexivity.
  - rewrite fat_pages_only_flash. reflexivity.
Qed.

Lemma eraseNextSector_buff_index s :
  _buff_index (snd (eraseNextSector s)) = _buff_index s.
Proof.
  unfold eraseNextSector. destruct (busy (_flash s)) as [b d].
  destruct b; reflexivity.
Qed.

Lemma untouched_refl s : untouched s s.
Proof. repeat split. Qed.

Lemma untouched_trans s1 s2 s3 :
  untouched s1 s2 -> untouched s2 s3 -> untouched s1 s3.
Proof.
  unfold untouched. intros (A1 & A2 & A3 & A4 & A5) (B1 & B2 & B3 & B4 & B5).
  repeat split; congruence.
Qed.

Lemma fifo_erase_untouched s : untouched s (fifo_erase s).
Proof.
  unfold fifo_erase.
  destruct (_max_erased_addr s <=? u32 (_curr_addr s + _buff_index s));
    repeat split.
Qed.

Lemma fifo_erase_buff_index s : _buff_index (fifo_erase s) = _buff_index s.
Proof.
  unfold fifo_erase.
  destruct (_max_erased_addr s <=? u32 (_curr_addr s + _buff_index s));
    reflexivity.
Qed.

Lemma fifo_head_untouched s : untouched s (snd (fifo_head s)).
Proof.
  unfold fifo_head. destruct (negb (_curr_addr s mod 256 =? 0)); repeat split.
Qed.

Lemma fifo_page_untouched offset p s : untouched s (fifo_page offset p s).
Proof. repeat split. Qed.

Lemma fifo_pages_untouched n : forall offset p s,
  untouched s (fifo_pages n offset p s).
Proof.
  induction n as [|n IH]; intros offset p s; simpl.
  - apply untouched_refl.
  - eapply untouched_trans; [apply fifo_page_untouched | apply IH].
Qed.

Lemma writeFIFO_untouched s : untouched s (snd (writeFIFO s)).
Proof.
  unfold writeFIFO.
  pose proof (fifo_erase_untouched s) as H1.
  pose proof (fifo_head_untouched (fifo_erase s)) as H2.
  destruct (fifo_head (fifo_erase s)) as [offset s2]. simpl in *.
  eapply untouched_trans; [exact H1|].
  eapply untouched_trans; [exact H2|].
  eapply untouched_trans; [apply fifo_pages_untouched|].
  repeat split.
Qed.

Lemma writeFIFO_buff_index s : _buff_index (snd (writeFIFO s)) = 0.
Proof.
  unfold writeFIFO. destruct (fifo_head (fifo_erase s)). reflexivity.
Qed.

(** ** [close] *)

Lemma close_status s : fst (close s) = FLASH_STORAGE_OK.
Proof. unfold close. destruct (_mode s); reflexivity. Qed.

Lemma close_mode s : _mode (snd (close s)) = _mode s.
Proof.
  unfold close. destruct (_mode s) eqn:Hm; simpl; try assumption.
  rewrite writeFAT_only_flash. simpl.
  destruct (writeFIFO_untouched s) as (_ & _ & _ & _ & H). congruence.
Qed.

Lemma close_file_count s :
  file_count (_fat (snd (close s))) = file_count (_fat s).
Proof.
  unfold close. destruct (_mode s); simpl; try reflexivity.
  rewrite writeFAT_only_flash. simpl.
  destruct (writeFIFO_untouched s) as (_ & _ & _ & H & _). rewrite H.
  reflexivity.
Qed.

Lemma close_no_mode s :
  _mode s = FLASH_STORAGE_NO_MODE -> close s = (FLASH_STORAGE_OK, s).
Proof. intros H. unfold close. rewrite H. reflexivity. Qed.

(** ** The decoder of [readFAT] *)

Lemma decode_end_parses c i :
  is_byte (byte_at c (i * 5 + 2)) -> is_byte (byte_at c (i * 5 + 3)) ->
  0 <= byte_at c (i * 5 + 4) < 24 ->
  decode_end c i
  = Some (u32 (s32 (Z.shiftl (Z.lor (Z.shiftl (byte_at c (i * 5 + 2)) 8)
                                    (byte_at c (i * 5 + 3)))
                             (8 + byte_at c (i * 5 + 4))))).
Proof.
  intros H2 H3 H4. unfold decode_end.
  assert (E1 : int_shl (byte_at c (i * 5 + 2)) 8
               = Some (Z.shiftl (byte_at c (i * 5 + 2)) 8)).
  { unfold int_shl. change ((0 <=? 8) && (8 <? 32)) with true. cbv iota.
    rewrite s32_small; [reflexivity|].
    rewrite Z.shiftl_mul_pow2 by lia. unfold is_byte in H2.
    change (2 ^ 8) with 256. lia. }
  rewrite E1. unfold int_shl.
  replace ((0 <=? 8 + byte_at c (i * 5 + 4)) && (8 + byte_at c (i * 5 + 4) <? 32))
    with true.
  - reflexivity.
  - symmetry. apply andb_true_iff. split; [apply Z.leb_le | apply Z.ltb_lt]; lia.
Qed.

(** C5.  The decoder does not add the fifth byte after the shift: in
    [(b2 << 8 | b3)<<8 + b4] the sum [8 + b4] is the shift count.  On the
    record bytes [00 10 00 10 01] the code yields end address 8192 where
    [((b2<<8 | b3) << 8) + b4] is 4097; the start address is decoded as
    claimed. *)
Theorem decode_end_offset_byte_is_shift_count :
  decode_end [0; 16; 0; 16; 1] 0 = Some 8192
  /\ Z.shiftl (Z.lor (Z.shiftl 0 8) 16) 8 + 1 = 4097
  /\ decode_start [0; 16; 0; 16; 1] 0
     = Some (Z.shiftl (Z.lor (Z.shiftl 0 8) 16) 8).
Proof. repeat split. Qed.

(** ** [openFile], [read] and [peek] *)

(** C9.  [openFile(0)] is never rejected: whatever the table holds, it returns
    [FLASH_STORAGE_OK], enters read mode with [_opened_file == 0], and the
    record of the session, [files[_opened_file - 1]], has index 4294967295,
    outside the table; [peek] and [read] then work from that record. *)
Theorem openFile_zero_accepted (s : FlashStorage) :
  0 <= file_count (_fat s) ->
  let s' := snd (openFile 0 s) in
  fst (openFile 0 s) = FLASH_STORAGE_OK
  /\ _mode s' = FLASH_STORAGE_READ_MODE
  /\ _opened_file s' = 0
  /\ opened_slot s' = 4294967295
  /\ ~ in_table (opened_slot s')
  /\ _curr_addr s' = start_addr (files (_fat s') 4294967295)
  /\ peek s' = u32 (end_addr (files (_fat s') 4294967295) - _curr_addr s')
  /\ forall length, 0 <= length ->
       fst (fst (read length s')) <= peek s'.
Proof.
  intros Hc. unfold openFile.
  pose proof (close_file_count s) as Hf.
  destruct (file_count (_fat (snd (close s))) <? 0) eqn:E.
  { apply Z.ltb_lt in E. lia. }
  cbn zeta. simpl fst. simpl snd.
  set (sc := snd (close s)).
  repeat split.
  - unfold in_table, opened_slot, FLASH_STORAGE_MAX_FILE_NUMBER. simpl.
    vm_compute. intros [_ H]. discriminate H.
  - intros length Hl. unfold read, peek. simpl _mode. cbv iota.
    simpl _fat. simpl _curr_addr.
    set (left := u32 _).
    destruct (fastRead _ _ _) as [[st data] d] eqn:Er.
    destruct (left <? length) eqn:El.
    + destruct st; simpl; try lia; apply (proj1 (u32_range _)).
    + apply Z.ltb_ge in El. destruct st; simpl; try lia; apply (proj1 (u32_range _)).
Qed.

Lemma openFile_zero_accepted_witness :
  0 <= file_count (_fat (power_on (fun _ => 255)))
  /\ fst (openFile 0 (power_on (fun _ => 255))) = FLASH_STORAGE_OK.
Proof.
  split; [vm_compute; discriminate |].
  apply (openFile_zero_accepted (power_on (fun _ => 255))).
  vm_compute; discriminate.
Defined.

(** C8.  In read mode, with [left = end_addr - _curr_addr] the value [peek()]
    returns: when the chip answers the read with [W25Q64_OK], [read] returns
    the requested length clamped to [left], delivers that many bytes from the
    cursor and advances the cursor by them; a request larger than [left]
    returns exactly [left] and leaves the cursor on [end_addr]; when the chip
    answers with an error, [read] returns 0 and the cursor stays. *)
Theorem read_is_clamped (s : FlashStorage) (length : Z) :
  _mode s = FLASH_STORAGE_READ_MODE ->
  0 <= end_addr (files (_fat s) (opened_slot s)) < 4294967296 ->
  let e := end_addr (files (_fat s) (opened_slot s)) in
  let '(n, data, s') := read length s in
  (next_reply (_flash s) = W25Q64_OK ->
     n = (if peek s <? length then peek s else length)
     /\ data = stored (cells (_flash s)) (_curr_addr s) n
     /\ _curr_addr s' = u32 (_curr_addr s + n)
     /\ (peek s < length -> n = peek s /\ _curr_addr s' = e))
  /\ (next_reply (_flash s) <> W25Q64_OK ->
        n = 0 /\ _curr_addr s' = _curr_addr s).
Proof.
  intros Hm He. cbv zeta. unfold read, peek. rewrite Hm.
  set (e := end_addr (files (_fat s) (opened_slot s))) in *.
  set (left := u32 (e - _curr_addr s)).
  set (len := if left <? length then left else length).
  assert (Hfull : left < length -> len = left /\ u32 (_curr_addr s + len) = e).
  { intros Hlt.
    assert (El : len = left).
    { unfold len. destruct (left <? length) eqn:E; [reflexivity|].
      apply Z.ltb_ge in E. lia. }
    split; [exact El|]. rewrite El. unfold left, u32.
    rewrite Zplus_mod_idemp_r.
    replace (_curr_addr s + (e - _curr_addr s)) with e by lia.
    apply Z.mod_small. exact He. }
  unfold fastRead, readData, next_reply.
  destruct (replies (_flash s)) as [|st rest];
    [|destruct st];
    (split; [intros Hok | intros Hko]); try discriminate Hok;
    try (exfalso; apply Hko; reflexivity).
  - split; [reflexivity|]. split; [reflexivity|]. split; [reflexivity|].
    exact Hfull.
  - split; [reflexivity|]. split; [reflexivity|]. split; [reflexivity|].
    exact Hfull.
  - split; reflexivity.
  - split; reflexivity.
Qed.

(** ** [close] does not leave the mode *)

(** C3.  [close()] in no mode changes nothing and returns [FLASH_STORAGE_OK]
    ([close_no_mode]; here for a store just constructed), but no [close()]
    ever changes [_mode]: the statement meant to reset it is the comparison
    [_mode == FLASH_STORAGE_NO_MODE;].  After [newFile(); close();] the store
    is still in write mode, and a second [close()] flushes again: it sends
    four more commands to the chip (two erases of sector 0 and two programs at
    address 0) and stores the cursor to [files[_opened_file - 1]], which is
    [files[4294967295]]. *)
Theorem close_keeps_mode :
  (forall m, close (power_on m) = (FLASH_STORAGE_OK, power_on m))
  /\ (forall s, fst (close s) = FLASH_STORAGE_OK
                /\ _mode (snd (close s)) = _mode s)
  /\ (forall m,
        let s1 := snd (close (snd (newFile (power_on m)))) in
        let s2 := snd (close s1) in
        _mode s1 = FLASH_STORAGE_WRITE_MODE
        /\ _mode s2 = FLASH_STORAGE_WRITE_MODE
        /\ program_extents (journal (_flash s1))
           = [(0, 13); (4096, 0); (0, 13)]
        /\ program_extents (journal (_flash s2))
           = [(0, 13); (4096, 0); (0, 13); (0, 0); (0, 13)]
        /\ erases_of 0 (journal (_flash s1)) = 2%nat
        /\ erases_of 0 (journal (_flash s2)) = 4%nat
        /\ files (_fat s2) 4294967295 = mkFile 0 0
        /\ files (_fat s1) 0 = mkFile 4096 4096).
Proof.
  split; [intros m; reflexivity|].
  split; [intros s; split; [apply close_status | apply close_mode]|].
  intros m. vm_compute. repeat split.
Qed.

Lemma read_is_clamped_witness :
  _mode demo_reader = FLASH_STORAGE_READ_MODE
  /\ peek demo_reader = 3
  /\ fst (fst (read 10 demo_reader)) = 3.
Proof.
  split; [reflexivity|]. split; [reflexivity|].
  assert (He : 0 <= end_addr (files (_fat demo_reader) (opened_slot demo_reader))
               < 4294967296) by (vm_compute; split; congruence).
  generalize (read_is_clamped demo_reader 10 eq_refl He).
  destruct (read 10 demo_reader) as [[n data] s']. cbv zeta.
  intros [Hok _]. destruct (Hok eq_refl) as (Hn & _).
  simpl. rewrite Hn. reflexivity.
Defined.

(** ** The buffer index *)

Lemma write_chunks_returns buff length : forall fuel index s,
  0 <= index <= length -> length + 1024 < 4294967296 ->
  length - index <= 1024 * Z.of_nat fuel ->
  _buff_index s = 0 ->
  exists index' s',
    write_chunks fuel buff length index s = Some (index', s')
    /\ _buff_index s' = 0 /\ 0 <= index' <= length /\ length <= index' + 1024.
Proof.
  induction fuel as [|fuel IH]; intros index s Hi Hl Hf Hb;
    unfold write_chunks; fold write_chunks;
    unfold FLASH_STORAGE_FIFO_BUFFER_SIZE;
    rewrite (u32_small (index + 1024)) by lia;
    destruct (index + 1024 <? length) eqn:E.
  - apply Z.ltb_lt in E. lia.
  - apply Z.ltb_ge in E. exists index, s. repeat split; try assumption; lia.
  - apply Z.ltb_lt in E.
    apply IH; try lia. apply writeFIFO_buff_index.
  - apply Z.ltb_ge in E. exists index, s. repeat split; try assumption; lia.
Qed.

(** ** The table codec *)

Lemma lor_shl8 a b : 0 <= b < 256 -> Z.lor (Z.shiftl a 8) b = a * 256 + b.
Proof.
  intros Hb.
  assert (H0 : Z.land (Z.shiftl a 8) b = 0).
  { apply Z.bits_inj'. intros n Hn. rewrite Z.land_spec, Z.bits_0.
    destruct (Z.ltb_spec n 8).
    - rewrite Z.shiftl_spec_low by lia. reflexivity.
    - replace b with (b mod 2 ^ 8) by (apply Z.mod_small; simpl; lia).
      rewrite Z.mod_pow2_bits_high by lia. apply andb_false_r. }
  pose proof (Z.add_lor_land (Z.shiftl a 8) b) as H.
  rewrite H0 in H. rewrite Z.shiftl_mul_pow2 in H |- * by lia.
  change (2 ^ 8) with 256 in *. lia.
Qed.

Lemma record_chunk (f : nat -> list Z) :
  (forall i, length (f i) = 5%nat) ->
  forall n a i k, (i < n)%nat -> (k < 5)%nat ->
    nth (i * 5 + k) (flat_map f (seq a n)) 0 = nth k (f (a + i)%nat) 0.
Proof.
  intros Hf. induction n as [|n IH]; intros a i k Hi Hk; [lia|].
  simpl. destruct i as [|i].
  - rewrite app_nth1 by (rewrite Hf; lia). rewrite Nat.add_0_r. reflexivity.
  - rewrite app_nth2 by (rewrite Hf; lia). rewrite Hf.
    replace (S i * 5 + k - 5)%nat with (i * 5 + k)%nat by lia.
    rewrite IH by lia. f_equal. f_equal. lia.
Qed.

Lemma fat_records_byte t i k :
  0 <= i < file_count t -> 0 <= k < 5 ->
  byte_at (fat_records t) (i * 5 + k)
  = nth (Z.to_nat k) (record_bytes (files t i)) 0.
Proof.
  intros Hi Hk. unfold byte_at, fat_records.
  replace (Z.to_nat (i * 5 + k)) with (Z.to_nat i * 5 + Z.to_nat k)%nat by lia.
  rewrite (record_chunk (fun i => record_bytes (files t (Z.of_nat i))))
    by (try reflexivity; lia).
  simpl. rewrite Z2Nat.id by lia. reflexivity.
Qed.

Lemma fat_records_length t :
  length (fat_records t) = (5 * Z.to_nat (file_count t))%nat.
Proof.
  unfold fat_records.
  assert (H : forall n a,
            length (flat_map (fun i => record_bytes (files t (Z.of_nat i)))
                             (seq a n)) = (5 * n)%nat).
  { induction n as [|n IH]; intros a; simpl; [reflexivity|].
    rewrite IH. lia. }
  apply H.
Qed.

Lemma decode_start_encoded t i :
  0 <= i < file_count t -> page_resolution (start_addr (files t i)) ->
  decode_start (fat_records t) i = Some (start_addr (files t i)).
Proof.
  intros Hi [Hr Hm]. unfold decode_start.
  replace (i * 5) with (i * 5 + 0) at 1 by lia.
  rewrite !fat_records_byte by lia. simpl nth.
  set (a := start_addr (files t i)) in *.
  assert (Ha : a = 256 * (a / 256)) by (apply Z.div_exact; lia).
  set (q := a / 256) in *.
  assert (Hq : 0 <= q < 65536) by lia.
  unfold u8. rewrite !Z.shiftr_div_pow2 by lia.
  change (2 ^ 16) with (256 * 256). change (2 ^ 8) with 256.
  replace (a / 256) with q by (rewrite Ha at 1; rewrite Z.mul_comm, Z.div_mul; lia).
  replace (a / (256 * 256)) with (q / 256)
    by (rewrite <- Z.div_div by lia; rewrite Ha at 1;
        rewrite (Z.mul_comm 256 q), Z.div_mul by lia; reflexivity).
  rewrite (Z.mod_small (q / 256)) by (split; [apply Z.div_pos | apply Z.div_lt_upper_bound]; lia).
  unfold int_shl. change ((0 <=? 8) && (8 <? 32)) with true. cbv iota.
  assert (Hd : 0 <= q / 256 < 256)
    by (split; [apply Z.div_pos | apply Z.div_lt_upper_bound]; lia).
  rewrite (s32_small (Z.shiftl (q / 256) 8))
    by (rewrite Z.shiftl_mul_pow2 by lia; change (2 ^ 8) with 256; lia).
  rewrite lor_shl8 by (apply Z.mod_pos_bound; lia).
  replace (q / 256 * 256 + q mod 256) with q
    by (pose proof (Z.div_mod q 256); lia).
  rewrite Z.shiftl_mul_pow2 by lia. change (2 ^ 8) with 256.
  rewrite s32_small by lia. rewrite u32_small by lia.
  f_equal. lia.
Qed.

Lemma decode_end_encoded t i :
  0 <= i < file_count t -> page_resolution (end_addr (files t i)) ->
  decode_end (fat_records t) i = Some (end_addr (files t i)).
Proof.
  intros Hi [Hr Hm]. unfold decode_end.
  rewrite !fat_records_byte by lia. simpl nth.
  set (a := end_addr (files t i)) in *.
  assert (Ha : a = 256 * (a / 256)) by (apply Z.div_exact; lia).
  set (q := a / 256) in *.
  assert (Hq : 0 <= q < 65536) by lia.
  unfold u8. rewrite Hm. rewrite !Z.shiftr_div_pow2 by lia.
  change (2 ^ 16) with (256 * 256). change (2 ^ 8) with 256.
  replace (a / 256) with q by (rewrite Ha at 1; rewrite Z.mul_comm, Z.div_mul; lia).
  replace (a / (256 * 256)) with (q / 256)
    by (rewrite <- Z.div_div by lia; rewrite Ha at 1;
        rewrite (Z.mul_comm 256 q), Z.div_mul by lia; reflexivity).
  assert (Hd : 0 <= q / 256 < 256)
    by (split; [apply Z.div_pos | apply Z.div_lt_upper_bound]; lia).
  rewrite (Z.mod_small (q / 256)) by lia.
  unfold int_shl. change ((0 <=? 8) && (8 <? 32)) with true.
  change ((0 <=? 8 + 0) && (8 + 0 <? 32)) with true. cbv iota.
  rewrite (s32_small (Z.shiftl (q / 256) 8))
    by (rewrite Z.shiftl_mul_pow2 by lia; change (2 ^ 8) with 256; lia).
  rewrite lor_shl8 by (apply Z.mod_pos_bound; lia).
  replace (q / 256 * 256 + q mod 256) with q
    by (pose proof (Z.div_mod q 256); lia).
  change (8 + 0) with 8.
  rewrite Z.shiftl_mul_pow2 by lia. change (2 ^ 8) with 256.
  rewrite s32_small by lia. rewrite u32_small by lia.
  f_equal. lia.
Qed.

Lemma files_set_both i a e t k :
  files (set_end_addr i e (set_start_addr i a t)) k
  = if k =? i then mkFile a e else files t k.
Proof.
  unfold set_end_addr, set_start_addr, set_file. simpl.
  rewrite Z.eqb_refl. destruct (k =? i); reflexivity.
Qed.

Lemma parse_records_spec (T : FlashStorageFAT) c : forall n i t,
  (forall k, i <= k < i + Z.of_nat n ->
     decode_start c k = Some (start_addr (files T k))
     /\ decode_end c k = Some (end_addr (files T k))) ->
  exists t',
    parse_records n c i t = Some t'
    /\ file_count t' = file_count t
    /\ forall k, files t' k
                 = if (i <=? k) && (k <? i + Z.of_nat n) then files T k
                   else files t k.
Proof.
  induction n as [|n IH]; intros i t H.
  - exists t. repeat split. intros k.
    destruct (Z.leb_spec i k); destruct (Z.ltb_spec k (i + Z.of_nat 0));
      simpl; try reflexivity. lia.
  - cbn [parse_records].
    destruct (H i) as [Hs He]; [lia|]. rewrite Hs, He.
    destruct (IH (i + 1)
                (set_end_addr i (end_addr (files T i))
                   (set_start_addr i (start_addr (files T i)) t)))
      as (t' & Hp & Hc & Hf).
    { intros k Hk. apply H. lia. }
    exists t'. split; [exact Hp|]. split; [rewrite Hc; reflexivity|].
    intros k. rewrite Hf, files_set_both.
    destruct (Z.eqb_spec k i) as [->|Hne].
    + destruct (Z.leb_spec (i + 1) i); [lia|].
      destruct (Z.leb_spec i i); [|lia].
      destruct (Z.ltb_spec i (i + Z.of_nat (S n))); [|lia].
      simpl. destruct (files T i); reflexivity.
    + destruct (Z.leb_spec (i + 1) k); destruct (Z.ltb_spec k (i + 1 + Z.of_nat n));
        destruct (Z.leb_spec i k); destruct (Z.ltb_spec k (i + Z.of_nat (S n)));
        simpl; try reflexivity; lia.
Qed.

Lemma fat_records_ext t t' :
  file_count t' = file_count t ->
  (forall i, 0 <= i < file_count t -> files t' i = files t i) ->
  fat_records t' = fat_records t.
Proof.
  intros Hc Hf. unfold fat_records. rewrite Hc.
  assert (H : forall a n, (Z.of_nat (a + n) <= Z.max 0 (file_count t)) ->
            flat_map (fun i => record_bytes (files t' (Z.of_nat i))) (seq a n)
            = flat_map (fun i => record_bytes (files t (Z.of_nat i))) (seq a n)).
  { intros a n. revert a. induction n as [|n IH]; intros a Ha; simpl; [reflexivity|].
    rewrite Hf by lia. rewrite IH by lia. reflexivity. }
  apply H. simpl. lia.
Qed.

(** Parsing the image of a table gives back its count and its records. *)
Lemma decode_image_of_fat_image (T T0 : FlashStorageFAT) (opened : Z) :
  0 <= file_count T <= FLASH_STORAGE_MAX_FILE_NUMBER ->
  (forall i, 0 <= i < file_count T ->
     page_resolution (start_addr (files T i))
     /\ page_resolution (end_addr (files T i))) ->
  exists T',
    decode_image (fat_image T opened) T0 = Some T'
    /\ file_count T' = file_count T
    /\ (forall i, 0 <= i < file_count T -> files T' i = files T i).
Proof.
  unfold FLASH_STORAGE_MAX_FILE_NUMBER. intros Hc Hfit.
  unfold decode_image, fat_image, FLASH_STORAGE_IDENTIFICATION_STRING.
  cbn [app firstn skipn strcmp_eq Z.eqb Pos.eqb]. cbv iota.
  unfold parse_fat. cbn [byte_at Z.to_nat nth].
  assert (Hu : u8 (file_count T) = file_count T)
    by (unfold u8; apply Z.mod_small; lia).
  rewrite Hu.
  rewrite (u32_small (file_count T * 5)) by lia.
  rewrite firstn_all2 by (rewrite fat_records_length; lia).
  destruct (parse_records_spec T (fat_records T) (Z.to_nat (file_count T)) 0 T0)
    as (t' & Hp & Hcount & Hfiles).
  { intros k Hk. rewrite Z2Nat.id in Hk by lia.
    destruct (Hfit k) as [Hs He]; [lia|].
    split; [apply decode_start_encoded | apply decode_end_encoded];
      assumption || lia. }
  rewrite Hp. eexists. split; [reflexivity|].
  split; [reflexivity|].
  intros i Hi. simpl. rewrite Hfiles. rewrite Z2Nat.id by lia.
  destruct (Z.leb_spec 0 i); destruct (Z.ltb_spec i (0 + file_count T));
    simpl; try reflexivity; lia.
Qed.

Lemma fat_image_ext t t' opened :
  file_count t' = file_count t ->
  (forall i, 0 <= i < file_count t -> files t' i = files t i) ->
  fat_image t' opened = fat_image t opened.
Proof.
  intros Hc Hf. unfold fat_image. rewrite Hc.
  rewrite (fat_records_ext t t' Hc Hf). reflexivity.
Qed.



(** The fifth byte is not carried through: an end address with a non-zero low
    byte comes back changed, and the image with it. *)
Lemma fat_codec_offset_byte_lost :
  let T := mkFAT (fun _ => mkFile 4096 4097) 1 in
  exists T',
    decode_image (fat_image T 0) T = Some T'
    /\ end_addr (files T' 0) = 8192
    /\ fat_image T' 0 <> fat_image T 0.
Proof.
  intros T. eexists. split; [vm_compute; reflexivity|].
  split; [reflexivity|]. vm_compute. discriminate.
Qed.

(** ** A flush from a page boundary *)

(** Reads a member through the setters and the device calls in front of it. *)
Ltac fields :=
  cbn [_buff _buff_index _opened_file _curr_addr _max_erased_addr
       _lookahead_erase_size _flash _flash_status _fat _status _mode
       set_buff set_buff_index set_opened_file set_curr_addr
       set_max_erased_addr set_flash set_flash_status set_fat set_status
       set_mode flash_wait flash_writeEnable flash_sectorErase
       flash_pageProgram memcpy_buff writeEnable sectorErase pageProgram issue
       cells journal replies polls in_progress fst snd
       files file_count set_file set_start_addr set_end_addr set_file_count].

Lemma replay_app j1 j2 m : replay (j1 ++ j2) m = replay j1 (replay j2 m).
Proof. induction j1 as [|c j1 IH]; simpl; [reflexivity | rewrite IH; reflexivity]. Qed.

Lemma fifo_page_aligned p s c n :
  _buff_index s = n -> 0 <= p -> 256 * p <= n -> n <= 1024 ->
  _curr_addr s = c + 256 * p -> 0 <= c -> c + n < 4294967296 ->
  let s' := fifo_page 0 p s in
  _curr_addr s' = c + Z.min n (256 * (p + 1))
  /\ _buff_index s' = n
  /\ _max_erased_addr s' = _max_erased_addr s
  /\ journal (_flash s')
     = PageProgram (c + 256 * p) (fun i => _buff s (256 * p + i))
                   (Z.min 256 (n - 256 * p)) :: journal (_flash s)
  /\ cells (_flash s')
     = apply_command (PageProgram (c + 256 * p) (fun i => _buff s (256 * p + i))
                                  (Z.min 256 (n - 256 * p)))
                     (cells (_flash s))
  /\ replies (_flash s') = replies (_flash s).
Proof.
  intros Hn Hp Hpn Hn' Hc Hc0 Hcn. unfold fifo_page. cbv zeta.
  fields. rewrite Hn, Hc. rewrite Z.sub_0_r.
  rewrite (u32_small n) by lia.
  rewrite (u32_small (p * 256)) by lia.
  rewrite (u32_small (n - p * 256)) by lia.
  rewrite (s32_small (n - p * 256)) by lia.
  rewrite (u32_small (p * 256 + 0)) by lia.
  replace (p * 256 + 0) with (256 * p) by lia.
  replace (n - p * 256) with (n - 256 * p) by lia.
  destruct (Z.ltb_spec (n - 256 * p) 0); [lia|].
  assert (Hsz : (if 256 <? n - 256 * p then 256 else n - 256 * p)
                = Z.min 256 (n - 256 * p)).
  { destruct (Z.ltb_spec 256 (n - 256 * p)); lia. }
  rewrite Hsz.
  rewrite (u32_small (Z.min 256 (n - 256 * p))) by lia.
  rewrite (u32_small (c + 256 * p + _)) by lia.
  rewrite wait_idle_cells, wait_idle_journal, wait_idle_replies.
  repeat split. lia.
Qed.

Lemma fifo_pages_aligned c n : forall k p s,
  _buff_index s = n -> 0 <= p -> 0 <= n <= 1024 ->
  Z.of_nat k + p = n / 256 + 1 ->
  _curr_addr s = c + Z.min n (256 * p) -> 0 <= c -> c + n < 4294967296 ->
  let s' := fifo_pages k 0 p s in
  _curr_addr s' = c + n
  /\ _buff_index s' = n
  /\ _max_erased_addr s' = _max_erased_addr s
  /\ journal (_flash s') = page_programs k p c n (_buff s) ++ journal (_flash s)
  /\ cells (_flash s') = replay (page_programs k p c n (_buff s)) (cells (_flash s))
  /\ replies (_flash s') = replies (_flash s).
Proof.
  induction k as [|k IH]; intros p s Hn Hp Hn' Hk Hc Hc0 Hcn.
  - simpl. repeat split; try assumption.
    rewrite Hc. f_equal.
    pose proof (Z.mul_succ_div_gt n 256). lia.
  - cbn [fifo_pages page_programs].
    assert (Hpn : 256 * p <= n).
    { pose proof (Z.mul_div_le n 256). lia. }
    rewrite Z.min_r in Hc by lia.
    destruct (fifo_page_aligned p s c n Hn Hp Hpn (proj2 Hn') Hc Hc0 Hcn)
      as (Q1 & Q2 & Q3 & Q4 & Q5 & Q6).
    destruct (fifo_page_untouched 0 p s) as (U1 & _).
    specialize (IH (p + 1) (fifo_page 0 p s) Q2 ltac:(lia) Hn' ltac:(lia) Q1 Hc0 Hcn).
    cbv zeta in IH. destruct IH as (R1 & R2 & R3 & R4 & R5 & R6).
    rewrite R1, R2, R3, R4, R5, R6, Q3, Q4, Q5, Q6, U1.
    rewrite <- app_assoc, replay_app. repeat split.
Qed.

Lemma writeFIFO_aligned s :
  let c := _curr_addr s in
  let n := _buff_index s in
  let f := _max_erased_addr s in
  c mod 256 = 0 -> 0 <= c -> 0 <= n <= 1024 -> c + n < 4294967296 ->
  0 <= f -> (f <= c + n -> f + 4096 < 4294967296) ->
  let s' := snd (writeFIFO s) in
  _curr_addr s' = c + n
  /\ _max_erased_addr s' = (if f <=? c + n then f + 4096 else f)
  /\ journal (_flash s') = flush_commands c n f (_buff s) ++ journal (_flash s)
  /\ cells (_flash s') = replay (flush_commands c n f (_buff s)) (cells (_flash s))
  /\ replies (_flash s') = replies (_flash s).
Proof.
  intros c n f Hal Hc Hn Hcn Hf Hf'. cbv zeta.
  unfold writeFIFO.
  (* the erase at the frontier *)
  assert (He : let s1 := fifo_erase s in
            _curr_addr s1 = c /\ _buff_index s1 = n /\ _buff s1 = _buff s
            /\ _max_erased_addr s1 = (if f <=? c + n then f + 4096 else f)
            /\ journal (_flash s1)
               = (if f <=? c + n then [SectorErase f] else []) ++ journal (_flash s)
            /\ cells (_flash s1)
               = replay (if f <=? c + n then [SectorErase f] else [])
                        (cells (_flash s))
            /\ replies (_flash s1) = replies (_flash s)).
  { unfold fifo_erase. fold c n f. rewrite (u32_small (c + n)) by lia.
    destruct (Z.leb_spec f (c + n)) as [Hle|Hgt].
    - specialize (Hf' Hle).
      fields. rewrite wait_idle_cells, wait_idle_journal, wait_idle_replies.
      fold c n f. rewrite u32_small by lia. repeat split.
    - repeat split. }
  cbv zeta in He. destruct He as (E1 & E2 & E3 & E4 & E5 & E6 & E7).
  set (s1 := fifo_erase s) in *.
  unfold fifo_head. rewrite E1, Hal. simpl negb. cbv iota.
  rewrite E2, Z.sub_0_r, (u32_small n) by lia.
  assert (Hk : 0 <= n / 256) by (apply Z.div_pos; lia).
  rewrite (u32_small (n / 256 + 1))
    by (pose proof (Z.mul_div_le n 256); lia).
  destruct (fifo_pages_aligned c n (Z.to_nat (n / 256 + 1)) 0 s1)
    as (R1 & R2 & R3 & R4 & R5 & R6); try assumption; try lia.
  fields. rewrite R1, R3, R4, R5, R6, E3, E4, E5, E6, E7.
  unfold flush_commands. rewrite <- app_assoc, replay_app. repeat split.
Qed.

(** ** Writing the table and closing a write session *)

Lemma writeFAT_idle s :
  in_progress (_flash s) = false -> 0 <= file_count (_fat s) < 49 ->
  let s' := snd (writeFAT s) in
  fst (writeFAT s) = FLASH_STORAGE_OK
  /\ journal (_flash s')
     = fat_commands (_fat s) (_opened_file s) ++ journal (_flash s)
  /\ cells (_flash s')
     = replay (fat_commands (_fat s) (_opened_file s)) (cells (_flash s))
  /\ replies (_flash s') = replies (_flash s).
Proof.
  intros Hi Hc. cbv zeta. unfold writeFAT. rewrite (busy_idle _ Hi).
  rewrite set_flash_same. cbv iota. fields.
  unfold header_size, id_size.
  set (fc := file_count (_fat s)) in *.
  rewrite (u32_small (6 + 2 + fc * 5)) by lia.
  assert (Hd : (6 + 2 + fc * 5) / 256 = 0) by (apply Z.div_small; lia).
  rewrite Hd. change (Z.to_nat (u32 (1 + 0))) with 1%nat.
  cbn [fat_pages]. unfold fat_page. cbv zeta. fields.
  rewrite wait_idle_cells, wait_idle_journal, wait_idle_replies.
  change (u32 (0 * 256)) with 0. rewrite Z.sub_0_r.
  rewrite (u32_small (6 + 2 + fc * 5)) by lia.
  rewrite (s32_small (6 + 2 + fc * 5)) by lia.
  destruct (Z.ltb_spec (6 + 2 + fc * 5) 0); [lia|].
  destruct (Z.ltb_spec 256 (6 + 2 + fc * 5)); [lia|].
  rewrite (u32_small (6 + 2 + fc * 5)) by lia.
  unfold fat_commands, header_size, id_size. fold fc. repeat split.
Qed.

Lemma close_write_aligned s :
  let c := _curr_addr s in
  let n := _buff_index s in
  let f := _max_erased_addr s in
  _mode s = FLASH_STORAGE_WRITE_MODE ->
  c mod 256 = 0 -> 0 <= c -> 0 <= n <= 1024 -> c + n < 4294967296 ->
  0 <= f -> (f <= c + n -> f + 4096 < 4294967296) ->
  0 <= file_count (_fat s) < 49 ->
  let s' := snd (close s) in
  let t' := set_end_addr (opened_slot s) (c + n) (_fat s) in
  _fat s' = t'
  /\ _mode s' = FLASH_STORAGE_WRITE_MODE /\ _buff_index s' = 0
  /\ _opened_file s' = 0 /\ _curr_addr s' = 0 /\ _max_erased_addr s' = 0
  /\ _buff s' = _buff s
  /\ _lookahead_erase_size s' = _lookahead_erase_size s
  /\ journal (_flash s')
     = fat_commands t' 0 ++ flush_commands c n f (_buff s) ++ journal (_flash s)
  /\ cells (_flash s')
     = replay (fat_commands t' 0 ++ flush_commands c n f (_buff s))
              (cells (_flash s))
  /\ replies (_flash s') = replies (_flash s).
Proof.
  intros c n f Hm Hal Hc Hn Hcn Hf Hf' Hfc. cbv zeta.
  destruct (writeFIFO_aligned s Hal Hc Hn Hcn Hf Hf') as (W1 & W2 & W3 & W4 & W5).
  destruct (writeFIFO_untouched s) as (U1 & U2 & U3 & U4 & U5).
  pose proof (writeFIFO_buff_index s) as W0.
  fold c n f in W1, W2, W3, W4.
  unfold close. rewrite Hm. set (s1 := snd (writeFIFO s)) in *.
  set (s2 := flash_wait (set_opened_file 0
               (set_fat (set_end_addr (opened_slot s1) (_curr_addr s1) (_fat s1)) s1))).
  assert (Hi : in_progress (_flash s2) = false) by apply wait_idle_idle.
  assert (Hc2 : 0 <= file_count (_fat s2) < 49).
  { unfold s2. fields. rewrite U4. exact Hfc. }
  destruct (writeFAT_idle s2 Hi Hc2) as (F1 & F2 & F3 & F4).
  rewrite (writeFAT_only_flash s2). fields.
  cbv zeta in F2, F3, F4. rewrite F2, F3, F4.
  unfold s2. fields.
  rewrite wait_idle_cells, wait_idle_journal, wait_idle_replies.
  unfold opened_slot. rewrite U2, U4, U1, U3, U5, W0, W1, W3, W4, W5.
  rewrite replay_app. repeat split. exact Hm.
Qed.

(** ** [newFile] *)


(** The address [newFile] gives to the file that follows one ending at [e]. *)
Lemma next_sector e :
  0 <= e -> (e / 4096 + 1) * 4096 < 4294967296 ->
  u32 (Z.shiftl (u32 (Z.shiftr e 12 + 1)) 12) = (e / 4096 + 1) * 4096.
Proof.
  intros He Hb. rewrite Z.shiftr_div_pow2 by lia. change (2 ^ 12) with 4096.
  assert (0 <= e / 4096) by (apply Z.div_pos; lia).
  rewrite (u32_small (e / 4096 + 1)) by lia.
  rewrite Z.shiftl_mul_pow2 by lia. change (2 ^ 12) with 4096.
  apply u32_small. lia.
Qed.

Lemma newFile_creates s :
  let sc := snd (close s) in
  let fc := file_count (_fat sc) in
  let A := if fc =? 0 then 4096
           else (end_addr (files (_fat sc) (fc - 1)) / 4096 + 1) * 4096 in
  0 <= fc -> fc + 1 < 32 ->
  (fc <> 0 -> 0 <= end_addr (files (_fat sc) (fc - 1))) ->
  A + 4096 < 4294967296 ->
  let s' := snd (newFile s) in
  let t' := set_end_addr fc A (set_start_addr fc A
              (set_file_count (fc + 1) (_fat sc))) in
  fst (newFile s) = FLASH_STORAGE_OK
  /\ _fat s' = t'
  /\ _mode s' = FLASH_STORAGE_WRITE_MODE /\ _buff_index s' = _buff_index sc
  /\ _opened_file s' = fc + 1 /\ _curr_addr s' = A
  /\ _max_erased_addr s' = A + 4096
  /\ _buff s' = _buff sc
  /\ _lookahead_erase_size s' = _lookahead_erase_size sc
  /\ journal (_flash s')
     = fat_commands t' (fc + 1) ++ SectorErase A :: journal (_flash sc)
  /\ cells (_flash s')
     = replay (fat_commands t' (fc + 1) ++ [SectorErase A]) (cells (_flash sc))
  /\ replies (_flash s') = replies (_flash sc).
Proof.
  intros sc fc A Hfc Hlim He HA. cbv zeta.
  unfold newFile. fold sc. fold fc.
  rewrite (u32_small (fc + 1)) by lia.
  unfold FLASH_STORAGE_MAX_FILE_NUMBER.
  destruct (Z.ltb_spec (fc + 1) 32); [|lia].
  fields.
  replace (fc + 1 - 1) with fc by lia.
  rewrite (u32_small fc) by lia.
  assert (HA' : (if negb (fc =? 0)
                 then u32 (Z.shiftl (u32 (Z.shiftr
                        (end_addr (files (_fat sc) (u32 (fc - 1)))) 12 + 1)) 12)
                 else Z.shiftl 1 12) = A).
  { unfold A. destruct (Z.eqb_spec fc 0) as [E|E]; simpl negb; cbv iota.
    - reflexivity.
    - rewrite (u32_small (fc - 1)) by lia.
      apply next_sector; [exact (He E)|].
      unfold A in HA. destruct (Z.eqb_spec fc 0); lia. }
  rewrite HA'.
  assert (HApos : 0 <= A).
  { unfold A. destruct (Z.eqb_spec fc 0) as [E|E]; [lia|].
    assert (0 <= end_addr (files (_fat sc) (fc - 1)) / 4096)
      by (apply Z.div_pos; [exact (He E) | lia]). lia. }
  rewrite (u32_small (A + 4096)) by lia.
  match goal with
  | |- context [writeFAT ?x] => set (s2 := x)
  end.
  assert (Hi : in_progress (_flash s2) = false) by apply wait_idle_idle.
  assert (Hc2 : 0 <= file_count (_fat s2) < 49) by (unfold s2; fields; lia).
  destruct (writeFAT_idle s2 Hi Hc2) as (F1 & F2 & F3 & F4).
  rewrite (writeFAT_only_flash s2).
  cbv zeta in F2, F3, F4. fields. rewrite F1, F2, F3, F4.
  unfold s2. fields.
  rewrite !wait_idle_cells, !wait_idle_journal, !wait_idle_replies.
  fields.
  rewrite !wait_idle_cells, !wait_idle_journal, !wait_idle_replies.
  rewrite replay_app. repeat split.
Qed.








(** ** Journals of a write session *)

Section Journal.

Variables (A : Z) (jc : list command) (m1 : Z -> Z).

Let M := moment_ok A jc m1.

Lemma moment_program j a data len :
  M j -> cursor_after A j <= a + len ->
  a + len < frontier_after (A + SECTOR) j ->
  M (PageProgram a data len :: j).
Proof.
  unfold M, moment_ok. cbn [cursor_after frontier_after replay app erases_of].
  intros (H1 & H2 & H3 & H4 & H5) Hc Hf.
  split; [exact Hf|]. split; [exact H2|].
  split; [|split; assumption].
  intros x Hx. cbn [apply_command].
  destruct (Z.leb_spec a x); destruct (Z.ltb_spec x (a + len));
    cbn [andb]; try lia; apply H3; lia.
Qed.

Lemma same_sector f x : f mod SECTOR = 0 -> (x / SECTOR =? f / SECTOR) = true
                                            <-> f <= x < f + SECTOR.
Proof.
  unfold SECTOR. intros Hf.
  assert (Hq : f = 4096 * (f / 4096)) by (apply Z.div_exact; lia).
  pose proof (Z.div_mod x 4096 ltac:(lia)).
  pose proof (Z.mod_pos_bound x 4096 ltac:(lia)).
  rewrite Z.eqb_eq. split; intros; [lia|].
  assert (x / 4096 < f / 4096 + 1) by (apply Z.div_lt_upper_bound; lia).
  assert (f / 4096 <= x / 4096) by (apply Z.div_le_lower_bound; lia).
  lia.
Qed.

Lemma moment_erase j :
  M j -> M (SectorErase (frontier_after (A + SECTOR) j) :: j).
Proof.
  unfold M, moment_ok. cbn [cursor_after frontier_after replay app erases_of].
  set (f := frontier_after (A + SECTOR) j).
  intros (H1 & H2 & H3 & H4 & H5).
  assert (Hs : 0 < SECTOR) by (unfold SECTOR; lia).
  split; [lia|]. split.
  { rewrite <- Zplus_mod_idemp_r, Z.mod_same, Z.add_0_r by lia. exact H2. }
  split; [|split].
  - intros x Hx. cbn [apply_command].
    destruct (x / SECTOR =? f / SECTOR) eqn:E; [reflexivity|].
    apply H3. split; [lia|].
    destruct (Z.lt_ge_cases x f) as [Hlt|Hge]; [exact Hlt|].
    assert (Ht : (x / SECTOR =? f / SECTOR) = true)
      by (apply same_sector; [exact H2 | lia]).
    congruence.
  - replace (f + SECTOR - SECTOR) with f by lia.
    rewrite Z.eqb_refl. rewrite H5 by lia. reflexivity.
  - intros a Ha. destruct (Z.eqb_spec f a); [lia|]. apply H5. lia.
Qed.

Lemma moments_pages c n buff : forall k p j,
  every_moment M j -> 0 <= p -> 0 <= n ->
  Z.of_nat k + p = n / 256 + 1 ->
  cursor_after A j = c + Z.min n (256 * p) ->
  c + n < frontier_after (A + SECTOR) j ->
  every_moment M (page_programs k p c n buff ++ j)
  /\ cursor_after A (page_programs k p c n buff ++ j) = c + n
  /\ frontier_after (A + SECTOR) (page_programs k p c n buff ++ j)
     = frontier_after (A + SECTOR) j.
Proof.
  induction k as [|k IH]; intros p j Hj Hp Hn Hk Hc Hf.
  - cbn [page_programs app]. split; [exact Hj|]. split; [|reflexivity].
    rewrite Hc. pose proof (Z.mul_succ_div_gt n 256). lia.
  - cbn [page_programs]. rewrite <- app_assoc. cbn [app].
    assert (Hpn : 256 * p <= n).
    { pose proof (Z.mul_div_le n 256). lia. }
    set (cmd := PageProgram (c + 256 * p) (fun i => buff (256 * p + i))
                            (Z.min 256 (n - 256 * p))).
    destruct (IH (p + 1) (cmd :: j)) as (Q1 & Q2 & Q3); try lia.
    + cbn [every_moment]. split; [|exact Hj].
      apply moment_program; [destruct j; apply Hj | lia | lia].
    + cbn [cursor_after cmd]. lia.
    + exact Hf.
    + split; [exact Q1|]. split; [exact Q2 | exact Q3].
Qed.

Lemma moments_flush c n f buff j :
  every_moment M j -> 0 <= n ->
  cursor_after A j = c -> frontier_after (A + SECTOR) j = f -> c + n <= f ->
  every_moment M (flush_commands c n f buff ++ j)
  /\ cursor_after A (flush_commands c n f buff ++ j) = c + n
  /\ frontier_after (A + SECTOR) (flush_commands c n f buff ++ j)
     = (if f <=? c + n then f + SECTOR else f).
Proof.
  intros Hj Hn Hc Hf Hle. unfold flush_commands. rewrite <- app_assoc.
  assert (Hk : 0 <= n / 256) by (apply Z.div_pos; lia).
  destruct (Z.leb_spec f (c + n)) as [Hb|Hb]; cbn [app].
  - assert (He : every_moment M (SectorErase f :: j)).
    { cbn [every_moment]. split; [|exact Hj].
      rewrite <- Hf. apply moment_erase. destruct j; apply Hj. }
    assert (Hc' : cursor_after A (SectorErase f :: j) = c + Z.min n (256 * 0))
      by (cbn [cursor_after]; lia).
    assert (Hf'' : c + n < frontier_after (A + SECTOR) (SectorErase f :: j))
      by (cbn [frontier_after]; unfold SECTOR; lia).
    destruct (moments_pages c n buff (Z.to_nat (n / 256 + 1)) 0
                (SectorErase f :: j) He (Z.le_refl 0) Hn ltac:(lia) Hc' Hf'')
      as (P1 & P2 & P3).
    split; [exact P1|]. split; [exact P2|]. rewrite P3. reflexivity.
  - assert (Hc' : cursor_after A j = c + Z.min n (256 * 0)) by lia.
    assert (Hf'' : c + n < frontier_after (A + SECTOR) j) by lia.
    destruct (moments_pages c n buff (Z.to_nat (n / 256 + 1)) 0 j
                Hj (Z.le_refl 0) Hn ltac:(lia) Hc' Hf'')
      as (P1 & P2 & P3).
    split; [exact P1|]. split; [exact P2|]. rewrite P3. exact Hf.
Qed.

End Journal.

Lemma replay_pages c n buff a : forall k p m,
  0 <= p -> 0 <= n -> Z.of_nat k + p = n / 256 + 1 ->
  replay (page_programs k p c n buff) m a
  = if (c + 256 * p <=? a) && (a <? c + n)
    then Z.land (m a) (buff (a - c)) else m a.
Proof.
  induction k as [|k IH]; intros p m Hp Hn Hk.
  - cbn [page_programs replay].
    pose proof (Z.mul_succ_div_gt n 256).
    destruct (Z.leb_spec (c + 256 * p) a); destruct (Z.ltb_spec a (c + n));
      cbn [andb]; try reflexivity; lia.
  - cbn [page_programs]. rewrite replay_app. rewrite IH by lia.
    cbn [replay apply_command].
    assert (Hpn : 256 * p <= n).
    { pose proof (Z.mul_div_le n 256). lia. }
    destruct (Z.leb_spec (c + 256 * (p + 1)) a);
      destruct (Z.ltb_spec a (c + n));
      destruct (Z.leb_spec (c + 256 * p) a);
      destruct (Z.ltb_spec a (c + 256 * p + Z.min 256 (n - 256 * p)));
      cbn [andb]; try reflexivity; try lia.
    f_equal. f_equal. lia.
Qed.

Lemma replay_flush c n f buff m a :
  f mod SECTOR = 0 -> 0 <= n -> a < f ->
  replay (flush_commands c n f buff) m a
  = if (c <=? a) && (a <? c + n) then Z.land (m a) (buff (a - c)) else m a.
Proof.
  intros Hf Hn Ha. unfold flush_commands. rewrite replay_app.
  assert (Hk : 0 <= n / 256) by (apply Z.div_pos; lia).
  rewrite replay_pages by lia. rewrite Z.mul_0_r, Z.add_0_r.
  assert (He : replay (if f <=? c + n then [SectorErase f] else []) m a = m a).
  { destruct (f <=? c + n); [|reflexivity]. cbn [replay apply_command].
    destruct (a / SECTOR =? f / SECTOR) eqn:E; [|reflexivity].
    apply same_sector in E; [lia | exact Hf]. }
  rewrite He. reflexivity.
Qed.

(** ** The write session *)

Lemma every_moment_now P j : every_moment P j -> P j.
Proof. destruct j; intros H; apply H. Qed.

Section Session.

Variables (A : Z) (jc J1 : list command) (m1 : Z -> Z).
Hypothesis A_aligned : A mod SECTOR = 0.
Hypothesis A_positive : 0 <= A.

Lemma aligned_1024 F : F mod 1024 = 0 -> (A + F) mod 256 = 0.
Proof.
  intros HF. unfold SECTOR in A_aligned.
  assert (HA : A = 4096 * (A / 4096)) by (apply Z.div_exact; lia).
  assert (HF' : F = 1024 * (F / 1024)) by (apply Z.div_exact; lia).
  rewrite HA, HF'.
  replace (4096 * (A / 4096) + 1024 * (F / 1024))
    with ((16 * (A / 4096) + 4 * (F / 1024)) * 256) by lia.
  apply Z.mod_mul. lia.
Qed.

Lemma core_flush D F n j s :
  core A jc J1 m1 D F n j s ->
  (A + F) mod 256 = 0 -> n <= 1024 ->
  A + F + n <= _max_erased_addr s -> A + F + n + 4096 < 4294967296 ->
  let f := _max_erased_addr s in
  let s' := snd (writeFIFO s) in
  core A jc J1 m1 D (F + n) 0 (flush_commands (A + F) n f (_buff s) ++ j) s'
  /\ _max_erased_addr s' = (if f <=? A + F + n then f + 4096 else f)
  /\ untouched s s'.
Proof.
  intros ((Fj & Fc & Fa & Ff) & Hmo & Hm & Hl & Hb & Hc & HF & Hn & Hbuf & Hcells)
         Hal Hn' Hle Hlim.
  cbv zeta. set (f := _max_erased_addr s) in *.
  pose proof (every_moment_now _ _ Hmo) as (M1 & M2 & M3 & M4 & M5).
  rewrite <- Fa, <- Ff in M1, M3. rewrite <- Ff in M2. fold f in M1, M2, M3.
  rewrite <- Fc in M3.
  pose proof (writeFIFO_aligned s) as W. cbv zeta in W.
  rewrite Hc, Hb in W. fold f in W.
  destruct W as (W1 & W2 & W3 & W4 & W5); try lia.
  destruct (writeFIFO_untouched s) as (U1 & U2 & U3 & U4 & U5).
  destruct (moments_flush A jc m1 (A + F) n f (_buff s) j Hmo Hn)
    as (P1 & P2 & P3); try congruence; try lia.
  split; [|split; [exact W2 | repeat split; assumption]].
  unfold core, follows.
  rewrite W1, W2, W3, W4, U3, U5, P2, P3, Fj, Fc, replay_app, <- app_assoc.
  split; [repeat split|].
  split; [exact P1|].
  split; [exact Hm|]. split; [exact Hl|].
  split; [apply writeFIFO_buff_index|].
  split; [lia|]. split; [lia|]. split; [lia|].
  split; [intros i Hi; lia|].
  intros i Hi. rewrite replay_flush by (assumption || lia).
  rewrite <- Fc.
  destruct (Z.leb_spec (A + F) (A + i)); destruct (Z.ltb_spec (A + i) (A + F + n));
    cbn [andb]; try lia.
  - rewrite M3 by lia. rewrite Hbuf by lia. f_equal. f_equal. lia.
  - apply Hcells. lia.
Qed.

Lemma session_flush D F j s :
  session A jc J1 m1 D F 1024 j s -> A + F + 1024 + 4096 < 4294967296 ->
  let s' := snd (writeFIFO s) in
  session A jc J1 m1 D (F + 1024) 0
    (flush_commands (A + F) 1024 (_max_erased_addr s) (_buff s) ++ j) s'
  /\ untouched s s'.
Proof.
  intros (Hcore & HF & Hn & Hfr) Hlim. cbv zeta.
  pose proof Hcore as ((_ & _ & _ & Ff) & Hmo & _).
  pose proof (every_moment_now _ _ Hmo) as (_ & M2 & _).
  rewrite <- Ff in M2.
  destruct (core_flush D F 1024 j s Hcore) as (C1 & C2 & C3); try lia.
  { apply aligned_1024. exact HF. }
  cbv zeta in C1, C2. split; [|exact C3].
  split; [exact C1|].
  split.
  { rewrite <- Zplus_mod_idemp_r, Z.mod_same, Z.add_0_r by lia. exact HF. }
  split; [lia|].
  rewrite C2. unfold SECTOR in *.
  assert (HA : A = 4096 * (A / 4096)) by (apply Z.div_exact; lia).
  assert (HF' : F = 1024 * (F / 1024)) by (apply Z.div_exact; lia).
  assert (Hf : _max_erased_addr s = 4096 * (_max_erased_addr s / 4096))
    by (apply Z.div_exact; lia).
  destruct (Z.leb_spec (_max_erased_addr s) (A + F + 1024)); lia.
Qed.

End Session.

(** What [write] leaves alone, whatever the state. *)
Lemma fifo_pages_replies n : forall offset p s,
  replies (_flash (fifo_pages n offset p s)) = replies (_flash s).
Proof.
  induction n as [|n IH]; intros offset p s; cbn [fifo_pages]; [reflexivity|].
  rewrite IH. unfold fifo_page. fields. apply wait_idle_replies.
Qed.

Lemma writeFIFO_replies s :
  replies (_flash (snd (writeFIFO s))) = replies (_flash s).
Proof.
  unfold writeFIFO.
  assert (H1 : replies (_flash (fifo_erase s)) = replies (_flash s)).
  { unfold fifo_erase.
    destruct (_max_erased_addr s <=? u32 (_curr_addr s + _buff_index s));
      [|reflexivity].
    fields. apply wait_idle_replies. }
  assert (H2 : replies (_flash (snd (fifo_head (fifo_erase s))))
               = replies (_flash (fifo_erase s))).
  { unfold fifo_head.
    destruct (negb (_curr_addr (fifo_erase s) mod 256 =? 0)); [|reflexivity].
    fields. apply wait_idle_replies. }
  destruct (fifo_head (fifo_erase s)) as [offset s2]. cbn [snd] in *.
  fields. rewrite fifo_pages_replies. congruence.
Qed.

Lemma same_file_refl s : same_file s s.
Proof. repeat split. Qed.

Lemma same_file_trans s1 s2 s3 :
  same_file s1 s2 -> same_file s2 s3 -> same_file s1 s3.
Proof.
  unfold same_file. intros (A1 & A2 & A3 & A4) (B1 & B2 & B3 & B4).
  repeat split; congruence.
Qed.

Lemma writeFIFO_same_file s : same_file s (snd (writeFIFO s)).
Proof.
  destruct (writeFIFO_untouched s) as (_ & U2 & _ & U4 & U5).
  repeat split; try assumption. apply writeFIFO_replies.
Qed.

Lemma write_chunks_same_file buff length : forall fuel index s index' s',
  write_chunks fuel buff length index s = Some (index', s') -> same_file s s'.
Proof.
  induction fuel as [|fuel IH]; intros index s index' s'; cbn [write_chunks];
    destruct (u32 (index + FLASH_STORAGE_FIFO_BUFFER_SIZE) <? length);
    intros H; try discriminate H.
  - injection H as _ <-. apply same_file_refl.
  - apply IH in H. eapply same_file_trans; [|exact H].
    eapply same_file_trans; [|apply writeFIFO_same_file]. repeat split.
  - injection H as _ <-. apply same_file_refl.
Qed.

Lemma eraseNextSector_same_file s : same_file s (snd (eraseNextSector s)).
Proof.
  unfold eraseNextSector.
  destruct (busy_keeps (_flash s)) as (_ & _ & Hr).
  destruct (busy (_flash s)) as [b d]. cbn [snd] in Hr.
  destruct b; repeat split; exact Hr.
Qed.

Lemma write_same_file buff length s r s' :
  write buff length s = Some (r, s') -> same_file s s'.
Proof.
  unfold write. destruct (_mode s) eqn:Hm;
    try (intros H; injection H as _ <-; apply same_file_refl).
  assert (Hfin : forall s1, same_file s s1 ->
            (if u32 (_max_erased_addr s1 - _lookahead_erase_size s1)
                  <? _curr_addr s1
             then Some (eraseNextSector s1)
             else Some (FLASH_STORAGE_OK, s1)) = Some (r, s') ->
            same_file s s').
  { intros s1 H1.
    destruct (u32 (_max_erased_addr s1 - _lookahead_erase_size s1) <? _curr_addr s1);
      intros H.
    - injection H as H. eapply same_file_trans; [exact H1|].
      replace s' with (snd (eraseNextSector s1)) by (rewrite H; reflexivity).
      apply eraseNextSector_same_file.
    - injection H as _ <-. exact H1. }
  destruct (length <? u32 (FLASH_STORAGE_FIFO_BUFFER_SIZE - _buff_index s)).
  - apply Hfin. repeat split.
  - destruct (write_chunks _ _ _ _ _) as [[index s1]|] eqn:Hc; [|discriminate].
    apply Hfin. apply write_chunks_same_file in Hc.
    eapply same_file_trans; [|eapply same_file_trans; [exact Hc | repeat split]].
    eapply same_file_trans; [|apply writeFIFO_same_file]. repeat split.
Qed.

Section SessionWrite.

Variables (A : Z) (jc J1 : list command) (m1 : Z -> Z).
Hypothesis A_aligned : A mod SECTOR = 0.
Hypothesis A_positive : 0 <= A.

Lemma session_ext D D' F n j s :
  (forall i, 0 <= i < F + n -> D' i = D i) ->
  session A jc J1 m1 D F n j s -> session A jc J1 m1 D' F n j s.
Proof.
  intros HD ((Hf & Hmo & Hm & Hl & Hb & Hc & HF & Hn & Hbuf & Hcells) & Hrest).
  split; [|exact Hrest].
  repeat (split; [assumption|]). split.
  - intros i Hi. rewrite HD by lia. apply Hbuf. exact Hi.
  - intros i Hi. rewrite HD by lia. apply Hcells. exact Hi.
Qed.

Lemma session_fill D F n j s src off k :
  session A jc J1 m1 D F n j s -> 0 <= k -> n + k <= 1024 ->
  (forall i, 0 <= i < k -> src (off + i) = D (F + n + i)) ->
  session A jc J1 m1 D F (n + k) j
    (set_buff_index (n + k) (memcpy_buff n src off k s)).
Proof.
  intros ((Hf & Hmo & Hm & Hl & Hb & Hc & HF & Hn & Hbuf & Hcells) & H1 & H2 & H3)
         Hk Hnk Hsrc.
  split; [|fields; repeat split; try assumption; lia].
  split; [exact Hf|]. fields.
  repeat (split; [assumption || lia|]). split; [|exact Hcells].
  intros i Hi.
  destruct (Z.leb_spec n i); destruct (Z.ltb_spec i (n + k)); cbn [andb];
    try lia.
  - rewrite Hsrc by lia. f_equal. lia.
  - apply Hbuf. lia.
Qed.

Lemma session_chunks D buff L T0 : forall fuel index s j,
  session A jc J1 m1 D (T0 + index) 0 j s ->
  (forall k, 0 <= k -> D (T0 + k) = buff k) ->
  0 <= index <= L -> L - index <= 1024 * Z.of_nat fuel ->
  0 <= T0 -> A + T0 + L + 4096 < 4294967296 ->
  exists index' s' new,
    write_chunks fuel buff L index s = Some (index', s')
    /\ session A jc J1 m1 D (T0 + index') 0 (new ++ j) s'
    /\ index <= index' <= L /\ L <= index' + 1024.
Proof.
  induction fuel as [|fuel IH]; intros index s j Hs HD Hi Hfuel HT Hlim;
    cbn [write_chunks]; unfold FLASH_STORAGE_FIFO_BUFFER_SIZE;
    rewrite (u32_small (index + 1024)) by lia;
    destruct (Z.ltb_spec (index + 1024) L) as [Hlt|Hge]; try lia.
  - exists index, s, []. split; [reflexivity|]. split; [exact Hs | lia].
  - pose proof (session_fill D (T0 + index) 0 j s buff index 1024 Hs) as Hfill.
    cbn [Z.add] in Hfill. specialize (Hfill ltac:(lia) ltac:(lia)).
    assert (Hsrc : forall i, 0 <= i < 1024 ->
              buff (index + i) = D (T0 + index + 0 + i)).
    { intros i Hi'. rewrite <- HD by lia. f_equal. lia. }
    specialize (Hfill Hsrc).
    destruct (session_flush A jc J1 m1 A_aligned A_positive D (T0 + index) j _ Hfill)
      as (Hnext & _); [lia|].
    cbv zeta in Hnext.
    replace (T0 + index + 1024) with (T0 + (index + 1024)) in Hnext by lia.
    destruct (IH (index + 1024) _ _ Hnext HD) as (index' & s' & new & W & S' & B1 & B2);
      try lia.
    exists index', s'. eexists. rewrite app_assoc in S'.
    split; [exact W|]. split; [exact S'|]. lia.
  - exists index, s, []. split; [reflexivity|]. split; [exact Hs | lia].
Qed.

Lemma session_write D F n j s buff L :
  session A jc J1 m1 D F n j s -> 0 <= L ->
  A + F + n + L + 4096 < 4294967296 ->
  exists s' new F' n',
    write buff L s = Some (FLASH_STORAGE_OK, s')
    /\ session A jc J1 m1 (extend D (F + n) buff) F' n' (new ++ j) s'
    /\ F' + n' = F + n + L.
Proof.
  intros Hs HL Hlim.
  set (D' := extend D (F + n) buff).
  assert (HD' : forall i, 0 <= i < F + n -> D' i = D i).
  { intros i Hi. unfold D', extend. destruct (Z.ltb_spec i (F + n)); [reflexivity|lia]. }
  assert (HDb : forall k, 0 <= k -> D' (F + n + k) = buff k).
  { intros k Hk. unfold D', extend.
    destruct (Z.ltb_spec (F + n + k) (F + n)); [lia|]. f_equal. lia. }
  apply (session_ext D D') in Hs; [|exact HD'].
  pose proof Hs as ((_ & _ & Hm & _ & Hb & _ & HF & Hn & _) & _ & Hn' & _).
  (* the check against the look-ahead never fires *)
  assert (Hfin : forall s1 F1 n1 j1,
            session A jc J1 m1 D' F1 n1 j1 s1 -> F1 + n1 <= F + n + L ->
            (if u32 (_max_erased_addr s1 - _lookahead_erase_size s1)
                  <? _curr_addr s1
             then Some (eraseNextSector s1)
             else Some (FLASH_STORAGE_OK, s1)) = Some (FLASH_STORAGE_OK, s1)).
  { intros s1 F1 n1 j1 ((_ & _ & _ & Hl1 & _ & Hc1 & HF1 & Hn1 & _) & _ & _ & Hfr) Hle.
    rewrite Hl1, Hc1. unfold FLASH_STORAGE_STANDARD_LOOKAHEAD_SIZE, SECTOR in *.
    rewrite u32_small by lia.
    destruct (Z.ltb_spec (_max_erased_addr s1 - 1024) (A + F1)); [lia|reflexivity]. }
  unfold write. cbn [_buff_index memcpy_buff set_buff].
  rewrite Hm, Hb. unfold FLASH_STORAGE_FIFO_BUFFER_SIZE.
  rewrite (u32_small (1024 - n)) by lia.
  destruct (Z.ltb_spec L (1024 - n)) as [Hlt|Hge].
  - rewrite (u32_small (n + L)) by lia.
    assert (S1 : session A jc J1 m1 D' F (n + L) j
                   (set_buff_index (n + L) (memcpy_buff n buff 0 L s))).
    { apply session_fill; try assumption; try lia.
      intros i Hi. rewrite <- HDb by lia. reflexivity. }
    exists (set_buff_index (n + L) (memcpy_buff n buff 0 L s)), [], F, (n + L).
    split; [apply (Hfin _ _ _ _ S1); lia|]. split; [exact S1 | lia].
  - replace (u32 (n + (1024 - n))) with (n + (1024 - n))
      by (symmetry; apply u32_small; lia).
    assert (S1 : session A jc J1 m1 D' F (n + (1024 - n)) j
                   (set_buff_index (n + (1024 - n))
                      (memcpy_buff n buff 0 (1024 - n) s))).
    { apply session_fill; try assumption; try lia.
      intros i Hi. rewrite <- HDb by lia. reflexivity. }
    replace (n + (1024 - n)) with 1024 in S1 |- * by lia.
    destruct (session_flush A jc J1 m1 A_aligned A_positive D' F j _ S1)
      as (S2 & _); [lia|].
    cbv zeta in S2.
    replace (F + 1024) with (F + n + (1024 - n)) in S2 by lia.
    destruct (session_chunks D' buff L (F + n) (S (Z.to_nat (L / 1024)))
                (1024 - n) _ _ S2 HDb)
      as (index' & s' & new & W & S3 & B1 & B2); try lia.
    { rewrite Nat2Z.inj_succ, Z2Nat.id by (apply Z.div_pos; lia).
      pose proof (Z.mul_succ_div_gt L 1024). lia. }
    rewrite W.
    pose proof S3 as ((_ & _ & _ & _ & Hb3 & _) & _).
    rewrite Hb3. rewrite (u32_small (L - index')) by lia.
    rewrite (u32_small (0 + (L - index'))) by lia.
    assert (S4 : session A jc J1 m1 D' (F + n + index') (0 + (L - index'))
                   (new ++ flush_commands (A + F) 1024 (_max_erased_addr
                        (set_buff_index 1024 (memcpy_buff n buff 0 (1024 - n) s)))
                        (_buff (set_buff_index 1024
                                  (memcpy_buff n buff 0 (1024 - n) s))) ++ j)
                   (set_buff_index (0 + (L - index'))
                      (memcpy_buff 0 buff index' (L - index') s'))).
    { apply session_fill; try assumption; try lia.
      intros i Hi. rewrite <- HDb by lia. f_equal. lia. }
    eexists. eexists. exists (F + n + index'), (0 + (L - index')).
    rewrite app_assoc in S4.
    split; [apply (Hfin _ _ _ _ S4); lia|]. split; [exact S4 | lia].
Qed.

End SessionWrite.

(** ** From [newFile] through a run of [write] calls *)

Lemma replay_fat_commands t opened m a :
  0 <= file_count t < 49 -> SECTOR <= a ->
  replay (fat_commands t opened) m a = m a.
Proof.
  unfold SECTOR. intros Hc Ha. unfold fat_commands, header_size, id_size.
  cbn [replay apply_command].
  destruct (Z.leb_spec 0 a); destruct (Z.ltb_spec a (0 + (6 + 2 + file_count t * 5)));
    cbn [andb]; try lia.
  destruct (a / SECTOR =? 0 / SECTOR) eqn:E; [|reflexivity].
  apply same_sector in E; [unfold SECTOR in E; lia | reflexivity].
Qed.

Lemma next_start_aligned sc :
  (file_count (_fat sc) <> 0 ->
   0 <= end_addr (files (_fat sc) (file_count (_fat sc) - 1))) ->
  next_start sc mod SECTOR = 0 /\ SECTOR <= next_start sc.
Proof.
  unfold next_start, SECTOR. intros He.
  destruct (Z.eqb_spec (file_count (_fat sc)) 0) as [E|E]; [split; [reflexivity|lia]|].
  split; [apply Z.mod_mul; lia|].
  assert (0 <= end_addr (files (_fat sc) (file_count (_fat sc) - 1)) / 4096)
    by (apply Z.div_pos; [exact (He E) | lia]).
  lia.
Qed.

Lemma newFile_session s D :
  let sc := snd (close s) in
  let fc := file_count (_fat sc) in
  let A := next_start sc in
  let s1 := snd (newFile s) in
  room_for_file sc -> A + SECTOR < 4294967296 ->
  fst (newFile s) = FLASH_STORAGE_OK
  /\ _curr_addr s1 = A
  /\ file_count (_fat s1) = fc + 1 /\ _opened_file s1 = fc + 1
  /\ files (_fat s1) fc = mkFile A A
  /\ replies (_flash s1) = replies (_flash sc)
  /\ exists jc,
       journal (_flash s1) = jc ++ journal (_flash sc)
       /\ session A jc (journal (_flash s1)) (cells (_flash s1)) D 0 0 [] s1.
Proof.
  intros sc fc A s1 (Hb & Hl & Hc0 & Hc1 & He) HA.
  unfold FLASH_STORAGE_MAX_FILE_NUMBER in Hc1.
  destruct (next_start_aligned sc He) as [Hal Hge]. fold A in Hal, Hge.
  pose proof (newFile_creates s) as N. cbv zeta in N. fold sc in N. fold fc in N.
  assert (HA' : (if fc =? 0 then 4096
                 else (end_addr (files (_fat sc) (fc - 1)) / 4096 + 1) * 4096) = A)
    by reflexivity.
  rewrite HA' in N. unfold SECTOR in HA.
  destruct N as (N1 & N2 & N3 & N4 & N5 & N6 & N7 & N8 & N9 & N10 & N11 & N12);
    try assumption; try lia.
  fold s1 in N2, N3, N4, N5, N6, N7, N8, N9, N10, N11, N12.
  split; [exact N1|]. split; [exact N6|].
  split; [rewrite N2; reflexivity|]. split; [exact N5|].
  split; [rewrite N2, files_set_both, Z.eqb_refl; reflexivity|].
  split; [exact N12|].
  set (t' := set_end_addr fc A (set_start_addr fc A
               (set_file_count (fc + 1) (_fat sc)))) in *.
  exists (fat_commands t' (fc + 1) ++ [SectorErase A]).
  split; [rewrite N10, <- app_assoc; reflexivity|].
  assert (Hblank : forall a, A <= a < A + SECTOR -> cells (_flash s1) a = 255).
  { intros a Ha. rewrite N11, replay_app.
    rewrite replay_fat_commands by (unfold t'; cbn [file_count set_end_addr
      set_start_addr set_file set_file_count]; lia).
    cbn [replay apply_command].
    destruct (a / SECTOR =? A / SECTOR) eqn:E; [reflexivity|].
    assert (Ht : (a / SECTOR =? A / SECTOR) = true)
      by (apply same_sector; assumption).
    congruence. }
  unfold session, core, follows. cbn [app replay cursor_after frontier_after every_moment].
  rewrite N3, N4, N6, N7, N9, Hb, Hl. unfold SECTOR in *.
  split; [|split; [reflexivity | lia]].
  split; [repeat split|].
  split.
  - (* the moment [newFile] returns *)
    split; [|exact I]. unfold moment_ok.
    cbn [app replay cursor_after frontier_after]. unfold SECTOR.
    split; [lia|]. split.
    { rewrite <- Zplus_mod_idemp_l, Hal. reflexivity. }
    split; [exact Hblank|].
    unfold fat_commands. cbn [app erases_of]. split.
    + replace (A + 4096 - 4096) with A by lia.
      destruct (Z.eqb_spec 0 A); [lia|]. rewrite Z.eqb_refl. reflexivity.
    + intros a Ha. destruct (Z.eqb_spec 0 a); [lia|].
      destruct (Z.eqb_spec A a); [lia|]. reflexivity.
  - split; [reflexivity|]. split; [reflexivity|]. split; [reflexivity|].
    split; [lia|]. split; [lia|]. split; [lia|].
    split; intros i Hi; lia.
Qed.

Section Writes.

Variables (A : Z) (jc J1 : list command) (m1 : Z -> Z).
Hypothesis A_aligned : A mod SECTOR = 0.
Hypothesis A_positive : 0 <= A.

Lemma total_nonneg calls : 0 <= total calls.
Proof. induction calls as [|B calls IH]; cbn [total fold_right]; [lia|]. fold (total calls). lia. Qed.

Lemma session_writes : forall calls D F n j s,
  session A jc J1 m1 D F n j s ->
  A + F + n + total calls + 4096 < 4294967296 ->
  exists s' D' F' n' new,
    writes calls s = Some s'
    /\ session A jc J1 m1 D' F' n' (new ++ j) s'
    /\ F' + n' = F + n + total calls
    /\ same_file s s'.
Proof.
  induction calls as [|B calls IH]; intros D F n j s Hs Hlim.
  - exists s, D, F, n, []. cbn [writes total fold_right app].
    split; [reflexivity|]. split; [exact Hs|]. split; [lia | apply same_file_refl].
  - cbn [total fold_right] in Hlim. fold (total calls) in Hlim.
    pose proof (total_nonneg calls) as Ht.
    destruct (session_write A jc J1 m1 A_aligned A_positive D F n j s
                (ptr B) (Z.of_nat (length B)) Hs)
      as (s1 & new1 & F1 & n1 & W & S1 & E1); try lia.
    destruct (IH _ _ _ _ _ S1) as (s2 & D2 & F2 & n2 & new2 & W2 & S2 & E2 & Sf2);
      [lia|].
    exists s2, D2, F2, n2, (new2 ++ new1).
    cbn [writes]. rewrite W. rewrite <- app_assoc.
    split; [exact W2|]. split; [exact S2|].
    cbn [total fold_right]. fold (total calls).
    split; [lia|].
    eapply same_file_trans; [|exact Sf2]. eapply write_same_file. exact W.
Qed.

End Writes.

(** C4.  After a successful [newFile] and any run of [write] calls that stays
    within the 32-bit address space, at every moment of the session (when
    [newFile] has returned and after each command the chip has received since,
    with the pointer it moves updated): the cursor is strictly below the
    erased frontier, the frontier is a sector boundary, every byte from the
    cursor up to the frontier is erased, the sector just below the frontier
    has been sent exactly one erase since the file was created and no sector
    at or above the frontier any.  The journal the moments are read from is
    the one the store has produced: it gives the store's cursor, frontier and
    chip content at the end of the run. *)
Theorem erase_frontier_invariant (s : FlashStorage) (calls : list (list Z)) :
  let sc := snd (close s) in
  let s1 := snd (newFile s) in
  let A := _curr_addr s1 in
  room_for_file sc ->
  next_start sc + total calls + SECTOR < 4294967296 ->
  fst (newFile s) = FLASH_STORAGE_OK
  /\ exists jc s2 j,
       journal (_flash s1) = jc ++ journal (_flash sc)
       /\ writes calls s1 = Some s2
       /\ journal (_flash s2) = j ++ journal (_flash s1)
       /\ _curr_addr s2 = cursor_after A j
       /\ _max_erased_addr s2 = frontier_after (A + SECTOR) j
       /\ cells (_flash s2) = replay j (cells (_flash s1))
       /\ every_moment (moment_ok A jc (cells (_flash s1))) j.
Proof.
  intros sc s1 A Hroom Hlim.
  pose proof (total_nonneg calls) as Ht.
  destruct (newFile_session s (fun _ => 0) Hroom) as (N1 & N2 & _ & _ & _ & _ & jc & Nj & Ns).
  { fold sc. lia. }
  fold sc in N2, Nj, Ns. fold s1 in N2, Nj, Ns. fold A in N2.
  rewrite <- N2 in Ns, Hlim.
  destruct Hroom as (_ & _ & _ & _ & He).
  destruct (next_start_aligned sc He) as [Hal Hge]. fold sc in N2. rewrite <- N2 in Hal, Hge.
  split; [exact N1|].
  destruct (session_writes A jc (journal (_flash s1)) (cells (_flash s1)) Hal
              ltac:(unfold SECTOR in Hge; lia) calls _ _ _ _ _ Ns)
    as (s2 & D' & F' & n' & new & W & S2 & _).
  { unfold SECTOR in Hlim. lia. }
  rewrite app_nil_r in S2.
  destruct S2 as (((Fj & Fc & Fa & Ff) & Hmo & _) & _).
  exists jc, s2, new. repeat (split; [assumption|]). exact Hmo.
Qed.

Lemma erase_frontier_invariant_witness :
  let s := power_on (fun _ => 0) in
  let calls := [repeat 7 3000; repeat 9 2000] in
  room_for_file (snd (close s))
  /\ fst (newFile s) = FLASH_STORAGE_OK
  /\ exists s2, writes calls (snd (newFile s)) = Some s2
                /\ _curr_addr s2 < _max_erased_addr s2.
Proof.
  intros s calls.
  assert (Hroom : room_for_file (snd (close s))).
  { unfold room_for_file. vm_compute. intuition congruence. }
  assert (Hlim : next_start (snd (close s)) + total calls + SECTOR < 4294967296)
    by (vm_compute; reflexivity).
  destruct (erase_frontier_invariant s calls Hroom Hlim)
    as (H1 & jc & s2 & j & _ & W & _ & Hc & Hf & _ & Hmo).
  split; [exact Hroom|]. split; [exact H1|].
  exists s2. split; [exact W|].
  rewrite Hc, Hf. apply (every_moment_now _ _ Hmo).
Defined.

(** ** Closing, reopening and reading back *)

Lemma stored_eq m a B :
  (forall i, (i < length B)%nat -> m (a + Z.of_nat i) = nth i B 0) ->
  stored m a (Z.of_nat (length B)) = B.
Proof.
  intros H. unfold stored. rewrite Nat2Z.id.
  assert (G : forall l k,
            (forall i, (i < length l)%nat ->
                       m (a + Z.of_nat (k + i)) = nth i l 0) ->
            map (fun i => m (a + Z.of_nat i)) (seq k (length l)) = l).
  { induction l as [|b l IH]; intros k Hl; [reflexivity|].
    cbn [length seq map]. f_equal.
    - rewrite <- (Nat.add_0_r k) at 1. apply (Hl 0%nat). cbn [length]. lia.
    - apply IH. intros i Hi.
      replace (S k + i)%nat with (k + S i)%nat by lia.
      apply (Hl (S i)). cbn [length]. lia. }
  apply G. exact H.
Qed.

Lemma files_set_end_other i v t k :
  k <> i -> files (set_end_addr i v t) k = files t k.
Proof.
  intros Hk. unfold set_end_addr, set_file. cbn [files].
  destruct (Z.eqb_spec k i); [contradiction | reflexivity].
Qed.

Lemma files_set_end_same i v t :
  files (set_end_addr i v t) i = mkFile (start_addr (files t i)) v.
Proof. unfold set_end_addr, set_file. cbn [files]. rewrite Z.eqb_refl. reflexivity. Qed.



Section Fidelity.

Variables (A : Z) (jc J1 : list command) (m1 : Z -> Z).
Hypothesis A_aligned : A mod SECTOR = 0.
Hypothesis A_sector : SECTOR <= A.

Lemma session_close D F n j s :
  session A jc J1 m1 D F n j s -> A + F + n + 4096 < 4294967296 ->
  0 <= file_count (_fat s) < 49 ->
  let s' := snd (close s) in
  _fat s' = set_end_addr (opened_slot s) (A + F + n) (_fat s)
  /\ _mode s' = FLASH_STORAGE_WRITE_MODE /\ _buff_index s' = 0
  /\ _curr_addr s' = 0 /\ _max_erased_addr s' = 0
  /\ replies (_flash s') = replies (_flash s)
  /\ forall i, 0 <= i < F + n ->
       cells (_flash s') (A + i) = Z.land 255 (D i).
Proof.
  intros (Hcore & HF & Hn & Hfr) Hlim Hfc. cbv zeta.
  assert (Hpos : 0 <= A) by (unfold SECTOR in A_sector; lia).
  pose proof Hcore as ((Fj & Fc & Fa & Ff) & Hmo & Hm & _ & Hb & Hc & HF0 & Hn0 & _).
  destruct (core_flush A jc J1 m1 Hpos D F n j s Hcore)
    as (((_ & Wc & _) & _ & _ & _ & _ & _ & _ & _ & _ & Wcells) & _ & _);
    try lia.
  { apply aligned_1024; assumption. }
  pose proof (close_write_aligned s) as C. cbv zeta in C.
  rewrite Hc, Hb in C.
  destruct C as (C1 & C2 & C3 & _ & C5 & C6 & _ & _ & _ & C10 & C11);
    try assumption; try lia.
  { apply aligned_1024; assumption. }
  split; [exact C1|]. split; [exact C2|]. split; [exact C3|].
  split; [exact C5|]. split; [exact C6|]. split; [exact C11|].
  intros i Hi. rewrite C10, replay_app.
  rewrite replay_fat_commands
    by (cbn [file_count set_end_addr set_file]; try assumption; lia).
  rewrite <- (Wcells i Hi). rewrite Wc, Fc, replay_app. reflexivity.
Qed.

End Fidelity.



(** ** The page programs of a flush *)

Lemma page_programs_legal c n buff :
  c mod 256 = 0 -> 0 <= n -> forall k p,
  0 <= p -> Z.of_nat k + p = n / 256 + 1 ->
  Forall legal_command (page_programs k p c n buff).
Proof.
  intros Hc Hn. induction k as [|k IH]; intros p Hp Hk; cbn [page_programs].
  - constructor.
  - apply Forall_app. split; [apply IH; lia|].
    constructor; [|constructor].
    assert (Hpn : 256 * p <= n).
    { pose proof (Z.mul_div_le n 256). lia. }
    unfold legal_command, legal_program, PAGE. split; [lia|].
    destruct (Z.eq_dec (Z.min 256 (n - 256 * p)) 0) as [E|E]; [left; exact E|].
    right.
    assert (Hq : c = 256 * (c / 256)) by (apply Z.div_exact; lia).
    set (len := Z.min 256 (n - 256 * p)) in *.
    replace (c + 256 * p) with ((c / 256 + p) * 256) by lia.
    rewrite Z.div_mul by lia.
    replace ((c / 256 + p) * 256 + len - 1)
      with ((c / 256 + p) * 256 + (len - 1)) by lia.
    rewrite Z.div_add_l by lia.
    rewrite (Z.div_small (len - 1)) by lia. lia.
Qed.

(** From a page boundary every command of a flush is legal. *)
Lemma aligned_flush_legal s :
  let c := _curr_addr s in
  let n := _buff_index s in
  let f := _max_erased_addr s in
  c mod 256 = 0 -> 0 <= c -> 0 <= n <= 1024 -> c + n < 4294967296 ->
  0 <= f -> (f <= c + n -> f + 4096 < 4294967296) ->
  exists new,
    journal (_flash (snd (writeFIFO s))) = new ++ journal (_flash s)
    /\ Forall legal_command new.
Proof.
  intros c n f Hal Hc Hn Hcn Hf Hf'.
  destruct (writeFIFO_aligned s Hal Hc Hn Hcn Hf Hf') as (_ & _ & W & _).
  exists (flush_commands c n f (_buff s)). split; [exact W|].
  unfold flush_commands. apply Forall_app. split.
  - apply page_programs_legal; try lia; try assumption.
    assert (0 <= n / 256) by (apply Z.div_pos; lia). lia.
  - destruct (f <=? c + n); repeat constructor.
Qed.

(** Off a page boundary the first chunk is never the rest of the page: its
    length always exceeds a page. *)
Lemma unaligned_head_oversized s :
  0 <= _curr_addr s < 4294967296 -> _curr_addr s mod 256 <> 0 ->
  fst (fifo_head s)
  = 4294967296 + _curr_addr s / 512 * 256 - _curr_addr s
  /\ PAGE < fst (fifo_head s).
Proof.
  intros Hc Hal. unfold fifo_head, PAGE.
  destruct (Z.eqb_spec (_curr_addr s mod 256) 0) as [E|_]; [contradiction|].
  cbn [negb fst].
  set (c := _curr_addr s) in *.
  rewrite Z.shiftr_div_pow2, Z.shiftl_mul_pow2 by lia.
  change (2 ^ 9) with 512. change (2 ^ 8) with 256.
  pose proof (Z.div_mod c 512 ltac:(lia)) as Hd.
  pose proof (Z.mod_pos_bound c 512 ltac:(lia)) as Hm.
  assert (Hq : 0 <= c / 512) by (apply Z.div_pos; lia).
  assert (Hc0 : c <> 0) by (intros ->; apply Hal; reflexivity).
  rewrite (u32_small (c / 512 * 256)) by lia.
  assert (Hu : u32 (c / 512 * 256 - c) = 4294967296 + c / 512 * 256 - c).
  { unfold u32.
    replace (c / 512 * 256 - c)
      with (4294967296 + c / 512 * 256 - c + (-1) * 4294967296) by lia.
    rewrite Z.mod_add by lia. apply Z.mod_small. lia. }
  rewrite Hu. split; [reflexivity | lia].
Qed.


(** ** The buffer index over every run of the store *)

Lemma u32_le x : 0 <= x -> u32 x <= x.
Proof. intros H. unfold u32. apply Z.mod_le; lia. Qed.

Lemma write_chunks_index buff length : forall fuel index s index' s',
  write_chunks fuel buff length index s = Some (index', s') ->
  0 <= index <= length -> _buff_index s = 0 ->
  _buff_index s' = 0 /\ 0 <= index' <= length /\ length <= index' + 1024.
Proof.
  induction fuel as [|fuel IH]; intros index s index' s'; cbn [write_chunks];
    unfold FLASH_STORAGE_FIFO_BUFFER_SIZE;
    destruct (Z.ltb_spec (u32 (index + 1024)) length) as [Hlt|Hge];
    intros H Hi Hb; try discriminate H.
  - injection H as <- <-. pose proof (u32_le (index + 1024)). lia.
  - apply IH in H; [exact H | | apply writeFIFO_buff_index].
    pose proof (u32_range (index + 1024)). lia.
  - injection H as <- <-. pose proof (u32_le (index + 1024)). lia.
Qed.

Lemma write_buffer_bound s buff length r s' :
  0 <= _buff_index s <= FLASH_STORAGE_FIFO_BUFFER_SIZE -> 0 <= length ->
  write buff length s = Some (r, s') ->
  0 <= _buff_index s' <= FLASH_STORAGE_FIFO_BUFFER_SIZE.
Proof.
  unfold FLASH_STORAGE_FIFO_BUFFER_SIZE. intros Hb Hl.
  unfold write. destruct (_mode s);
    try (intros H; injection H as _ <-; exact Hb).
  assert (Hfin : forall s1, 0 <= _buff_index s1 <= 1024 ->
            (if u32 (_max_erased_addr s1 - _lookahead_erase_size s1)
                  <? _curr_addr s1
             then Some (eraseNextSector s1)
             else Some (FLASH_STORAGE_OK, s1)) = Some (r, s') ->
            0 <= _buff_index s' <= 1024).
  { intros s1 H1.
    destruct (u32 (_max_erased_addr s1 - _lookahead_erase_size s1) <? _curr_addr s1);
      intros H.
    - injection H as H.
      replace s' with (snd (eraseNextSector s1)) by (rewrite H; reflexivity).
      rewrite eraseNextSector_buff_index. exact H1.
    - injection H as _ <-. exact H1. }
  unfold FLASH_STORAGE_FIFO_BUFFER_SIZE.
  rewrite (u32_small (1024 - _buff_index s)) by lia.
  destruct (Z.ltb_spec length (1024 - _buff_index s)) as [Hlt|Hge].
  - apply Hfin. fields. rewrite u32_small; lia.
  - destruct (write_chunks _ _ _ _ _) as [[index s1]|] eqn:Hc; [|discriminate].
    apply write_chunks_index in Hc; [|lia|apply writeFIFO_buff_index].
    destruct Hc as (Hb1 & Hi & Hle).
    apply Hfin. fields. rewrite Hb1.
    rewrite (u32_small (length - index)) by lia.
    rewrite u32_small; lia.
Qed.

Lemma some_pair {X Y : Type} (x : X * Y) : exists a b, Some x = Some (a, b).
Proof. destruct x as [a b]. exists a, b. reflexivity. Qed.

Lemma write_returns s buff length :
  _mode s = FLASH_STORAGE_WRITE_MODE ->
  0 <= _buff_index s <= FLASH_STORAGE_FIFO_BUFFER_SIZE ->
  0 <= length -> length + 1024 < 4294967296 ->
  exists r s', write buff length s = Some (r, s').
Proof.
  unfold FLASH_STORAGE_FIFO_BUFFER_SIZE. intros Hm Hb Hl Hw.
  unfold write. rewrite Hm. unfold FLASH_STORAGE_FIFO_BUFFER_SIZE.
  rewrite (u32_small (1024 - _buff_index s)) by lia.
  destruct (Z.ltb_spec length (1024 - _buff_index s)) as [Hlt|Hge].
  - match goal with
    | |- context [if ?b then _ else _] => destruct b
    end; apply some_pair.
  - set (s1 := snd (writeFIFO _)).
    destruct (write_chunks_returns buff length (S (Z.to_nat (length / 1024)))
                (1024 - _buff_index s) s1) as (index' & s' & Hc & _).
    + lia.
    + exact Hw.
    + rewrite Nat2Z.inj_succ, Z2Nat.id by (apply Z.div_pos; lia).
      pose proof (Z.mul_succ_div_gt length 1024). lia.
    + apply writeFIFO_buff_index.
    + rewrite Hc.
      match goal with
      | |- context [if ?b then _ else _] => destruct b
      end; apply some_pair.
Qed.

Lemma close_buff_index s :
  _buff_index (snd (close s)) = 0
  \/ _buff_index (snd (close s)) = _buff_index s.
Proof.
  unfold close. destruct (_mode s); [right; reflexivity | right; reflexivity |].
  left. rewrite writeFAT_only_flash. fields. apply writeFIFO_buff_index.
Qed.

Lemma run_buff_index c s s' :
  run c s = Some s' ->
  _buff_index s' = 0 \/ _buff_index s' = _buff_index s
  \/ exists B r, c = Write B
                 /\ write (ptr B) (Z.of_nat (length B)) s = Some (r, s').
Proof.
  destruct c; cbn [run]; intros H.
  - right. left. unfold init in H.
    destruct (flash_init (_flash s)) as [st d].
    destruct st; cbn [option_map] in H;
      try (injection H as <-; reflexivity).
    unfold readFAT in H.
    destruct (readData 0 id_size _) as [[st1 b1] d1].
    destruct st1; cbn [option_map snd] in H;
      try (injection H as <-; reflexivity).
    destruct (strcmp_eq _ _).
    + destruct (readData id_size 2 _) as [[st2 b2] d2].
      destruct (readData (id_size + 2) _ _) as [[st3 b3] d3].
      destruct (parse_fat _ _ _); cbn [option_map snd] in H; [|discriminate].
      injection H as <-. reflexivity.
    + cbn [option_map snd] in H. injection H as <-. reflexivity.
  - right. left. injection H as <-. unfold initializeFAT.
    rewrite writeFAT_only_flash. reflexivity.
  - injection H as <-.
    assert (E : _buff_index (snd (newFile s)) = _buff_index (snd (close s))).
    { unfold newFile.
      destruct (u32 (file_count (_fat (snd (close s))) + 1)
                <? FLASH_STORAGE_MAX_FILE_NUMBER); [|reflexivity].
      rewrite writeFAT_only_flash. reflexivity. }
    rewrite E. destruct (close_buff_index s) as [H|H]; auto.
  - injection H as <-.
    assert (E : _buff_index (snd (openFile file_index s))
                = _buff_index (snd (close s))).
    { unfold openFile.
      destruct (file_count (_fat (snd (close s))) <? file_index); reflexivity. }
    rewrite E. destruct (close_buff_index s) as [H|H]; auto.
  - injection H as <-. destruct (close_buff_index s) as [H|H]; auto.
  - right. right. destruct (write _ _ s) as [[r s1]|] eqn:E; [|discriminate].
    cbn [option_map snd] in H. injection H as <-. exists B, r. auto.
  - right. left. injection H as <-. unfold read.
    destruct (_mode s); try reflexivity.
    destruct (fastRead _ _ _) as [[st data] d]. destruct st; reflexivity.
  - right. left. injection H as <-. unfold deleteLastFile.
    destruct (_mode s); try reflexivity.
    rewrite writeFAT_only_flash.
    destruct (0 <? file_count (_fat s)); reflexivity.
  - right. left. injection H as <-. unfold deleteAllFiles.
    destruct (_mode s); try reflexivity.
    rewrite writeFAT_only_flash. reflexivity.
Qed.

Lemma reachable_buffer_bound s :
  reachable s -> 0 <= _buff_index s <= FLASH_STORAGE_FIFO_BUFFER_SIZE.
Proof.
  induction 1 as [m | c s s' Hr IH Hrun].
  - cbn. unfold FLASH_STORAGE_FIFO_BUFFER_SIZE. lia.
  - destruct (run_buff_index c s s' Hrun) as [E | [E | (B & r & _ & W)]].
    + rewrite E. unfold FLASH_STORAGE_FIFO_BUFFER_SIZE. lia.
    + rewrite E. exact IH.
    + apply (write_buffer_bound s (ptr B) (Z.of_nat (length B)) r s' IH); [lia | exact W].
Qed.

(** C10.  The fill index never leaves the buffer: every flush resets it to 0;
    in every state the public operations can bring the store to it is
    between 0 and 1024; whenever a [write] call made with the index in that
    range returns, the index is in that range again; and such a call made in
    write mode does return when [length + 1024] fits 32 bits (which holds of
    every array that shares the address space with the 1024-byte buffer). *)
Theorem buffer_index_within_capacity :
  (forall s, _buff_index (snd (writeFIFO s)) = 0)
  /\ (forall s, reachable s ->
        0 <= _buff_index s <= FLASH_STORAGE_FIFO_BUFFER_SIZE)
  /\ (forall s buff length r s',
        0 <= _buff_index s <= FLASH_STORAGE_FIFO_BUFFER_SIZE -> 0 <= length ->
        write buff length s = Some (r, s') ->
        0 <= _buff_index s' <= FLASH_STORAGE_FIFO_BUFFER_SIZE)
  /\ (forall s buff length,
        _mode s = FLASH_STORAGE_WRITE_MODE ->
        0 <= _buff_index s <= FLASH_STORAGE_FIFO_BUFFER_SIZE ->
        0 <= length -> length + 1024 < 4294967296 ->
        exists r s', write buff length s = Some (r, s')).
Proof.
  split; [exact writeFIFO_buff_index|].
  split; [exact reachable_buffer_bound|].
  split; [exact write_buffer_bound | exact write_returns].
Qed.

Lemma buffer_index_within_capacity_witness :
  reachable demo_writer
  /\ 0 <= _buff_index demo_writer <= FLASH_STORAGE_FIFO_BUFFER_SIZE
  /\ exists r s',
       write (ptr [1; 2; 3]) 3 demo_writer = Some (r, s')
       /\ 0 <= _buff_index s' <= FLASH_STORAGE_FIFO_BUFFER_SIZE.
Proof.
  destruct buffer_index_within_capacity as (_ & Hreach & Hkeep & Hret).
  assert (R : reachable demo_writer).
  { unfold demo_writer.
    exact (reachable_run NewFile (power_on (fun _ => 0)) _
             (reachable_power_on _) eq_refl). }
  assert (Hb : 0 <= _buff_index demo_writer <= FLASH_STORAGE_FIFO_BUFFER_SIZE)
    by (exact (Hreach demo_writer R)).
  split; [exact R|]. split; [exact Hb|].
  destruct (Hret demo_writer (ptr [1; 2; 3]) 3 eq_refl Hb ltac:(lia) ltac:(lia))
    as (r & s' & W).
  exists r, s'. split; [exact W|].
  exact (Hkeep demo_writer (ptr [1; 2; 3]) 3 r s' Hb ltac:(lia) W).
Defined.

(** ** Where the public operations start a flush *)

Lemma u32_mod_1024 x : u32 x mod 1024 = x mod 1024.
Proof.
  unfold u32. apply Z.mod_mod_divide. exists 4194304. reflexivity.
Qed.

Lemma aligned_256 c : c mod 1024 = 0 -> c mod 256 = 0.
Proof.
  intros Hc. assert (H : c = 1024 * (c / 1024)) by (apply Z.div_exact; lia).
  rewrite H. replace (1024 * (c / 1024)) with (4 * (c / 1024) * 256) by lia.
  apply Z.mod_mul. lia.
Qed.

Lemma fifo_erase_cursor s : _curr_addr (fifo_erase s) = _curr_addr s.
Proof.
  unfold fifo_erase.
  destruct (_max_erased_addr s <=? u32 (_curr_addr s + _buff_index s));
    reflexivity.
Qed.

Lemma full_rounds : Z.to_nat (u32 (u32 (1024 - 0) / 256 + 1)) = 5%nat.
Proof. vm_compute. reflexivity. Qed.

Lemma full_sizes :
  page_size 1024 0 = 256 /\ page_size 1024 (0 + 1) = 256
  /\ page_size 1024 (0 + 1 + 1) = 256 /\ page_size 1024 (0 + 1 + 1 + 1) = 256
  /\ page_size 1024 (0 + 1 + 1 + 1 + 1) = 0.
Proof. vm_compute. repeat split. Qed.

Lemma fifo_page_full p sz s :
  _buff_index s = 1024 -> page_size 1024 p = sz ->
  _curr_addr (fifo_page 0 p s) mod 1024 = (_curr_addr s + sz) mod 1024
  /\ _buff_index (fifo_page 0 p s) = 1024.
Proof.
  intros Hb Hs. split; [|exact Hb].
  unfold fifo_page. fields. rewrite Hb.
  unfold page_size in Hs. cbv zeta in Hs |- *. rewrite Hs.
  apply u32_mod_1024.
Qed.

Lemma fifo_pages_full s :
  _buff_index s = 1024 ->
  _curr_addr (fifo_pages 5 0 0 s) mod 1024 = _curr_addr s mod 1024.
Proof.
  intros E2. cbn [fifo_pages].
  destruct full_sizes as (Z0 & Z1 & Z2 & Z3 & Z4).
  destruct (fifo_page_full 0 256 s E2 Z0) as [C1 B1].
  destruct (fifo_page_full (0 + 1) 256 _ B1 Z1) as [C2 B2].
  destruct (fifo_page_full (0 + 1 + 1) 256 _ B2 Z2) as [C3 B3].
  destruct (fifo_page_full (0 + 1 + 1 + 1) 256 _ B3 Z3) as [C4 B4].
  destruct (fifo_page_full (0 + 1 + 1 + 1 + 1) 0 _ B4 Z4) as [C5 _].
  rewrite C5, Z.add_0_r, C4.
  rewrite <- Zplus_mod_idemp_l, C3, Zplus_mod_idemp_l.
  rewrite <- Z.add_assoc.
  rewrite <- Zplus_mod_idemp_l, C2, Zplus_mod_idemp_l.
  rewrite <- Z.add_assoc.
  rewrite <- Zplus_mod_idemp_l, C1, Zplus_mod_idemp_l.
  rewrite <- Z.add_assoc.
  replace (_curr_addr s + (256 + (256 + (256 + 256))))
    with (_curr_addr s + 1 * 1024) by lia.
  apply Z.mod_add. lia.
Qed.

Lemma curr_addr_set_buff_index v s :
  _curr_addr (set_buff_index v s) = _curr_addr s.
Proof. reflexivity. Qed.

Lemma writeFIFO_from_boundary s :
  _curr_addr s mod 256 = 0 ->
  snd (writeFIFO s)
  = set_buff_index 0
      (fifo_pages (Z.to_nat (u32 (u32 (_buff_index (fifo_erase s) - 0) / 256 + 1)))
                  0 0 (fifo_erase s)).
Proof.
  intros Hc. unfold writeFIFO, fifo_head.
  rewrite fifo_erase_cursor, Hc. reflexivity.
Qed.

(** A flush of a full buffer moves an aligned cursor by 1024, modulo 2^32. *)
Lemma writeFIFO_full_cursor s :
  _buff_index s = 1024 -> _curr_addr s mod 1024 = 0 ->
  _curr_addr (snd (writeFIFO s)) mod 1024 = 0.
Proof.
  intros Hb Hc.
  rewrite (writeFIFO_from_boundary s (aligned_256 _ Hc)).
  rewrite fifo_erase_buff_index, Hb, full_rounds.
  rewrite curr_addr_set_buff_index.
  rewrite fifo_pages_full by (rewrite fifo_erase_buff_index; exact Hb).
  rewrite fifo_erase_cursor. exact Hc.
Qed.

Lemma close_cursor s :
  _mode (snd (close s)) = FLASH_STORAGE_WRITE_MODE ->
  _curr_addr (snd (close s)) = 0.
Proof.
  rewrite close_mode. intros Hm. unfold close. rewrite Hm. reflexivity.
Qed.

Lemma write_chunks_cursor buff length : forall fuel index s index' s',
  write_chunks fuel buff length index s = Some (index', s') ->
  _curr_addr s mod 1024 = 0 -> _curr_addr s' mod 1024 = 0.
Proof.
  induction fuel as [|fuel IH]; intros index s index' s'; cbn [write_chunks];
    destruct (u32 (index + FLASH_STORAGE_FIFO_BUFFER_SIZE) <? length);
    intros H Hc; try discriminate H.
  - injection H as _ <-. exact Hc.
  - apply IH in H; [exact H|].
    apply writeFIFO_full_cursor; [reflexivity | exact Hc].
  - injection H as _ <-. exact Hc.
Qed.

Lemma eraseNextSector_cursor s :
  _curr_addr (snd (eraseNextSector s)) = _curr_addr s.
Proof.
  unfold eraseNextSector. destruct (busy (_flash s)) as [b d].
  destruct b; reflexivity.
Qed.

Lemma write_cursor s buff length r s' :
  0 <= _buff_index s <= FLASH_STORAGE_FIFO_BUFFER_SIZE ->
  _curr_addr s mod 1024 = 0 ->
  write buff length s = Some (r, s') -> _curr_addr s' mod 1024 = 0.
Proof.
  unfold FLASH_STORAGE_FIFO_BUFFER_SIZE. intros Hb Hc.
  unfold write. destruct (_mode s);
    try (intros H; injection H as _ <-; exact Hc).
  assert (Hfin : forall s1, _curr_addr s1 mod 1024 = 0 ->
            (if u32 (_max_erased_addr s1 - _lookahead_erase_size s1)
                  <? _curr_addr s1
             then Some (eraseNextSector s1)
             else Some (FLASH_STORAGE_OK, s1)) = Some (r, s') ->
            _curr_addr s' mod 1024 = 0).
  { intros s1 H1.
    destruct (u32 (_max_erased_addr s1 - _lookahead_erase_size s1) <? _curr_addr s1);
      intros H.
    - injection H as H.
      replace s' with (snd (eraseNextSector s1)) by (rewrite H; reflexivity).
      rewrite eraseNextSector_cursor. exact H1.
    - injection H as _ <-. exact H1. }
  unfold FLASH_STORAGE_FIFO_BUFFER_SIZE.
  rewrite (u32_small (1024 - _buff_index s)) by lia.
  destruct (Z.ltb_spec length (1024 - _buff_index s)) as [Hlt|Hge].
  - apply Hfin. exact Hc.
  - destruct (write_chunks _ _ _ _ _) as [[index s1]|] eqn:Hw; [|discriminate].
    apply write_chunks_cursor in Hw.
    + apply Hfin. exact Hw.
    + apply writeFIFO_full_cursor; [|exact Hc].
      fields. rewrite u32_small; lia.
Qed.

Lemma run_cursor c s s' :
  (_mode s = FLASH_STORAGE_WRITE_MODE -> _curr_addr s mod 1024 = 0) ->
  0 <= _buff_index s <= FLASH_STORAGE_FIFO_BUFFER_SIZE ->
  run c s = Some s' ->
  _mode s' = FLASH_STORAGE_WRITE_MODE -> _curr_addr s' mod 1024 = 0.
Proof.
  intros Hinv Hb.
  assert (Hclose : _mode (snd (close s)) = FLASH_STORAGE_WRITE_MODE ->
                   _curr_addr (snd (close s)) mod 1024 = 0).
  { intros Hm. rewrite (close_cursor s Hm). reflexivity. }
  destruct c; cbn [run]; intros H.
  - unfold init in H.
    destruct (flash_init (_flash s)) as [st d].
    destruct st; cbn [option_map] in H;
      try (injection H as <-; exact Hinv).
    unfold readFAT in H.
    destruct (readData 0 id_size _) as [[st1 b1] d1].
    destruct st1; cbn [option_map snd] in H;
      try (injection H as <-; exact Hinv).
    destruct (strcmp_eq _ _).
    + destruct (readData id_size 2 _) as [[st2 b2] d2].
      destruct (readData (id_size + 2) _ _) as [[st3 b3] d3].
      destruct (parse_fat _ _ _); cbn [option_map snd] in H; [|discriminate].
      injection H as <-. exact Hinv.
    + cbn [option_map snd] in H. injection H as <-. exact Hinv.
  - injection H as <-. unfold initializeFAT.
    rewrite writeFAT_only_flash. exact Hinv.
  - injection H as <-. unfold newFile.
    destruct (u32 (file_count (_fat (snd (close s))) + 1)
              <? FLASH_STORAGE_MAX_FILE_NUMBER); [|exact Hclose].
    rewrite writeFAT_only_flash. fields. intros _.
    destruct (negb (file_count (_fat (snd (close s))) =? 0)).
    + rewrite u32_mod_1024, Z.shiftl_mul_pow2 by lia.
      change (2 ^ 12) with (4 * 1024). rewrite Z.mul_assoc.
      apply Z.mod_mul. lia.
    + reflexivity.
  - injection H as <-. unfold openFile.
    destruct (file_count (_fat (snd (close s))) <? file_index); [exact Hclose|].
    fields. discriminate.
  - injection H as <-. exact Hclose.
  - destruct (write _ _ s) as [[r s1]|] eqn:E; [|discriminate].
    cbn [option_map snd] in H. injection H as <-.
    pose proof (write_same_file _ _ _ _ _ E) as (_ & _ & Hm & _).
    rewrite Hm. intros Hw.
    apply (write_cursor s _ _ r s1 Hb (Hinv Hw) E).
  - injection H as <-. unfold read.
    destruct (_mode s) eqn:Hm.
    + cbn [snd]. rewrite Hm. discriminate.
    + destruct (fastRead _ _ _) as [[st data] d].
      destruct st; fields; rewrite Hm; discriminate.
    + cbn [snd]. intros _. apply Hinv. reflexivity.
  - injection H as <-. unfold deleteLastFile.
    destruct (_mode s) eqn:Hm.
    + rewrite writeFAT_only_flash.
      destruct (0 <? file_count (_fat s)); fields; rewrite Hm; discriminate.
    + cbn [snd]. rewrite Hm. discriminate.
    + cbn [snd]. intros _. apply Hinv. reflexivity.
  - injection H as <-. unfold deleteAllFiles.
    destruct (_mode s) eqn:Hm.
    + rewrite writeFAT_only_flash. fields. rewrite Hm. discriminate.
    + cbn [snd]. rewrite Hm. discriminate.
    + cbn [snd]. intros _. apply Hinv. reflexivity.
Qed.

(** Between two public operations a store in write mode has its cursor on a
    multiple of 1024, so on a page boundary: [close] and [write] start their
    flushes there, and [write] goes on in steps of 1024. *)
Lemma reachable_cursor_aligned s :
  reachable s -> _mode s = FLASH_STORAGE_WRITE_MODE ->
  _curr_addr s mod 1024 = 0.
Proof.
  induction 1 as [m | c s s' Hr IH Hrun].
  - intros H. discriminate H.
  - apply (run_cursor c s s' IH (reachable_buffer_bound s Hr) Hrun).
Qed.

(** ** The codec on the chip *)

Lemma stored_slice m img off len :
  (forall i, (i < length img)%nat -> m (Z.of_nat i) = nth i img 0) ->
  (off + len <= length img)%nat ->
  stored m (Z.of_nat off) (Z.of_nat len) = firstn len (skipn off img).
Proof.
  intros Hm Hlen.
  assert (Hl : length (firstn len (skipn off img)) = len).
  { rewrite firstn_length_le; [reflexivity|]. rewrite length_skipn. lia. }
  rewrite <- Hl at 1. apply stored_eq. intros i Hi. rewrite Hl in Hi.
  rewrite nth_firstn. destruct (Nat.ltb_spec i len); [|lia].
  rewrite nth_skipn. rewrite <- Nat2Z.inj_add. apply Hm. lia.
Qed.

Lemma fat_image_bytes t opened : Forall is_byte (fat_image t opened).
Proof.
  assert (Hu : forall x, is_byte (u8 x))
    by (intros x; unfold is_byte, u8; apply Z.mod_pos_bound; lia).
  assert (Hrec : forall n a,
            Forall is_byte
              (flat_map (fun i => record_bytes (files t (Z.of_nat i))) (seq a n))).
  { induction n as [|n IH]; intros a; cbn [seq flat_map].
    - constructor.
    - apply Forall_app. split; [|apply IH].
      unfold record_bytes. repeat (apply Forall_cons; [apply Hu|]). constructor. }
  unfold fat_image, FLASH_STORAGE_IDENTIFICATION_STRING. cbn [app].
  repeat (apply Forall_cons; [first [apply Hu | unfold is_byte; lia]|]).
  apply Hrec.
Qed.

Lemma fat_image_length t opened :
  0 <= file_count t ->
  Z.of_nat (length (fat_image t opened)) = header_size + file_count t * 5.
Proof.
  intros Hc. unfold fat_image, FLASH_STORAGE_IDENTIFICATION_STRING, header_size, id_size.
  cbn [length app]. rewrite fat_records_length. lia.
Qed.

(** After [writeFAT] the chip holds the image from address 0. *)
Lemma writeFAT_stores s :
  in_progress (_flash s) = false ->
  0 <= file_count (_fat s) <= FLASH_STORAGE_MAX_FILE_NUMBER ->
  let img := fat_image (_fat s) (_opened_file s) in
  forall i, (i < length img)%nat ->
    cells (_flash (snd (writeFAT s))) (Z.of_nat i) = nth i img 0.
Proof.
  unfold FLASH_STORAGE_MAX_FILE_NUMBER. intros Hi Hc. cbv zeta.
  set (img := fat_image (_fat s) (_opened_file s)). intros i Hlt.
  destruct (writeFAT_idle s Hi) as (_ & _ & W & _); [lia|].
  pose proof (fat_image_length (_fat s) (_opened_file s) (proj1 Hc)) as Hlen.
  fold img in Hlen. unfold header_size, id_size in Hlen.
  rewrite W. unfold fat_commands, header_size, id_size.
  cbn [replay apply_command].
  destruct (Z.leb_spec 0 (Z.of_nat i));
    destruct (Z.ltb_spec (Z.of_nat i) (0 + (6 + 2 + file_count (_fat s) * 5)));
    cbn [andb]; try lia.
  assert (E : (Z.of_nat i / SECTOR =? 0 / SECTOR) = true).
  { apply same_sector; [reflexivity | unfold SECTOR; lia]. }
  rewrite E. fold img. unfold byte_at.
  replace (Z.to_nat (0 * 256 + (Z.of_nat i - 0))) with i by lia.
  apply land_erased.
  pose proof (fat_image_bytes (_fat s) (_opened_file s)) as Hb.
  rewrite Forall_forall in Hb. apply Hb. apply nth_In. exact Hlt.
Qed.

(** On a chip that answers its reads and holds a table image from address 0,
    [readFAT] parses the image as [decode_image] does. *)
Lemma readFAT_decodes s img :
  replies (_flash s) = [] ->
  (forall i, (i < length img)%nat -> cells (_flash s) (Z.of_nat i) = nth i img 0) ->
  (8 <= length img)%nat ->
  Z.of_nat (length img) = 8 + u32 (byte_at (firstn 2 (skipn 6 img)) 0 * 5) ->
  option_map (fun rs => _fat (snd rs)) (readFAT s) = decode_image img (_fat s)
  /\ (strcmp_eq FLASH_STORAGE_IDENTIFICATION_STRING (firstn 6 img) = true ->
      option_map fst (readFAT s)
      = option_map (fun _ => FLASH_STORAGE_OK) (decode_image img (_fat s))).
Proof.
  intros Hr Hm Hlen Hfat.
  assert (Hread : forall a n,
            readData a n (_flash s)
            = (W25Q64_OK, stored (cells (_flash s)) a n, _flash s)).
  { intros a n. unfold readData. rewrite Hr. reflexivity. }
  pose proof (stored_slice _ img 0 6 Hm ltac:(lia)) as S1.
  pose proof (stored_slice _ img 6 2 Hm ltac:(lia)) as S2.
  change (Z.of_nat 0) with 0 in S1. change (Z.of_nat 6) with 6 in S1, S2.
  change (Z.of_nat 2) with 2 in S2. change (skipn 0 img) with img in S1.
  unfold readFAT, decode_image, id_size.
  rewrite Hread, S1. fields.
  destruct (strcmp_eq FLASH_STORAGE_IDENTIFICATION_STRING (firstn 6 img)).
  - rewrite Hread, S2. fields.
    set (header := firstn 2 (skipn 6 img)) in *.
    pose proof (u32_range (byte_at header 0 * 5)) as Hu.
    rewrite Hread. fields.
    pose proof (stored_slice _ img 8 (Z.to_nat (u32 (byte_at header 0 * 5)))
                  Hm ltac:(lia)) as S3.
    rewrite Z2Nat.id in S3 by lia. change (Z.of_nat 8) with (6 + 2) in S3.
    rewrite S3.
    destruct (parse_fat header _ (_fat s)); split; intros; reflexivity.
  - split; [reflexivity | discriminate].
Qed.

(** The table written by [writeFAT] and read back by [readFAT] into any
    table in memory gives the records and count that were written. *)
Lemma fat_round_trip_on_chip s T0 :
  in_progress (_flash s) = false -> replies (_flash s) = [] ->
  0 <= file_count (_fat s) <= FLASH_STORAGE_MAX_FILE_NUMBER ->
  (forall i, 0 <= i < file_count (_fat s) ->
     page_resolution (start_addr (files (_fat s) i))
     /\ page_resolution (end_addr (files (_fat s) i))) ->
  exists r s2,
    readFAT (set_fat T0 (snd (writeFAT s))) = Some (r, s2)
    /\ r = FLASH_STORAGE_OK
    /\ file_count (_fat s2) = file_count (_fat s)
    /\ (forall i, 0 <= i < file_count (_fat s) ->
          files (_fat s2) i = files (_fat s) i)
    /\ fat_image (_fat s2) (_opened_file s) = fat_image (_fat s) (_opened_file s).
Proof.
  intros Hi Hr Hc Hfit.
  destruct (decode_image_of_fat_image (_fat s) T0 (_opened_file s) Hc Hfit)
    as (T' & Hd & D1 & D2).
  pose proof (fat_image_ext _ _ (_opened_file s) D1 D2) as D3.
  set (img := fat_image (_fat s) (_opened_file s)) in *.
  set (s1 := set_fat T0 (snd (writeFAT s))).
  unfold FLASH_STORAGE_MAX_FILE_NUMBER in Hc.
  pose proof (fat_image_length (_fat s) (_opened_file s) (proj1 Hc)) as Hlen.
  fold img in Hlen. unfold header_size, id_size in Hlen.
  assert (Hid : strcmp_eq FLASH_STORAGE_IDENTIFICATION_STRING (firstn 6 img) = true)
    by reflexivity.
  assert (Hh : byte_at (firstn 2 (skipn 6 img)) 0 = file_count (_fat s)).
  { unfold img, fat_image, FLASH_STORAGE_IDENTIFICATION_STRING.
    cbn [app skipn firstn byte_at Z.to_nat nth]. unfold u8.
    apply Z.mod_small. lia. }
  destruct (readFAT_decodes s1 img) as [R1 R2].
  - unfold s1. fields. destruct (writeFAT_idle s Hi) as (_ & _ & _ & W); [lia|].
    rewrite W. exact Hr.
  - unfold s1. fields. apply writeFAT_stores; [exact Hi|].
    unfold FLASH_STORAGE_MAX_FILE_NUMBER. exact Hc.
  - lia.
  - rewrite Hh, u32_small by lia. lia.
  - specialize (R2 Hid).
    assert (Hfat1 : _fat s1 = T0) by reflexivity.
    rewrite Hfat1, Hd in R1, R2.
    destruct (readFAT s1) as [[r s2]|]; cbn [option_map fst snd] in R1, R2;
      [|discriminate R1].
    injection R1 as R1. injection R2 as R2.
    exists r, s2. split; [reflexivity|]. split; [exact R2|].
    rewrite R1. split; [exact D1|]. split; [exact D2 | exact D3].
Qed.

(** ** [init] *)

(** [fields] in a hypothesis. *)
Ltac fields_in H :=
  cbn [_buff _buff_index _opened_file _curr_addr _max_erased_addr
       _lookahead_erase_size _flash _flash_status _fat _status _mode
       set_buff set_buff_index set_opened_file set_curr_addr
       set_max_erased_addr set_flash set_flash_status set_fat set_status
       set_mode flash_wait flash_writeEnable flash_sectorErase
       flash_pageProgram memcpy_buff writeEnable sectorErase pageProgram issue
       cells journal replies polls in_progress fst snd
       files file_count set_file set_start_addr set_end_addr set_file_count]
    in H.







(** The two calls as they run on a chip that answers its reads. *)
Lemma readFAT_healthy s :
  replies (_flash s) = [] ->
  readFAT s
  = (let m := cells (_flash s) in
     let s1 := set_flash_status W25Q64_OK s in
     if strcmp_eq FLASH_STORAGE_IDENTIFICATION_STRING (stored m 0 id_size) then
       match parse_fat (stored m id_size 2)
               (stored m (id_size + 2)
                       (u32 (byte_at (stored m id_size 2) 0 * 5)))
               (_fat s) with
       | Some t => Some (FLASH_STORAGE_OK, set_fat t s1)
       | None => None
       end
     else Some (FLASH_STORAGE_NO_FAT_FOUND,
                set_fat (set_file_count 0 (_fat s)) s1)).
Proof.
  intros Hr. destruct s as [b bi o c f l d fs t st m]. cbn [_flash] in Hr.
  unfold readFAT, readData. fields. rewrite Hr. fields.
  destruct (strcmp_eq _ _); [|reflexivity].
  rewrite Hr. fields. rewrite Hr. fields.
  destruct d as [dc dp dl dr dj]. cbn [replies] in Hr. subst dr. fields.
  destruct (parse_fat _ _ _); reflexivity.
Qed.

Lemma init_healthy s :
  replies (_flash s) = [] ->
  init s
  = match readFAT (set_flash_status W25Q64_OK s) with
    | Some (r, s') => Some (r, set_status r s')
    | None => None
    end.
Proof.
  intros Hr. destruct s as [b bi o c f l d fs t st m]. cbn [_flash] in Hr.
  unfold init, flash_init. fields. rewrite Hr. fields. reflexivity.
Qed.

(** ** The table that [init] finds on the chip *)

Lemma decode_image_any_count (T T0 : FlashStorageFAT) (opened : Z) :
  0 <= file_count T <= 255 ->
  (forall i, 0 <= i < file_count T ->
     page_resolution (start_addr (files T i))
     /\ page_resolution (end_addr (files T i))) ->
  exists T',
    decode_image (fat_image T opened) T0 = Some T'
    /\ file_count T' = file_count T
    /\ (forall i, files T' i
                  = if (0 <=? i) && (i <? file_count T) then files T i
                    else files T0 i).
Proof.
  intros Hc Hfit.
  unfold decode_image, fat_image, FLASH_STORAGE_IDENTIFICATION_STRING.
  cbn [app firstn skipn strcmp_eq Z.eqb Pos.eqb]. cbv iota.
  unfold parse_fat. cbn [byte_at Z.to_nat nth].
  assert (Hu : u8 (file_count T) = file_count T)
    by (unfold u8; apply Z.mod_small; lia).
  rewrite Hu.
  rewrite (u32_small (file_count T * 5)) by lia.
  rewrite firstn_all2 by (rewrite fat_records_length; lia).
  destruct (parse_records_spec T (fat_records T) (Z.to_nat (file_count T)) 0 T0)
    as (t' & Hp & Hcount & Hfiles).
  { intros k Hk. rewrite Z2Nat.id in Hk by lia.
    destruct (Hfit k) as [Hs He]; [lia|].
    split; [apply decode_start_encoded | apply decode_end_encoded];
      assumption || lia. }
  rewrite Hp. eexists. split; [reflexivity|].
  split; [reflexivity|].
  intros i. cbn [files set_file_count]. rewrite Hfiles.
  rewrite Z2Nat.id by lia. reflexivity.
Qed.

Lemma init_of_image s T opened :
  replies (_flash s) = [] ->
  holds_image (cells (_flash s)) (fat_image T opened) ->
  0 <= file_count T <= 255 ->
  (forall i, 0 <= i < file_count T ->
     page_resolution (start_addr (files T i))
     /\ page_resolution (end_addr (files T i))) ->
  exists T',
    init s = Some (FLASH_STORAGE_OK,
                   set_status FLASH_STORAGE_OK
                     (set_fat T' (set_flash_status W25Q64_OK
                                    (set_flash_status W25Q64_OK s))))
    /\ file_count T' = file_count T
    /\ (forall i, files T' i
                  = if (0 <=? i) && (i <? file_count T) then files T i
                    else files (_fat s) i).
Proof.
  intros Hr Hm Hc Hfit.
  destruct (decode_image_any_count T (_fat s) opened Hc Hfit) as (T' & Hd & D1 & D2).
  exists T'. split; [|split; assumption].
  set (img := fat_image T opened) in *.
  pose proof (fat_image_length T opened (proj1 Hc)) as Hlen.
  fold img in Hlen. unfold header_size, id_size in Hlen.
  assert (Hh : byte_at (firstn 2 (skipn 6 img)) 0 = file_count T).
  { unfold img, fat_image, FLASH_STORAGE_IDENTIFICATION_STRING.
    cbn [app skipn firstn byte_at Z.to_nat nth]. unfold u8.
    apply Z.mod_small. lia. }
  unfold holds_image in Hm.
  pose proof (stored_slice _ img 0 6 Hm ltac:(lia)) as S1.
  pose proof (stored_slice _ img 6 2 Hm ltac:(lia)) as S2.
  change (Z.of_nat 0) with 0 in S1. change (Z.of_nat 6) with 6 in S1, S2.
  change (Z.of_nat 2) with 2 in S2. change (skipn 0 img) with img in S1.
  pose proof (stored_slice _ img 8 (Z.to_nat (u32 (file_count T * 5)))
                Hm ltac:(rewrite u32_small by lia; lia)) as S3.
  rewrite Z2Nat.id in S3 by (apply u32_range).
  change (Z.of_nat 8) with (6 + 2) in S3.
  rewrite init_healthy by exact Hr.
  rewrite readFAT_healthy by exact Hr.
  cbv zeta. unfold id_size. fields. rewrite S1, S2, Hh, S3.
  unfold decode_image in Hd. rewrite Hh in Hd.
  change (6 + 2) with 8.
  destruct (strcmp_eq FLASH_STORAGE_IDENTIFICATION_STRING (firstn 6 img)) eqn:E.
  - rewrite Hd. reflexivity.
  - discriminate E.
Qed.




(** ** Bringing up a chip: [init], [initializeFAT], [getFAT], [newFile] *)

Lemma newFile_first s :
  file_count (_fat s) = 0 ->
  let s' := snd (newFile s) in
  fst (newFile s) = FLASH_STORAGE_OK
  /\ file_count (_fat s') = 1
  /\ files (_fat s') 0 = mkFile 4096 4096
  /\ _opened_file s' = 1
  /\ _curr_addr s' = 4096
  /\ _mode s' = FLASH_STORAGE_WRITE_MODE.
Proof.
  intros Hc. cbv zeta.
  pose proof (newFile_creates s) as N. cbv zeta in N.
  rewrite (close_file_count s), Hc in N.
  change (0 =? 0) with true in N. cbv iota in N.
  destruct N as (N1 & N2 & N3 & _ & N5 & N6 & _); try lia.
  split; [exact N1|]. rewrite N2, N3, N5, N6. fields.
  rewrite Z.eqb_refl. repeat split.
Qed.

Lemma initializeFAT_writes s :
  let s1 := snd (initializeFAT s) in
  fst (initializeFAT s) = FLASH_STORAGE_OK
  /\ _fat s1 = set_file_count 0 (_fat s)
  /\ _mode s1 = _mode s /\ _opened_file s1 = _opened_file s
  /\ replies (_flash s1) = replies (_flash s)
  /\ holds_image (cells (_flash s1))
       (fat_image (set_file_count 0 (_fat s)) (_opened_file s)).
Proof.
  cbv zeta.
  set (sa := set_fat (set_file_count 0 (_fat s)) (flash_wait s)).
  change (initializeFAT s) with (writeFAT sa).
  assert (Hi : in_progress (_flash sa) = false) by apply wait_idle_idle.
  assert (Hc : 0 <= file_count (_fat sa) < 49) by (unfold sa; fields; lia).
  destruct (writeFAT_idle sa Hi Hc) as (F1 & _ & _ & F4).
  split; [exact F1|].
  rewrite (writeFAT_only_flash sa). fields.
  split; [reflexivity|]. split; [reflexivity|]. split; [reflexivity|].
  split.
  - cbv zeta in F4. rewrite F4. unfold sa. fields. apply wait_idle_replies.
  - intros i Hlt. apply (writeFAT_stores sa Hi); [|exact Hlt].
    unfold sa, FLASH_STORAGE_MAX_FILE_NUMBER. fields. lia.
Qed.

(** X3.  First use of a chip.  When the chip answers its reads and does not
    start with the identification string, [init] returns
    [FLASH_STORAGE_NO_FAT_FOUND], records it in [_status] and sets the file
    count to 0; [initializeFAT] then returns [FLASH_STORAGE_OK], [getFAT]
    delivers the table with count 0, and [newFile] returns
    [FLASH_STORAGE_OK] and makes file 1, which starts and ends at 4096. *)
Theorem blank_chip_bring_up (s : FlashStorage) :
  replies (_flash s) = [] ->
  strcmp_eq FLASH_STORAGE_IDENTIFICATION_STRING
            (stored (cells (_flash s)) 0 id_size) = false ->
  exists s1,
    init s = Some (FLASH_STORAGE_NO_FAT_FOUND, s1)
    /\ file_count (_fat s1) = 0
    /\ _status s1 = FLASH_STORAGE_NO_FAT_FOUND
    /\ let s2 := snd (initializeFAT s1) in
       let s3 := snd (newFile s2) in
       fst (initializeFAT s1) = FLASH_STORAGE_OK
       /\ getFAT s2 = (FLASH_STORAGE_OK, set_file_count 0 (_fat s1))
       /\ fst (newFile s2) = FLASH_STORAGE_OK
       /\ file_count (snd (getFAT s3)) = 1
       /\ files (snd (getFAT s3)) 0 = mkFile 4096 4096.
Proof.
  intros Hr Hblank.
  rewrite init_healthy by exact Hr.
  rewrite readFAT_healthy by exact Hr.
  cbv zeta. fields. rewrite Hblank.
  eexists. split; [reflexivity|]. fields.
  split; [reflexivity|]. split; [reflexivity|].
  match goal with |- context [initializeFAT ?x] => set (s1 := x) end.
  destruct (initializeFAT_writes s1) as (I1 & I2 & _).
  cbv zeta in I2.
  assert (Hc : file_count (_fat (snd (initializeFAT s1))) = 0)
    by (rewrite I2; reflexivity).
  destruct (newFile_first _ Hc) as (N1 & N2 & N3 & _).
  split; [exact I1|]. unfold getFAT. cbn [snd].
  split; [rewrite I2; reflexivity|].
  split; [exact N1|]. split; [exact N2 | exact N3].
Qed.

Lemma blank_chip_bring_up_witness :
  exists s1,
    init (power_on (fun _ => 255)) = Some (FLASH_STORAGE_NO_FAT_FOUND, s1)
    /\ file_count (_fat s1) = 0.
Proof.
  destruct (blank_chip_bring_up (power_on (fun _ => 255)))
    as (s1 & H1 & H2 & _).
  - reflexivity.
  - reflexivity.
  - exists s1. split; [exact H1 | exact H2].
Defined.

Lemma flash_set_flash d s : _flash (set_flash d s) = d.
Proof. reflexivity. Qed.

(** X4.  [initializeFAT] returns [FLASH_STORAGE_OK] whatever the mode and the
    table were, sets the count to 0 and leaves eight bytes at address 0: the
    identification string, a count byte 0 and the low byte of [_opened_file]
    (which it does not reset).  On a chip that answers its reads, [init] on
    any store attached to that chip then returns [FLASH_STORAGE_OK] with
    [file_count = 0], its records untouched and [_status] set to
    [FLASH_STORAGE_OK]. *)
Theorem initializeFAT_then_init (s s0 : FlashStorage) :
  let s1 := snd (initializeFAT s) in
  replies (_flash s) = [] -> _flash s0 = _flash s1 ->
  fst (initializeFAT s) = FLASH_STORAGE_OK
  /\ file_count (_fat s1) = 0
  /\ stored (cells (_flash s1)) 0 8
     = FLASH_STORAGE_IDENTIFICATION_STRING ++ [0; u8 (_opened_file s)]
  /\ exists s2,
       init s0 = Some (FLASH_STORAGE_OK, s2)
       /\ file_count (_fat s2) = 0
       /\ (forall i, files (_fat s2) i = files (_fat s0) i)
       /\ _status s2 = FLASH_STORAGE_OK.
Proof.
  intros s1 Hr Hflash.
  destruct (initializeFAT_writes s) as (I1 & I2 & _ & _ & I5 & I6).
  cbv zeta in I2, I5, I6. fold s1 in I2, I5, I6.
  split; [exact I1|]. split; [rewrite I2; reflexivity|]. split.
  - pose proof (stored_slice _ _ 0 8 I6) as S.
    change (Z.of_nat 0) with 0 in S. change (Z.of_nat 8) with 8 in S.
    rewrite S; reflexivity.
  - destruct (init_of_image s0 (set_file_count 0 (_fat s)) (_opened_file s))
      as (T' & Hi & D1 & D2).
    + rewrite Hflash, I5. exact Hr.
    + rewrite Hflash. exact I6.
    + cbn [file_count set_file_count]. lia.
    + cbn [file_count set_file_count]. intros i Hi. lia.
    + eexists. split; [exact Hi|]. fields.
      split; [exact D1|]. split; [|reflexivity].
      intros i. rewrite D2. cbn [file_count set_file_count].
      destruct (Z.leb_spec 0 i); destruct (Z.ltb_spec i 0); cbn [andb];
        try reflexivity; lia.
Qed.

Lemma initializeFAT_then_init_witness :
  let s := snd (newFile (power_on (fun _ => 7))) in
  fst (initializeFAT s) = FLASH_STORAGE_OK
  /\ exists s2,
       init (set_flash (_flash (snd (initializeFAT s))) (power_on (fun _ => 0)))
       = Some (FLASH_STORAGE_OK, s2)
       /\ file_count (_fat s2) = 0.
Proof.
  intros s.
  destruct (initializeFAT_then_init s
              (set_flash (_flash (snd (initializeFAT s))) (power_on (fun _ => 0))))
    as (H1 & _ & _ & s2 & H4 & H5 & _).
  - reflexivity.
  - apply flash_set_flash.
  - split; [exact H1|]. exists s2. split; [exact H4 | exact H5].
Defined.

(** ** Which addresses survive the record format *)

Lemma u32_s32 x : u32 (s32 x) = u32 x.
Proof. unfold u32, s32. rewrite Zminus_mod_idemp_l. f_equal. lia. Qed.

Lemma int_shl_low_byte x n v :
  int_shl x n = Some v -> 8 <= n -> u32 v mod 256 = 0.
Proof.
  unfold int_shl. destruct ((0 <=? n) && (n <? 32)); [|discriminate].
  intros H Hn. injection H as <-. rewrite u32_s32. unfold u32.
  rewrite Z.mod_mod_divide by (exists 16777216; reflexivity).
  rewrite Z.shiftl_mul_pow2 by lia.
  replace n with (n - 8 + 8) by lia. rewrite Z.pow_add_r by lia.
  change (2 ^ 8) with 256. rewrite Z.mul_assoc. apply Z.mod_mul. lia.
Qed.

Lemma decode_start_aligned c i a :
  decode_start c i = Some a -> a mod 256 = 0.
Proof.
  unfold decode_start. destruct (int_shl _ 8); [|discriminate].
  destruct (int_shl _ 8) eqn:E; [|discriminate].
  intros H. injection H as <-. apply (int_shl_low_byte _ _ _ E). lia.
Qed.

Lemma decode_end_aligned c i e :
  0 <= byte_at c (i * 5 + 4) -> decode_end c i = Some e -> e mod 256 = 0.
Proof.
  intros Hb. unfold decode_end. destruct (int_shl _ 8); [|discriminate].
  destruct (int_shl _ (8 + _)) eqn:E; [|discriminate].
  intros H. injection H as <-. apply (int_shl_low_byte _ _ _ E). lia.
Qed.

(** X5.  What the five-byte record keeps of an address below 2^24: the
    decoder of [readFAT] gives back the start address, resp. the end
    address, that [writeFAT] encoded if and only if the address is a multiple
    of 256. *)
Theorem address_reads_back_iff_page_aligned (T : FlashStorageFAT) (i : Z) :
  0 <= i < file_count T ->
  0 <= start_addr (files T i) < 16777216 ->
  0 <= end_addr (files T i) < 16777216 ->
  (decode_start (fat_records T) i = Some (start_addr (files T i))
   <-> start_addr (files T i) mod 256 = 0)
  /\ (decode_end (fat_records T) i = Some (end_addr (files T i))
      <-> end_addr (files T i) mod 256 = 0).
Proof.
  intros Hi Hs He. split; split.
  - apply decode_start_aligned.
  - intros Hm. apply decode_start_encoded; [exact Hi | split; assumption].
  - apply decode_end_aligned. rewrite fat_records_byte by lia.
    cbn [Z.to_nat Pos.to_nat Pos.iter_op Nat.add record_bytes nth].
    unfold u8. apply Z.mod_pos_bound. lia.
  - intros Hm. apply decode_end_encoded; [exact Hi | split; assumption].
Qed.

Lemma address_reads_back_iff_page_aligned_witness :
  let T := mkFAT (fun _ => mkFile 4096 4196) 1 in
  decode_start (fat_records T) 0 = Some 4096
  /\ decode_end (fat_records T) 0 <> Some 4196.
Proof.
  intros T.
  destruct (address_reads_back_iff_page_aligned T 0) as [[_ H1] [H2 _]].
  - simpl. lia.
  - simpl. lia.
  - simpl. lia.
  - split; [apply H1; reflexivity|].
    intros H. apply H2 in H. discriminate H.
Defined.

(** ** The mode once a file has been opened *)










(** ** [deleteLastFile] and [deleteAllFiles] *)

(** [while(_flash.busy()); writeFAT();] on a table that fits the array. *)
Lemma persist_table sa :
  0 <= file_count (_fat sa) <= FLASH_STORAGE_MAX_FILE_NUMBER ->
  let s' := snd (writeFAT (flash_wait sa)) in
  fst (writeFAT (flash_wait sa)) = FLASH_STORAGE_OK
  /\ _fat s' = _fat sa /\ _mode s' = _mode sa
  /\ _opened_file s' = _opened_file sa
  /\ replies (_flash s') = replies (_flash sa)
  /\ holds_image (cells (_flash s')) (fat_image (_fat sa) (_opened_file sa))
  /\ (forall a, SECTOR <= a -> cells (_flash s') a = cells (_flash sa) a).
Proof.
  unfold FLASH_STORAGE_MAX_FILE_NUMBER. intros Hc. cbv zeta.
  set (sb := flash_wait sa).
  assert (Hi : in_progress (_flash sb) = false) by apply wait_idle_idle.
  assert (Hc' : 0 <= file_count (_fat sb) < 49) by (unfold sb; fields; lia).
  destruct (writeFAT_idle sb Hi Hc') as (F1 & _ & F3 & F4).
  cbv zeta in F3, F4.
  split; [exact F1|].
  split; [rewrite (writeFAT_only_flash sb); reflexivity|].
  split; [rewrite (writeFAT_only_flash sb); reflexivity|].
  split; [rewrite (writeFAT_only_flash sb); reflexivity|].
  split; [rewrite F4; unfold sb; fields; apply wait_idle_replies|].
  split.
  - intros i Hlt. apply (writeFAT_stores sb Hi); [|exact Hlt].
    unfold sb, FLASH_STORAGE_MAX_FILE_NUMBER. fields. lia.
  - intros a Ha. rewrite F3, replay_fat_commands by assumption.
    unfold sb. fields. rewrite wait_idle_cells. reflexivity.
Qed.

(** X7.  In no mode, with a table of at most 31 files, [deleteLastFile]
    returns [FLASH_STORAGE_OK], lowers the file count by one (a count of 0
    stays 0), leaves every record in memory and every byte of the chip from
    address 4096 on as they were, and rewrites the table on the chip.  The
    next [newFile] takes the freed slot: with one file or none before the
    deletion it makes file 1 at 4096; with [fc >= 2] files before, it makes
    file [fc] again, on the first sector boundary above the end of file
    [fc - 1]. *)
Theorem deleteLastFile_drops_the_last_record (s : FlashStorage) :
  let fc := file_count (_fat s) in
  let s' := snd (deleteLastFile s) in
  _mode s = FLASH_STORAGE_NO_MODE ->
  0 <= fc < FLASH_STORAGE_MAX_FILE_NUMBER ->
  fst (deleteLastFile s) = FLASH_STORAGE_OK
  /\ file_count (_fat s') = Z.max 0 (fc - 1)
  /\ (forall i, files (_fat s') i = files (_fat s) i)
  /\ _mode s' = FLASH_STORAGE_NO_MODE
  /\ holds_image (cells (_flash s')) (fat_image (_fat s') (_opened_file s'))
  /\ (forall a, SECTOR <= a -> cells (_flash s') a = cells (_flash s) a)
  /\ (fc <= 1 ->
      fst (newFile s') = FLASH_STORAGE_OK
      /\ file_count (_fat (snd (newFile s'))) = 1
      /\ files (_fat (snd (newFile s'))) 0 = mkFile 4096 4096)
  /\ (2 <= fc ->
      let e := end_addr (files (_fat s) (fc - 2)) in
      0 <= e -> (e / SECTOR + 1) * SECTOR + SECTOR < 4294967296 ->
      fst (newFile s') = FLASH_STORAGE_OK
      /\ file_count (_fat (snd (newFile s'))) = fc
      /\ files (_fat (snd (newFile s'))) (fc - 1)
         = mkFile ((e / SECTOR + 1) * SECTOR) ((e / SECTOR + 1) * SECTOR)).
Proof.
  intros fc s' Hm Hc. unfold FLASH_STORAGE_MAX_FILE_NUMBER in Hc.
  assert (Hs : exists sa,
            s' = snd (writeFAT (flash_wait sa))
            /\ file_count (_fat sa) = Z.max 0 (fc - 1)
            /\ (forall i, files (_fat sa) i = files (_fat s) i)
            /\ _mode sa = FLASH_STORAGE_NO_MODE
            /\ cells (_flash sa) = cells (_flash s)).
  { unfold s', deleteLastFile. rewrite Hm. fold fc.
    destruct (Z.ltb_spec 0 fc) as [Hpos|Hle].
    - eexists. split; [reflexivity|]. fields.
      rewrite u32_small by lia.
      split; [lia|]. split; [reflexivity|]. split; [exact Hm | reflexivity].
    - exists s. split; [reflexivity|].
      split; [fold fc; lia|]. split; [reflexivity|].
      split; [exact Hm | reflexivity]. }
  destruct Hs as (sa & Es & Hfc & Hfiles & Hma & Hcells).
  destruct (persist_table sa) as (P1 & P2 & P3 & P4 & _ & P6 & P7).
  { unfold FLASH_STORAGE_MAX_FILE_NUMBER. lia. }
  cbv zeta in P2, P3, P4, P6, P7. rewrite <- Es in P2, P3, P4, P6, P7.
  assert (Hst : fst (deleteLastFile s) = FLASH_STORAGE_OK)
    by (unfold deleteLastFile; rewrite Hm; reflexivity).
  assert (Hm' : _mode s' = FLASH_STORAGE_NO_MODE) by congruence.
  split; [exact Hst|]. split; [rewrite P2; exact Hfc|].
  split; [intros i; rewrite P2; apply Hfiles|].
  split; [exact Hm'|].
  split; [rewrite P2, P4; exact P6|].
  split; [intros a Ha; rewrite P7 by exact Ha; rewrite Hcells; reflexivity|].
  split.
  - intros Hone.
    destruct (newFile_first s') as (N1 & N2 & N3 & _).
    { rewrite P2, Hfc. lia. }
    split; [exact N1|]. split; [exact N2 | exact N3].
  - intros Htwo e He Hlim. unfold SECTOR in *.
    pose proof (newFile_creates s') as N. cbv zeta in N.
    rewrite (close_no_mode s' Hm') in N. cbn [snd] in N.
    rewrite P2, Hfc in N. rewrite Z.max_r in N by lia.
    destruct (Z.eqb_spec (fc - 1) 0) as [E|_]; [lia|].
    rewrite Hfiles in N. replace (fc - 1 - 1) with (fc - 2) in N by lia.
    fold e in N.
    destruct N as (N1 & N2 & _); try lia.
    split; [exact N1|]. rewrite N2.
    split; [cbn [file_count set_end_addr set_start_addr set_file set_file_count]; lia|].
    rewrite files_set_both, Z.eqb_refl. reflexivity.
Qed.

Lemma deleteLastFile_drops_the_last_record_witness :
  let T := mkFAT (fun i => mkFile (4096 * (i + 1)) (4096 * (i + 1) + 100)) 2 in
  let s := set_fat T (power_on (fun _ => 0)) in
  fst (deleteLastFile s) = FLASH_STORAGE_OK
  /\ file_count (_fat (snd (deleteLastFile s))) = 1
  /\ files (_fat (snd (newFile (snd (deleteLastFile s))))) 1
     = mkFile 8192 8192.
Proof.
  intros T s.
  destruct (deleteLastFile_drops_the_last_record s)
    as (H1 & H2 & _ & _ & _ & _ & _ & H8).
  - reflexivity.
  - simpl. unfold FLASH_STORAGE_MAX_FILE_NUMBER. lia.
  - split; [exact H1|]. split; [exact H2|].
    destruct H8 as (_ & _ & H); [simpl; lia | simpl; lia | vm_compute; reflexivity |].
    exact H.
Defined.

(** X8.  In no mode [deleteAllFiles] returns [FLASH_STORAGE_OK] and sets the
    count to 0 whatever it was.  The records in memory and the chip from
    address 4096 on are left as they were; the chip then starts with the
    identification string, a count byte 0 and the low byte of
    [_opened_file]; the next [newFile] makes file 1 at 4096. *)
Theorem deleteAllFiles_empties_the_table (s : FlashStorage) :
  let s' := snd (deleteAllFiles s) in
  _mode s = FLASH_STORAGE_NO_MODE ->
  fst (deleteAllFiles s) = FLASH_STORAGE_OK
  /\ file_count (_fat s') = 0
  /\ (forall i, files (_fat s') i = files (_fat s) i)
  /\ _mode s' = FLASH_STORAGE_NO_MODE
  /\ stored (cells (_flash s')) 0 8
     = FLASH_STORAGE_IDENTIFICATION_STRING ++ [0; u8 (_opened_file s)]
  /\ (forall a, SECTOR <= a -> cells (_flash s') a = cells (_flash s) a)
  /\ fst (newFile s') = FLASH_STORAGE_OK
  /\ file_count (_fat (snd (newFile s'))) = 1
  /\ files (_fat (snd (newFile s'))) 0 = mkFile 4096 4096.
Proof.
  intros s' Hm.
  set (sa := set_fat (set_file_count 0 (_fat s)) s).
  assert (Es : s' = snd (writeFAT (flash_wait sa)))
    by (unfold s', deleteAllFiles; rewrite Hm; reflexivity).
  destruct (persist_table sa) as (P1 & P2 & P3 & P4 & _ & P6 & P7).
  { unfold sa, FLASH_STORAGE_MAX_FILE_NUMBER. fields. lia. }
  cbv zeta in P2, P3, P4, P6, P7. rewrite <- Es in P2, P3, P4, P6, P7.
  split; [unfold deleteAllFiles; rewrite Hm; reflexivity|].
  split; [rewrite P2; reflexivity|].
  split; [intros i; rewrite P2; reflexivity|].
  split; [rewrite P3; exact Hm|].
  split.
  { pose proof (stored_slice _ _ 0 8 P6) as S.
    change (Z.of_nat 0) with 0 in S. change (Z.of_nat 8) with 8 in S.
    rewrite S; reflexivity. }
  split; [exact P7|].
  destruct (newFile_first s') as (N1 & N2 & N3 & _).
  { rewrite P2. reflexivity. }
  split; [exact N1|]. split; [exact N2 | exact N3].
Qed.

Lemma deleteAllFiles_empties_the_table_witness :
  let T := mkFAT (fun i => mkFile (4096 * (i + 1)) (4096 * (i + 1) + 100)) 2 in
  let s := set_fat T (power_on (fun _ => 0)) in
  fst (deleteAllFiles s) = FLASH_STORAGE_OK
  /\ file_count (_fat (snd (deleteAllFiles s))) = 0.
Proof.
  intros T s.
  destruct (deleteAllFiles_empties_the_table s) as (H1 & H2 & _).
  - reflexivity.
  - split; [exact H1 | exact H2].
Defined.

(** ** [eraseNextSector] *)

(** X9.  [eraseNextSector] never touches the table, the mode, the cursor or
    the buffer.  When the chip reports busy it returns [FLASH_STORAGE_BUSY]
    and sends nothing: the frontier and the content of the chip stay.
    Otherwise it returns [FLASH_STORAGE_OK], sends one erase at the frontier
    and advances the frontier by 4096 modulo 2^32; with the frontier on a
    sector boundary, exactly the 4096 bytes from the old frontier on become
    255. *)
Theorem eraseNextSector_erases_at_the_frontier (s : FlashStorage) :
  let f := _max_erased_addr s in
  let s' := snd (eraseNextSector s) in
  (_fat s' = _fat s /\ _mode s' = _mode s /\ _curr_addr s' = _curr_addr s
   /\ _buff_index s' = _buff_index s /\ _buff s' = _buff s)
  /\ (fst (busy (_flash s)) = true ->
        fst (eraseNextSector s) = FLASH_STORAGE_BUSY
        /\ _max_erased_addr s' = f
        /\ cells (_flash s') = cells (_flash s)
        /\ journal (_flash s') = journal (_flash s))
  /\ (fst (busy (_flash s)) = false ->
        fst (eraseNextSector s) = FLASH_STORAGE_OK
        /\ _max_erased_addr s' = u32 (f + 4096)
        /\ journal (_flash s') = SectorErase f :: journal (_flash s)
        /\ (f mod SECTOR = 0 ->
            forall a, cells (_flash s') a
                      = if (f <=? a) && (a <? f + SECTOR) then 255
                        else cells (_flash s) a)).
Proof.
  cbv zeta. unfold eraseNextSector.
  destruct (busy_keeps (_flash s)) as (Hc & Hj & _).
  destruct (busy (_flash s)) as [b d]. cbn [fst snd] in *.
  destruct b; fields.
  - split; [repeat split|]. split; [|intros H; discriminate H].
    intros _. repeat split; assumption.
  - split; [repeat split|]. split; [intros H; discriminate H|].
    intros _. split; [reflexivity|]. split; [reflexivity|].
    split; [rewrite Hj; reflexivity|].
    intros Hal a. cbn [apply_command]. rewrite Hc.
    destruct (a / SECTOR =? _max_erased_addr s / SECTOR) eqn:E.
    + apply same_sector in E; [|exact Hal].
      destruct (Z.leb_spec (_max_erased_addr s) a);
        destruct (Z.ltb_spec a (_max_erased_addr s + SECTOR));
        cbn [andb]; try reflexivity; lia.
    + destruct (Z.leb_spec (_max_erased_addr s) a);
        destruct (Z.ltb_spec a (_max_erased_addr s + SECTOR));
        cbn [andb]; try reflexivity.
      assert (Ht : (a / SECTOR =? _max_erased_addr s / SECTOR) = true)
        by (apply same_sector; [exact Hal | lia]).
      congruence.
Qed.

Lemma eraseNextSector_erases_at_the_frontier_witness :
  fst (busy (_flash demo_writer)) = false
  /\ fst (eraseNextSector demo_writer) = FLASH_STORAGE_OK
  /\ _max_erased_addr (snd (eraseNextSector demo_writer)) = 12288.
Proof.
  assert (Hb : fst (busy (_flash demo_writer)) = false) by reflexivity.
  destruct (eraseNextSector_erases_at_the_frontier demo_writer)
    as (_ & _ & H).
  destruct (H Hb) as (H1 & H2 & _).
  split; [exact Hb|]. split; [exact H1|]. rewrite H2. reflexivity.
Defined.

(** ** Reading in steps *)

Lemma stored_app m a n1 n2 :
  0 <= n1 -> 0 <= n2 ->
  stored m a (n1 + n2) = stored m a n1 ++ stored m (a + n1) n2.
Proof.
  intros H1 H2. unfold stored.
  rewrite Z2Nat.inj_add by assumption. rewrite seq_app, map_app. f_equal.
  cbn [Nat.add].
  assert (G : forall n j,
            map (fun i => m (a + Z.of_nat i)) (seq (Z.to_nat n1 + j) n)
            = map (fun i => m (a + n1 + Z.of_nat i)) (seq j n)).
  { induction n as [|n IH]; intros j; cbn [seq map]; [reflexivity|].
    f_equal; [f_equal; lia|].
    rewrite <- IH. f_equal. f_equal. lia. }
  rewrite <- (G _ 0%nat). rewrite Nat.add_0_r. reflexivity.
Qed.

Lemma read_healthy n s :
  _mode s = FLASH_STORAGE_READ_MODE -> replies (_flash s) = [] ->
  read n s
  = (let left := u32 (end_addr (files (_fat s) (opened_slot s)) - _curr_addr s) in
     let len := if left <? n then left else n in
     (len, stored (cells (_flash s)) (_curr_addr s) len,
      set_curr_addr (u32 (_curr_addr s + len)) (set_flash_status W25Q64_OK s))).
Proof.
  intros Hm Hr. unfold read, fastRead, readData. rewrite Hm, Hr.
  rewrite set_flash_same. reflexivity.
Qed.

(** X10.  In read mode, on a chip that answers its reads and with the cursor
    not beyond the end of the file, [read(a)] followed by [read(b)] delivers
    the same bytes, the same total count and the same final state as
    [read(a + b)].  The count is [a + b] clamped to what [peek] returned
    before, and [peek] afterwards has dropped by it: a file can be read in
    pieces of any size, and a read at the end of the file returns 0. *)
Theorem read_in_two_steps (s : FlashStorage) (a b : Z) :
  _mode s = FLASH_STORAGE_READ_MODE -> replies (_flash s) = [] ->
  0 <= a -> 0 <= b ->
  0 <= _curr_addr s <= end_addr (files (_fat s) (opened_slot s)) ->
  end_addr (files (_fat s) (opened_slot s)) < 4294967296 ->
  let '(n1, d1, s1) := read a s in
  let '(n2, d2, s2) := read b s1 in
  read (a + b) s = (n1 + n2, d1 ++ d2, s2)
  /\ n1 + n2 = Z.min (a + b) (peek s)
  /\ peek s2 = peek s - (n1 + n2).
Proof.
  intros Hm Hr Ha Hb Hc He.
  rewrite (read_healthy a s Hm Hr). cbv zeta.
  set (e := end_addr (files (_fat s) (opened_slot s))) in *.
  set (c := _curr_addr s) in *.
  rewrite (u32_small (e - c)) by lia.
  set (n1 := if e - c <? a then e - c else a).
  assert (Hn1 : 0 <= n1 <= e - c /\ n1 <= a).
  { unfold n1. destruct (Z.ltb_spec (e - c) a); lia. }
  set (s1 := set_curr_addr (u32 (c + n1)) (set_flash_status W25Q64_OK s)).
  assert (Hm1 : _mode s1 = FLASH_STORAGE_READ_MODE) by exact Hm.
  assert (Hr1 : replies (_flash s1) = []) by exact Hr.
  rewrite (read_healthy b s1 Hm1 Hr1). cbv zeta.
  change (opened_slot s1) with (opened_slot s).
  change (_fat s1) with (_fat s). change (cells (_flash s1)) with (cells (_flash s)).
  change (_curr_addr s1) with (u32 (c + n1)). fold e.
  rewrite (u32_small (c + n1)) by lia.
  rewrite (u32_small (e - (c + n1))) by lia.
  set (n2 := if e - (c + n1) <? b then e - (c + n1) else b).
  assert (Hn2 : 0 <= n2 <= e - (c + n1) /\ n2 <= b).
  { unfold n2. destruct (Z.ltb_spec (e - (c + n1)) b); lia. }
  rewrite (read_healthy (a + b) s Hm Hr). cbv zeta. fold e c.
  rewrite (u32_small (e - c)) by lia.
  assert (Hsum : (if e - c <? a + b then e - c else a + b) = n1 + n2).
  { unfold n1, n2 in *.
    destruct (Z.ltb_spec (e - c) (a + b)); destruct (Z.ltb_spec (e - c) a);
      try lia;
      match goal with
      | |- context [?x <? b] => destruct (Z.ltb_spec x b)
      end; lia. }
  rewrite Hsum.
  assert (Hpeek : peek s = e - c).
  { unfold peek. rewrite Hm. fold e c. apply u32_small. lia. }
  split; [|split].
  - rewrite stored_app by lia.
    unfold s1. fields. replace (c + n1 + n2) with (c + (n1 + n2)) by lia.
    reflexivity.
  - rewrite Hpeek. unfold n1, n2 in *.
    destruct (Z.ltb_spec (e - c) a);
      match goal with
      | |- context [?x <? b] => destruct (Z.ltb_spec x b)
      end; lia.
  - rewrite Hpeek. unfold peek, s1. fields. rewrite Hm.
    unfold opened_slot. fields. fold (opened_slot s). fold e.
    rewrite (u32_small (c + n1 + n2)) by lia.
    rewrite u32_small by lia. lia.
Qed.

Lemma read_in_two_steps_witness :
  fst (read (1 + 5) demo_reader)
  = (fst (fst (read 1 demo_reader))
     + fst (fst (read 5 (snd (read 1 demo_reader)))),
     snd (fst (read 1 demo_reader))
     ++ snd (fst (read 5 (snd (read 1 demo_reader))))).
Proof.
  assert (Hm : _mode demo_reader = FLASH_STORAGE_READ_MODE) by reflexivity.
  assert (Hr : replies (_flash demo_reader) = []) by reflexivity.
  assert (Hc : 0 <= _curr_addr demo_reader
               <= end_addr (files (_fat demo_reader) (opened_slot demo_reader)))
    by (vm_compute; split; discriminate).
  assert (He : end_addr (files (_fat demo_reader) (opened_slot demo_reader))
               < 4294967296) by (vm_compute; reflexivity).
  generalize (read_in_two_steps demo_reader 1 5 Hm Hr ltac:(lia) ltac:(lia) Hc He).
  destruct (read 1 demo_reader) as [[n1 d1] s1]. cbn [fst snd].
  destruct (read 5 s1) as [[n2 d2] s2]. cbn [fst snd].
  intros (H & _). rewrite H. reflexivity.
Defined.

(** ** The table on the chip during a write session *)

Lemma replay_fat_image t opened m :
  0 <= file_count t <= FLASH_STORAGE_MAX_FILE_NUMBER ->
  holds_image (replay (fat_commands t opened) m) (fat_image t opened).
Proof.
  unfold FLASH_STORAGE_MAX_FILE_NUMBER. intros Hc i Hlt.
  pose proof (fat_image_length t opened (proj1 Hc)) as Hlen.
  unfold header_size, id_size in Hlen.
  unfold fat_commands, header_size, id_size.
  cbn [replay apply_command].
  destruct (Z.leb_spec 0 (Z.of_nat i));
    destruct (Z.ltb_spec (Z.of_nat i) (0 + (6 + 2 + file_count t * 5)));
    cbn [andb]; try lia.
  assert (E : (Z.of_nat i / SECTOR =? 0 / SECTOR) = true).
  { apply same_sector; [reflexivity | unfold SECTOR; lia]. }
  rewrite E. unfold byte_at.
  replace (Z.to_nat (0 * 256 + (Z.of_nat i - 0))) with i by lia.
  apply land_erased.
  pose proof (fat_image_bytes t opened) as Hb.
  rewrite Forall_forall in Hb. apply Hb. apply nth_In. exact Hlt.
Qed.

Lemma holds_image_above m m' img :
  holds_image m img -> Z.of_nat (length img) <= SECTOR ->
  (forall a, 0 <= a < SECTOR -> m' a = m a) -> holds_image m' img.
Proof.
  intros H Hl Hm i Hi. rewrite Hm by lia. apply H. exact Hi.
Qed.


Section WriteEach.

Variables (A : Z) (jc J1 : list command) (m1 m0 : Z -> Z).
Hypothesis A_aligned : A mod SECTOR = 0.
Hypothesis A_positive : 0 <= A.

(** A flush of the session programs nothing below the file. *)
Lemma flush_keeps_below D F n j s :
  core A jc J1 m1 D F n j s -> kept_below A m0 s ->
  (A + F) mod 256 = 0 -> n <= 1024 ->
  A + F + n <= _max_erased_addr s -> A + F + n + 4096 < 4294967296 ->
  kept_below A m0 (snd (writeFIFO s)).
Proof.
  intros ((Fj & Fc & Fa & Ff) & Hmo & Hm & Hl & Hb & Hc & HF & Hn & _) Hk
         Hal Hn' Hle Hlim.
  pose proof (every_moment_now _ _ Hmo) as (M1 & M2 & _).
  rewrite <- Fa, <- Ff in M1. rewrite <- Ff in M2.
  pose proof (writeFIFO_aligned s) as W. cbv zeta in W.
  rewrite Hc, Hb in W.
  destruct W as (_ & _ & _ & W4 & _); try lia.
  intros a Ha. rewrite W4, replay_flush by (assumption || lia).
  destruct (Z.leb_spec (A + F) a); cbn [andb]; [lia|].
  apply Hk. exact Ha.
Qed.

Lemma fill_keeps_below s v dst src off k :
  kept_below A m0 s ->
  kept_below A m0 (set_buff_index v (memcpy_buff dst src off k s)).
Proof. intros H a Ha. apply H. exact Ha. Qed.

Lemma session_chunks_frame D buff L T0 : forall fuel index s j,
  session A jc J1 m1 D (T0 + index) 0 j s -> kept_below A m0 s ->
  (forall k, 0 <= k -> D (T0 + k) = buff k) ->
  0 <= index <= L -> L - index <= 1024 * Z.of_nat fuel ->
  0 <= T0 -> A + T0 + L + 4096 < 4294967296 ->
  exists index' s' new,
    write_chunks fuel buff L index s = Some (index', s')
    /\ session A jc J1 m1 D (T0 + index') 0 (new ++ j) s'
    /\ kept_below A m0 s'
    /\ index <= index' <= L /\ L <= index' + 1024.
Proof.
  induction fuel as [|fuel IH]; intros index s j Hs Hk HD Hi Hfuel HT Hlim;
    cbn [write_chunks]; unfold FLASH_STORAGE_FIFO_BUFFER_SIZE;
    rewrite (u32_small (index + 1024)) by lia;
    destruct (Z.ltb_spec (index + 1024) L) as [Hlt|Hge]; try lia.
  - exists index, s, []. split; [reflexivity|]. split; [exact Hs|].
    split; [exact Hk | lia].
  - pose proof (session_fill A jc J1 m1 D (T0 + index) 0 j s buff index 1024 Hs)
      as Hfill.
    cbn [Z.add] in Hfill. specialize (Hfill ltac:(lia) ltac:(lia)).
    assert (Hsrc : forall i, 0 <= i < 1024 ->
              buff (index + i) = D (T0 + index + 0 + i)).
    { intros i Hi'. rewrite <- HD by lia. f_equal. lia. }
    specialize (Hfill Hsrc).
    pose proof (fill_keeps_below s 1024 0 buff index 1024 Hk) as Hk1.
    destruct (session_flush A jc J1 m1 A_aligned A_positive D (T0 + index) j _ Hfill)
      as (Hnext & _); [lia|].
    cbv zeta in Hnext.
    assert (Hk2 : kept_below A m0
                    (snd (writeFIFO (set_buff_index 1024
                                       (memcpy_buff 0 buff index 1024 s))))).
    { destruct Hfill as (Hcore & HF & _ & Hfr).
      apply (flush_keeps_below D (T0 + index) 1024 j _ Hcore Hk1); try lia.
      apply (aligned_1024 A A_aligned). exact HF. }
    replace (T0 + index + 1024) with (T0 + (index + 1024)) in Hnext by lia.
    destruct (IH (index + 1024) _ _ Hnext Hk2 HD)
      as (index' & s' & new & W & S' & K' & B1 & B2); try lia.
    exists index', s'. eexists. rewrite app_assoc in S'.
    split; [exact W|]. split; [exact S'|]. split; [exact K' | lia].
  - exists index, s, []. split; [reflexivity|]. split; [exact Hs|].
    split; [exact Hk | lia].
Qed.

(** [session_write] with what the call leaves alone below the file. *)
Lemma session_write_frame D F n j s buff L :
  session A jc J1 m1 D F n j s -> kept_below A m0 s -> 0 <= L ->
  A + F + n + L + 4096 < 4294967296 ->
  exists s' new F' n',
    write buff L s = Some (FLASH_STORAGE_OK, s')
    /\ session A jc J1 m1 (extend D (F + n) buff) F' n' (new ++ j) s'
    /\ kept_below A m0 s'
    /\ F' + n' = F + n + L.
Proof.
  intros Hs Hk HL Hlim.
  set (D' := extend D (F + n) buff).
  assert (HD' : forall i, 0 <= i < F + n -> D' i = D i).
  { intros i Hi. unfold D', extend. destruct (Z.ltb_spec i (F + n)); [reflexivity|lia]. }
  assert (HDb : forall k, 0 <= k -> D' (F + n + k) = buff k).
  { intros k Hk'. unfold D', extend.
    destruct (Z.ltb_spec (F + n + k) (F + n)); [lia|]. f_equal. lia. }
  apply (session_ext A jc J1 m1 D D') in Hs; [|exact HD'].
  pose proof Hs as ((_ & _ & Hm & _ & Hb & _ & HF & Hn & _) & HF1024 & Hn' & Hfr0).
  assert (Hfin : forall s1 F1 n1 j1,
            session A jc J1 m1 D' F1 n1 j1 s1 -> F1 + n1 <= F + n + L ->
            (if u32 (_max_erased_addr s1 - _lookahead_erase_size s1)
                  <? _curr_addr s1
             then Some (eraseNextSector s1)
             else Some (FLASH_STORAGE_OK, s1)) = Some (FLASH_STORAGE_OK, s1)).
  { intros s1 F1 n1 j1 ((_ & _ & _ & Hl1 & _ & Hc1 & HF1 & Hn1 & _) & _ & _ & Hfr) Hle.
    rewrite Hl1, Hc1. unfold FLASH_STORAGE_STANDARD_LOOKAHEAD_SIZE, SECTOR in *.
    rewrite u32_small by lia.
    destruct (Z.ltb_spec (_max_erased_addr s1 - 1024) (A + F1)); [lia|reflexivity]. }
  unfold write. cbn [_buff_index memcpy_buff set_buff].
  rewrite Hm, Hb. unfold FLASH_STORAGE_FIFO_BUFFER_SIZE.
  rewrite (u32_small (1024 - n)) by lia.
  destruct (Z.ltb_spec L (1024 - n)) as [Hlt|Hge].
  - rewrite (u32_small (n + L)) by lia.
    assert (S1 : session A jc J1 m1 D' F (n + L) j
                   (set_buff_index (n + L) (memcpy_buff n buff 0 L s))).
    { apply session_fill; try assumption; try lia.
      intros i Hi. rewrite <- HDb by lia. reflexivity. }
    exists (set_buff_index (n + L) (memcpy_buff n buff 0 L s)), [], F, (n + L).
    split; [apply (Hfin _ _ _ _ S1); lia|]. split; [exact S1|].
    split; [apply fill_keeps_below; exact Hk | lia].
  - replace (u32 (n + (1024 - n))) with (n + (1024 - n))
      by (symmetry; apply u32_small; lia).
    assert (S1 : session A jc J1 m1 D' F (n + (1024 - n)) j
                   (set_buff_index (n + (1024 - n))
                      (memcpy_buff n buff 0 (1024 - n) s))).
    { apply session_fill; try assumption; try lia.
      intros i Hi. rewrite <- HDb by lia. reflexivity. }
    pose proof (fill_keeps_below s (n + (1024 - n)) n buff 0 (1024 - n) Hk) as K1.
    replace (n + (1024 - n)) with 1024 in S1, K1 |- * by lia.
    destruct (session_flush A jc J1 m1 A_aligned A_positive D' F j _ S1)
      as (S2 & _); [lia|].
    cbv zeta in S2.
    assert (K2 : kept_below A m0
                   (snd (writeFIFO (set_buff_index 1024
                                      (memcpy_buff n buff 0 (1024 - n) s))))).
    { destruct S1 as (Hcore & _ & _ & Hfr).
      apply (flush_keeps_below D' F 1024 j _ Hcore K1); try lia.
      apply (aligned_1024 A A_aligned). exact HF1024. }
    replace (F + 1024) with (F + n + (1024 - n)) in S2 by lia.
    destruct (session_chunks_frame D' buff L (F + n) (S (Z.to_nat (L / 1024)))
                (1024 - n) _ _ S2 K2 HDb)
      as (index' & s' & new & W & S3 & K3 & B1 & B2); try lia.
    { rewrite Nat2Z.inj_succ, Z2Nat.id by (apply Z.div_pos; lia).
      pose proof (Z.mul_succ_div_gt L 1024). lia. }
    rewrite W.
    pose proof S3 as ((_ & _ & _ & _ & Hb3 & _) & _).
    rewrite Hb3. rewrite (u32_small (L - index')) by lia.
    rewrite (u32_small (0 + (L - index'))) by lia.
    assert (S4 : session A jc J1 m1 D' (F + n + index') (0 + (L - index'))
                   (new ++ flush_commands (A + F) 1024 (_max_erased_addr
                        (set_buff_index 1024 (memcpy_buff n buff 0 (1024 - n) s)))
                        (_buff (set_buff_index 1024
                                  (memcpy_buff n buff 0 (1024 - n) s))) ++ j)
                   (set_buff_index (0 + (L - index'))
                      (memcpy_buff 0 buff index' (L - index') s'))).
    { apply session_fill; try assumption; try lia.
      intros i Hi. rewrite <- HDb by lia. f_equal. lia. }
    eexists. eexists. exists (F + n + index'), (0 + (L - index')).
    rewrite app_assoc in S4.
    split; [apply (Hfin _ _ _ _ S4); lia|]. split; [exact S4|].
    split; [apply fill_keeps_below; exact K3 | lia].
Qed.

Lemma session_write_each : forall calls D F n j s,
  session A jc J1 m1 D F n j s -> kept_below A m0 s ->
  A + F + n + total calls + 4096 < 4294967296 ->
  exists s' D' F' n' new,
    write_each calls s = Some (repeat FLASH_STORAGE_OK (length calls), s')
    /\ writes calls s = Some s'
    /\ session A jc J1 m1 D' F' n' (new ++ j) s'
    /\ kept_below A m0 s'
    /\ F' + n' = F + n + total calls
    /\ same_file s s'
    /\ (forall i, 0 <= i < F + n -> D' i = D i)
    /\ (forall k, 0 <= k < total calls ->
          D' (F + n + k) = byte_at (concat calls) k).
Proof.
  induction calls as [|B calls IH]; intros D F n j s Hs Hk Hlim.
  - exists s, D, F, n, []. cbn [write_each writes total fold_right app length repeat].
    split; [reflexivity|]. split; [reflexivity|]. split; [exact Hs|].
    split; [exact Hk|].
    split; [lia|]. split; [apply same_file_refl|].
    split; [reflexivity|]. intros k Hk'. lia.
  - cbn [total fold_right] in Hlim. fold (total calls) in Hlim.
    pose proof (total_nonneg calls) as Ht.
    pose proof Hs as ((_ & _ & _ & _ & _ & _ & HF & Hn & _) & _).
    destruct (session_write_frame D F n j s (ptr B) (Z.of_nat (length B)) Hs Hk)
      as (s1 & new1 & F1 & n1 & W & S1 & K1 & E1); try lia.
    destruct (IH _ _ _ _ _ S1 K1)
      as (s2 & D2 & F2 & n2 & new2 & W2 & W2' & S2 & K2 & E2 & Sf2 & Hlow & Hup);
      [lia|].
    exists s2, D2, F2, n2, (new2 ++ new1).
    cbn [write_each writes length repeat]. rewrite W, W2. rewrite <- app_assoc.
    split; [reflexivity|]. split; [exact W2'|]. split; [exact S2|].
    split; [exact K2|].
    cbn [total fold_right concat]. fold (total calls).
    split; [lia|].
    split; [eapply same_file_trans; [|exact Sf2]; eapply write_same_file; exact W|].
    split.
    + intros i Hi. rewrite Hlow by lia. unfold extend.
      destruct (Z.ltb_spec i (F + n)); [reflexivity | lia].
    + intros k Hk'. unfold byte_at.
      destruct (Z.lt_ge_cases k (Z.of_nat (length B))) as [Hlt|Hge].
      * rewrite app_nth1 by lia. rewrite Hlow by lia. unfold extend.
        destruct (Z.ltb_spec (F + n + k) (F + n)); [lia|].
        unfold ptr, byte_at. f_equal. f_equal. lia.
      * rewrite app_nth2 by lia.
        replace (F + n + k) with (F1 + n1 + (k - Z.of_nat (length B))) by lia.
        rewrite Hup by lia. unfold byte_at. f_equal. lia.
Qed.

End WriteEach.

Section CloseTable.

Variables (A : Z) (jc J1 : list command) (m1 m0 : Z -> Z).
Hypothesis A_aligned : A mod SECTOR = 0.
Hypothesis A_sector : SECTOR <= A.

Lemma session_close_table D F n j s :
  session A jc J1 m1 D F n j s -> kept_below A m0 s ->
  A + F + n + 4096 < 4294967296 ->
  0 <= file_count (_fat s) <= FLASH_STORAGE_MAX_FILE_NUMBER ->
  let s' := snd (close s) in
  parked s'
  /\ _lookahead_erase_size s' = FLASH_STORAGE_STANDARD_LOOKAHEAD_SIZE
  /\ holds_image (cells (_flash s')) (fat_image (_fat s') 0)
  /\ (forall a, SECTOR <= a < A -> cells (_flash s') a = m0 a).
Proof.
  unfold FLASH_STORAGE_MAX_FILE_NUMBER.
  intros (Hcore & HF & Hn & Hfr) Hk Hlim Hfc. cbv zeta.
  assert (Hpos : 0 <= A) by (unfold SECTOR in A_sector; lia).
  pose proof Hcore as ((Fj & Fc & Fa & Ff) & Hmo & Hm & Hl & Hb & Hc & HF0 & Hn0 & _).
  assert (Hal : (A + F) mod 256 = 0) by (apply aligned_1024; assumption).
  pose proof (flush_keeps_below A jc J1 m1 m0 Hpos D F n j s Hcore Hk Hal)
    as Wlow.
  specialize (Wlow ltac:(lia) ltac:(lia) ltac:(lia)).
  destruct (core_flush A jc J1 m1 Hpos D F n j s Hcore)
    as (((_ & Wc & _) & _) & _ & _); try lia; try assumption.
  pose proof (close_write_aligned s) as C. cbv zeta in C.
  rewrite Hc, Hb in C.
  destruct C as (C1 & C2 & C3 & C4 & C5 & C6 & _ & C8 & _ & C10 & _);
    try assumption; try lia.
  split; [repeat split; assumption|].
  split; [rewrite C8; exact Hl|].
  split.
  - rewrite C10, replay_app, C1. apply replay_fat_image.
    unfold FLASH_STORAGE_MAX_FILE_NUMBER.
    cbn [file_count set_end_addr set_file]. exact Hfc.
  - intros a Ha. rewrite C10, replay_app.
    rewrite replay_fat_commands
      by (cbn [file_count set_end_addr set_file]; lia).
    rewrite <- (Wlow a) by lia. rewrite Wc, Fc, replay_app. reflexivity.
Qed.

End CloseTable.

(** ** Opening a file of the table and reading it *)



(** [openFile(k); read(L)] on file [k] of the table as [close()] leaves it,
    when the chip holds [B] between the two addresses of the record. *)
Lemma open_then_read s k a B :
  let sc := snd (close s) in
  let L := Z.of_nat (length B) in
  1 <= k <= file_count (_fat sc) -> k <= 4294967296 ->
  files (_fat sc) (k - 1) = mkFile a (a + L) ->
  0 <= a -> a + L < 4294967296 ->
  replies (_flash sc) = [] ->
  (forall i, (i < length B)%nat -> cells (_flash sc) (a + Z.of_nat i) = nth i B 0) ->
  let s' := snd (openFile k s) in
  fst (openFile k s) = FLASH_STORAGE_OK
  /\ peek s' = L
  /\ fst (read L s') = (L, B)
  /\ _mode s' = FLASH_STORAGE_READ_MODE
  /\ _fat s' = _fat sc
  /\ cells (_flash s') = cells (_flash sc)
  /\ replies (_flash s') = [].
Proof.
  intros sc L Hk Hk' Hrec Ha HaL Hr Hdata. cbv zeta.
  unfold openFile. fold sc.
  destruct (Z.ltb_spec (file_count (_fat sc)) k) as [Habs|_]; [lia|].
  cbn [fst snd].
  match goal with |- context [peek ?x] => set (s4 := x) end.
  assert (M4 : _mode s4 = FLASH_STORAGE_READ_MODE) by reflexivity.
  assert (O4 : opened_slot s4 = k - 1).
  { unfold opened_slot, s4. fields. apply u32_small. lia. }
  assert (F4 : _fat s4 = _fat sc) by reflexivity.
  assert (A4 : _curr_addr s4 = a).
  { unfold s4. fields. unfold opened_slot. fields.
    rewrite (u32_small (k - 1)) by lia. rewrite Hrec. reflexivity. }
  assert (R4 : replies (_flash s4) = []).
  { unfold s4. fields. rewrite wait_idle_replies. exact Hr. }
  assert (C4 : cells (_flash s4) = cells (_flash sc)).
  { unfold s4. fields. apply wait_idle_cells. }
  assert (HL : 0 <= L) by (unfold L; lia).
  split; [reflexivity|].
  split.
  { unfold peek. rewrite M4, O4, F4, A4, Hrec. cbn [end_addr].
    replace (a + L - a) with L by lia. apply u32_small. lia. }
  split.
  { rewrite (read_healthy L s4 M4 R4). cbv zeta.
    rewrite O4, F4, A4, Hrec. cbn [end_addr fst].
    replace (a + L - a) with L by lia. rewrite (u32_small L) by lia.
    rewrite Z.ltb_irrefl. f_equal. rewrite C4. unfold L.
    apply stored_eq. exact Hdata. }
  repeat split; assumption.
Qed.

(** ** A whole write session, from [newFile] to [close] *)

Lemma file_session (s : FlashStorage) (calls : list (list Z)) :
  let sc := snd (close s) in
  let fc := file_count (_fat sc) in
  let A := next_start sc in
  let s1 := snd (newFile s) in
  room_for_file sc -> A + total calls + SECTOR < 4294967296 ->
  (fst (newFile s) = FLASH_STORAGE_OK
   /\ file_count (_fat s1) = fc + 1 /\ _opened_file s1 = fc + 1
   /\ replies (_flash s1) = replies (_flash sc)
   /\ files (_fat s1) fc = mkFile A A
   /\ (forall k, k <> fc -> files (_fat s1) k = files (_fat sc) k)
   /\ holds_image (cells (_flash s1)) (fat_image (_fat s1) (fc + 1))
   /\ (forall a, SECTOR <= a -> a < A \/ A + SECTOR <= a ->
         cells (_flash s1) a = cells (_flash sc) a))
  /\ exists s2,
       (write_each calls s1 = Some (repeat FLASH_STORAGE_OK (length calls), s2)
        /\ writes calls s1 = Some s2
        /\ _fat s2 = _fat s1 /\ _opened_file s2 = fc + 1
        /\ _mode s2 = FLASH_STORAGE_WRITE_MODE
        /\ (forall a, a < A -> cells (_flash s2) a = cells (_flash s1) a))
       /\ let s3 := snd (close s2) in
          parked s3
          /\ _lookahead_erase_size s3 = FLASH_STORAGE_STANDARD_LOOKAHEAD_SIZE
          /\ _fat s3 = set_end_addr fc (A + total calls) (_fat s1)
          /\ replies (_flash s3) = replies (_flash sc)
          /\ holds_image (cells (_flash s3)) (fat_image (_fat s3) 0)
          /\ (forall a, SECTOR <= a < A ->
                cells (_flash s3) a = cells (_flash s1) a)
          /\ (forall i, 0 <= i < total calls ->
                cells (_flash s3) (A + i)
                = Z.land 255 (byte_at (concat calls) i)).
Proof.
  intros sc fc A s1 Hroom Hlim.
  pose proof (total_nonneg calls) as Ht.
  destruct (newFile_session s (fun _ => 0) Hroom)
    as (N1 & N2 & N3 & N4 & N5 & N6 & jc & Nj & Ns).
  { fold sc A. lia. }
  fold sc in N2, N3, N4, N5, N6, Nj, Ns. fold A in N2, N5, Ns.
  fold fc in N3, N4, N5. fold s1 in N2, N3, N4, N5, N6, Nj, Ns.
  destruct Hroom as (_ & _ & Hc0 & Hc1 & He).
  unfold FLASH_STORAGE_MAX_FILE_NUMBER in Hc1. fold fc in Hc0, Hc1.
  destruct (next_start_aligned sc He) as [Hal Hge]. fold A in Hal, Hge.
  assert (Hpos : 0 <= A) by (unfold SECTOR in Hge; lia).
  pose proof (newFile_creates s) as N. cbv zeta in N. fold sc in N. fold fc in N.
  assert (HA' : (if fc =? 0 then 4096
                 else (end_addr (files (_fat sc) (fc - 1)) / 4096 + 1) * 4096) = A)
    by reflexivity.
  rewrite HA' in N.
  destruct N as (_ & M2 & _ & _ & _ & _ & _ & _ & _ & _ & M11 & _);
    try assumption; try lia.
  { unfold SECTOR in Hlim. lia. }
  fold s1 in M2, M11.
  split.
  { split; [exact N1|]. split; [exact N3|]. split; [exact N4|].
    split; [exact N6|]. split; [exact N5|].
    split.
    { intros k Hk. rewrite M2, files_set_both.
      destruct (Z.eqb_spec k fc); [contradiction | reflexivity]. }
    split.
    { rewrite M11, replay_app, M2. apply replay_fat_image.
      unfold FLASH_STORAGE_MAX_FILE_NUMBER.
      cbn [file_count set_end_addr set_start_addr set_file set_file_count]. lia. }
    intros a Ha Hout. rewrite M11, replay_app.
    rewrite replay_fat_commands
      by (cbn [file_count set_end_addr set_start_addr set_file set_file_count];
          try assumption; lia).
    cbn [replay apply_command].
    destruct (a / SECTOR =? A / SECTOR) eqn:E; [|reflexivity].
    apply same_sector in E; [lia | exact Hal]. }
  assert (K1 : kept_below A (cells (_flash s1)) s1) by (intros a Ha; reflexivity).
  destruct (session_write_each A jc (journal (_flash s1)) (cells (_flash s1))
              (cells (_flash s1)) Hal Hpos calls _ _ _ _ _ Ns K1)
    as (s2 & D' & F' & n' & new & We & W & S2 & Hlow2 & E2 & (T1 & T2 & T3 & T4)
        & _ & Hup).
  { unfold SECTOR in Hlim. lia. }
  exists s2.
  pose proof S2 as ((_ & _ & Hm2 & _) & _).
  split.
  { split; [exact We|]. split; [exact W|]. split; [exact T1|].
    split; [rewrite T2; exact N4|]. split; [exact Hm2 | exact Hlow2]. }
  pose proof (session_close A jc (journal (_flash s1)) (cells (_flash s1)) Hal Hge
                _ F' n' _ s2 S2) as C. cbv zeta in C.
  destruct C as (C1 & _ & _ & _ & _ & C6 & C7).
  { unfold SECTOR in Hlim. lia. }
  { rewrite T1, N3. lia. }
  pose proof (session_close_table A jc (journal (_flash s1)) (cells (_flash s1))
                (cells (_flash s1)) Hal Hge _ F' n' _ s2 S2 Hlow2) as C'.
  cbv zeta in C'.
  destruct C' as (P1 & P2 & P3 & P4).
  { unfold SECTOR in Hlim. lia. }
  { rewrite T1, N3. unfold FLASH_STORAGE_MAX_FILE_NUMBER. lia. }
  assert (Hslot2 : opened_slot s2 = fc).
  { unfold opened_slot. rewrite T2, N4. replace (fc + 1 - 1) with fc by lia.
    apply u32_small. lia. }
  rewrite Hslot2, T1 in C1.
  replace (A + F' + n') with (A + total calls) in C1 by lia.
  cbv zeta.
  split; [exact P1|]. split; [exact P2|]. split; [exact C1|].
  split; [rewrite C6, T4; exact N6|]. split; [exact P3|].
  split; [exact P4|].
  intros i Hi. rewrite C7 by lia.
  replace i with (0 + 0 + i) at 1 by lia. rewrite Hup by lia. reflexivity.
Qed.

(** X11.  The table on the chip during a write session.  When [newFile]
    returns, the chip holds the image of the table in memory; its
    in-progress byte is the number of the new file, whose record starts and
    ends at the file's start address.  The [write] calls change neither the
    table in memory nor its image on the chip: until [close], the chip
    records the file as empty.  [close] sets the end address of the record to
    the start address plus the number of bytes written, resets
    [_opened_file] to 0 and leaves the image of that table on the chip. *)
Theorem table_on_chip_follows_the_session (s : FlashStorage)
  (calls : list (list Z)) :
  let sc := snd (close s) in
  let s1 := snd (newFile s) in
  room_for_file sc ->
  next_start sc + total calls + SECTOR < 4294967296 ->
  _opened_file s1 = file_count (_fat s1)
  /\ files (_fat s1) (file_count (_fat s1) - 1)
     = mkFile (next_start sc) (next_start sc)
  /\ holds_image (cells (_flash s1)) (fat_image (_fat s1) (_opened_file s1))
  /\ exists s2,
       writes calls s1 = Some s2
       /\ _fat s2 = _fat s1
       /\ holds_image (cells (_flash s2))
            (fat_image (_fat s1) (_opened_file s1))
       /\ let s3 := snd (close s2) in
          _fat s3 = set_end_addr (file_count (_fat s1) - 1)
                      (next_start sc + total calls) (_fat s1)
          /\ _opened_file s3 = 0
          /\ holds_image (cells (_flash s3)) (fat_image (_fat s3) 0).
Proof.
  intros sc s1 Hroom Hlim.
  destruct (file_session s calls Hroom Hlim)
    as ((_ & N3 & N4 & _ & N5 & _ & N7 & _) & s2 & (_ & W & T1 & _ & _ & Hlow)
        & (P1 & _ & C1 & _ & P3 & _)).
  fold sc in N3, N4, N5, N7, C1, Hlow. fold s1 in N3, N4, N5, N7, W, T1, C1, Hlow.
  pose proof Hroom as (_ & _ & Hc0 & Hc1 & He).
  unfold FLASH_STORAGE_MAX_FILE_NUMBER in Hc1.
  destruct (next_start_aligned sc He) as [_ Hge].
  rewrite N3, N4. replace (file_count (_fat sc) + 1 - 1)
    with (file_count (_fat sc)) by lia.
  split; [reflexivity|]. split; [exact N5|]. split; [exact N7|].
  exists s2. split; [exact W|]. split; [exact T1|].
  split.
  { apply (holds_image_above (cells (_flash s1))); [exact N7| |].
    - rewrite fat_image_length by (rewrite N3; lia).
      rewrite N3. unfold header_size, id_size, SECTOR. lia.
    - intros a Ha. apply Hlow. lia. }
  cbv zeta. split; [exact C1|].
  split; [apply P1 | exact P3].
Qed.

Lemma table_on_chip_follows_the_session_witness :
  let s := power_on (fun _ => 0) in
  let s1 := snd (newFile s) in
  exists s2,
    writes [repeat 7 3000; repeat 9 2000] s1 = Some s2
    /\ _fat s2 = _fat s1
    /\ _opened_file (snd (close s2)) = 0.
Proof.
  intros s s1.
  assert (Hroom : room_for_file (snd (close s))).
  { unfold room_for_file. vm_compute. intuition congruence. }
  destruct (table_on_chip_follows_the_session s
              [repeat 7 3000; repeat 9 2000] Hroom)
    as (_ & _ & _ & s2 & W & T & _ & _ & C & _).
  - vm_compute. reflexivity.
  - exists s2. split; [exact W|]. split; [exact T|]. exact C.
Defined.

(** ** Reading back what a session has written *)


Lemma bytes_on_chip m a B :
  Forall is_byte B ->
  (forall i, 0 <= i < Z.of_nat (length B) -> m (a + i) = Z.land 255 (byte_at B i)) ->
  forall i, (i < length B)%nat -> m (a + Z.of_nat i) = nth i B 0.
Proof.
  intros HB Hm i Hi. rewrite Hm by lia. unfold byte_at. rewrite Nat2Z.id.
  apply land_erased. rewrite Forall_forall in HB. apply HB. apply nth_In. exact Hi.
Qed.

Lemma repeat_bytes b n : is_byte b -> Forall is_byte (repeat b n).
Proof.
  intros Hb. apply Forall_forall. intros x Hx.
  apply repeat_spec in Hx. subst x. exact Hb.
Qed.



Lemma one_write s1 B s2 :
  write_each [B] s1 = Some (repeat FLASH_STORAGE_OK (length [B]), s2) ->
  write (ptr B) (Z.of_nat (length B)) s1 = Some (FLASH_STORAGE_OK, s2).
Proof.
  cbn [write_each length repeat].
  destruct (write _ _ s1) as [[r s']|]; [|discriminate].
  intros H. injection H as -> ->. reflexivity.
Qed.

Lemma total_one B : total [B] = Z.of_nat (length B).
Proof. cbn [total fold_right]. lia. Qed.

Lemma sector_aligned_page A : A mod SECTOR = 0 -> A mod 256 = 0.
Proof.
  unfold SECTOR. intros H.
  assert (E : A = 4096 * (A / 4096)) by (apply Z.div_exact; lia).
  rewrite E. replace (4096 * (A / 4096)) with (16 * (A / 4096) * 256) by lia.
  apply Z.mod_mul. lia.
Qed.

(** X13.  A file whose length is a multiple of 256 survives a restart of the
    board.  After [newFile(); write(B, L); close()] on a table whose records
    are all at multiples of 256 below 2^24, with the new file below 2^24 too,
    a store constructed anew over the same chip (any store [s0] in no mode)
    gets [FLASH_STORAGE_OK] from [init], finds one file more than there were
    before, and [openFile(index); read(L)] returns [FLASH_STORAGE_OK] and
    the [L] bytes of [B]. *)
Theorem file_survives_a_restart (s s0 : FlashStorage) (B : list Z) :
  let sc := snd (close s) in
  let L := Z.of_nat (length B) in
  room_for_file sc -> replies (_flash sc) = [] -> Forall is_byte B ->
  _mode s0 = FLASH_STORAGE_NO_MODE ->
  (forall i, 0 <= i < file_count (_fat sc) ->
     page_resolution (start_addr (files (_fat sc) i))
     /\ page_resolution (end_addr (files (_fat sc) i))) ->
  L mod 256 = 0 -> next_start sc + L < 16777216 ->
  write_restart_read B s s0
  = Some (FLASH_STORAGE_OK, file_count (_fat sc) + 1, FLASH_STORAGE_OK, (L, B)).
Proof.
  intros sc L Hroom Hrep HB Hm0 Hres HL Hlim.
  assert (Hlim' : next_start sc + total [B] + SECTOR < 4294967296).
  { rewrite total_one. fold L. unfold SECTOR. lia. }
  destruct (file_session s [B] Hroom Hlim')
    as ((_ & N3 & _ & _ & N5 & N6 & _) & s2 & (We & _)
        & (_ & _ & C1 & C6 & P3 & _ & C7)).
  fold sc in N3, N5, N6, C1, C6, C7.
  apply one_write in We. fold L in We.
  rewrite total_one in C1, C7. fold L in C1, C7.
  cbn [concat] in C7. rewrite app_nil_r in C7.
  pose proof Hroom as (_ & _ & Hc0 & Hc1 & He).
  unfold FLASH_STORAGE_MAX_FILE_NUMBER in Hc1.
  destruct (next_start_aligned sc He) as [Hal Hge].
  set (A := next_start sc) in *. set (fc := file_count (_fat sc)) in *.
  set (s1 := snd (newFile s)) in *. set (s3 := snd (close s2)) in *.
  assert (HL0 : 0 <= L) by (unfold L; lia).
  assert (Hfc3 : file_count (_fat s3) = fc + 1).
  { rewrite C1. cbn [file_count set_end_addr set_file]. exact N3. }
  assert (Hrec : files (_fat s3) fc = mkFile A (A + L)).
  { rewrite C1, files_set_end_same, N5. reflexivity. }
  set (r0 := set_flash (_flash s3) s0).
  destruct (init_of_image r0 (_fat s3) 0) as (T' & Hi & D1 & D2).
  { unfold r0. rewrite flash_set_flash, C6. exact Hrep. }
  { unfold r0. rewrite flash_set_flash. exact P3. }
  { rewrite Hfc3. lia. }
  { intros i Hi. rewrite Hfc3 in Hi.
    destruct (Z.eq_dec i fc) as [->|Hne].
    - rewrite Hrec. cbn [start_addr end_addr].
      pose proof (sector_aligned_page A Hal) as Ha.
      unfold page_resolution, SECTOR in *.
      split; [lia|]. split; [lia|].
      rewrite <- Zplus_mod_idemp_l, Ha. exact HL.
    - rewrite C1, files_set_end_other by exact Hne.
      rewrite N6 by exact Hne. apply Hres. lia. }
  match type of Hi with
  | init r0 = Some (_, ?x) => set (s4 := x) in *
  end.
  assert (Hm4 : _mode s4 = FLASH_STORAGE_NO_MODE) by exact Hm0.
  destruct (open_then_read s4 (fc + 1) A B) as (O1 & _ & O3 & _).
  - rewrite (close_no_mode s4 Hm4). cbn [snd].
    change (file_count (_fat s4)) with (file_count T'). rewrite D1, Hfc3. lia.
  - lia.
  - rewrite (close_no_mode s4 Hm4). cbn [snd].
    change (_fat s4) with T'. rewrite D2, Hfc3.
    replace (fc + 1 - 1) with fc by lia.
    destruct (Z.leb_spec 0 fc); destruct (Z.ltb_spec fc (fc + 1));
      cbn [andb]; try lia.
    exact Hrec.
  - unfold SECTOR in Hge. lia.
  - fold L. lia.
  - rewrite (close_no_mode s4 Hm4). cbn [snd].
    change (_flash s4) with (_flash s3). rewrite C6. exact Hrep.
  - rewrite (close_no_mode s4 Hm4). cbn [snd].
    change (_flash s4) with (_flash s3).
    apply bytes_on_chip; [exact HB | exact C7].
  - unfold write_restart_read. fold s1 L. rewrite We. cbv zeta. fold s3 r0.
    rewrite Hi. rewrite N3. fold L in O3. rewrite O1, O3.
    change (file_count (_fat s4)) with (file_count T'). rewrite D1, Hfc3.
    reflexivity.
Qed.

Lemma file_survives_a_restart_witness :
  write_restart_read (repeat 7 512) (power_on (fun _ => 0))
                     (power_on (fun _ => 0))
  = Some (FLASH_STORAGE_OK, 1, FLASH_STORAGE_OK, (512, repeat 7 512)).
Proof.
  change 512 with (Z.of_nat (length (repeat 7 512))).
  change 1 with (file_count (_fat (snd (close (power_on (fun _ => 0))))) + 1).
  apply (file_survives_a_restart (power_on (fun _ => 0)) (power_on (fun _ => 0))
           (repeat 7 512)).
  - unfold room_for_file. vm_compute. intuition congruence.
  - reflexivity.
  - apply repeat_bytes. unfold is_byte. lia.
  - reflexivity.
  - intros i Hi. simpl in Hi. lia.
  - vm_compute. reflexivity.
  - vm_compute. reflexivity.
Defined.

(** ** Two files *)




(** ** What a session leaves alone *)

(** X15.  A write session does not touch the files before it.  [newFile]
    changes no byte from address 4096 on outside the first sector of the new
    file; after every run of [write] calls, and after the [close] that
    follows, every byte between 4096 and the start of the new file is as it
    was when [newFile] had closed the session before it. *)
Theorem session_leaves_other_sectors_alone (s : FlashStorage)
  (calls : list (list Z)) :
  let sc := snd (close s) in
  let s1 := snd (newFile s) in
  room_for_file sc ->
  next_start sc + total calls + SECTOR < 4294967296 ->
  (forall a, SECTOR <= a -> a < next_start sc \/ next_start sc + SECTOR <= a ->
     cells (_flash s1) a = cells (_flash sc) a)
  /\ exists s2,
       writes calls s1 = Some s2
       /\ forall a, SECTOR <= a < next_start sc ->
            cells (_flash s2) a = cells (_flash sc) a
            /\ cells (_flash (snd (close s2))) a = cells (_flash sc) a.
Proof.
  intros sc s1 Hroom Hlim.
  destruct (file_session s calls Hroom Hlim)
    as ((_ & _ & _ & _ & _ & _ & _ & N8) & s2 & (_ & W & _ & _ & _ & Hlow)
        & (_ & _ & _ & _ & _ & C8 & _)).
  fold sc in N8, Hlow, C8. fold s1 in N8, W, Hlow, C8.
  split; [exact N8|].
  exists s2. split; [exact W|].
  intros a Ha. split.
  - rewrite Hlow by lia. apply N8; lia.
  - rewrite C8 by lia. apply N8; lia.
Qed.

Lemma session_leaves_other_sectors_alone_witness :
  let s := set_fat (mkFAT (fun _ => mkFile 4096 4196) 1) (power_on (fun _ => 5)) in
  exists s2,
    writes [repeat 7 3000] (snd (newFile s)) = Some s2
    /\ cells (_flash (snd (close s2))) 4100 = 5.
Proof.
  intros s.
  assert (Hroom : room_for_file (snd (close s))).
  { unfold room_for_file. vm_compute. intuition congruence. }
  destruct (session_leaves_other_sectors_alone s [repeat 7 3000] Hroom)
    as (_ & s2 & W & H).
  - vm_compute. reflexivity.
  - exists s2. split; [exact W|].
    destruct (H 4100) as (_ & H2).
    + vm_compute. split; [discriminate | reflexivity].
    + rewrite H2. reflexivity.
Defined.

(** ** The flushes the public operations start *)

(** X16.  In every state the public operations can bring a store to from
    construction, a store in write mode has its cursor on a page boundary
    and at most 1024 bytes buffered.  A flush started there skips the block
    for an unaligned cursor and, as long as the addresses stay within 32
    bits, sends only erases and programs that are at most one page long and
    stay inside a page. *)
Theorem flushes_of_reachable_stores_are_legal (s : FlashStorage) :
  reachable s -> _mode s = FLASH_STORAGE_WRITE_MODE ->
  0 <= _curr_addr s -> _curr_addr s + 1024 < 4294967296 ->
  0 <= _max_erased_addr s -> _max_erased_addr s + 4096 < 4294967296 ->
  _curr_addr s mod 256 = 0
  /\ 0 <= _buff_index s <= FLASH_STORAGE_FIFO_BUFFER_SIZE
  /\ fifo_head (fifo_erase s) = (0, fifo_erase s)
  /\ exists new,
       journal (_flash (snd (writeFIFO s))) = new ++ journal (_flash s)
       /\ Forall legal_command new.
Proof.
  intros Hr Hm Hc Hc' Hf Hf'.
  pose proof (aligned_256 _ (reachable_cursor_aligned s Hr Hm)) as Hal.
  pose proof (reachable_buffer_bound s Hr) as Hb.
  split; [exact Hal|]. split; [exact Hb|].
  split.
  { unfold fifo_head. rewrite fifo_erase_cursor, Hal. reflexivity. }
  unfold FLASH_STORAGE_FIFO_BUFFER_SIZE in Hb.
  apply aligned_flush_legal; try assumption; lia.
Qed.

Lemma flushes_of_reachable_stores_are_legal_witness :
  reachable demo_writer
  /\ _curr_addr demo_writer mod 256 = 0
  /\ exists new,
       journal (_flash (snd (writeFIFO demo_writer)))
       = new ++ journal (_flash demo_writer)
       /\ Forall legal_command new.
Proof.
  assert (R : reachable demo_writer).
  { unfold demo_writer.
    exact (reachable_run NewFile (power_on (fun _ => 0)) _
             (reachable_power_on _) eq_refl). }
  destruct (flushes_of_reachable_stores_are_legal demo_writer R)
    as (H1 & _ & _ & H4).
  - reflexivity.
  - vm_compute. discriminate.
  - vm_compute. reflexivity.
  - vm_compute. discriminate.
  - vm_compute. reflexivity.
  - split; [exact R|]. split; [exact H1 | exact H4].
Defined.

(** ** The commands of [writeFAT] *)

Lemma fat_pages_journal n : forall buff fat_size p s,
  exists new,
    journal (_flash (fat_pages n buff fat_size p s)) = new ++ journal (_flash s)
    /\ length new = n
    /\ Forall (fun c => exists data len, c = PageProgram 0 data len) new.
Proof.
  induction n as [|n IH]; intros buff fat_size p s; cbn [fat_pages].
  - exists []. repeat split. constructor.
  - destruct (IH buff fat_size (p + 1) (fat_page buff fat_size p s))
      as (new & Hj & Hl & Hall).
    unfold fat_page in Hj at 2. cbv zeta in Hj. fields_in Hj.
    rewrite wait_idle_journal in Hj.
    eexists (new ++ [_]). rewrite <- app_assoc. split; [exact Hj|].
    split; [rewrite length_app; cbn [length]; lia|].
    apply Forall_app. split; [exact Hall|].
    constructor; [|constructor]. eexists. eexists. reflexivity.
Qed.

Lemma fat_pages_single buff fc s :
  0 <= fc < 50 ->
  journal (_flash (fat_pages (Z.to_nat (u32 (1 + u32 (6 + 2 + fc * 5) / 256)))
                     buff (u32 (6 + 2 + fc * 5)) 0 s))
  = [PageProgram 0 (fun i => byte_at buff (0 * 256 + i)) (8 + fc * 5)]
    ++ journal (_flash s).
Proof.
  intros Hfc.
  rewrite (u32_small (6 + 2 + fc * 5)) by lia.
  assert (Hd : (6 + 2 + fc * 5) / 256 = 0) by (apply Z.div_small; lia).
  rewrite Hd. change (Z.to_nat (u32 (1 + 0))) with 1%nat.
  cbn [fat_pages]. unfold fat_page. cbv zeta. fields.
  rewrite wait_idle_journal.
  change (u32 (0 * 256)) with 0. rewrite Z.sub_0_r.
  rewrite (u32_small (6 + 2 + fc * 5)) by lia.
  rewrite (s32_small (6 + 2 + fc * 5)) by lia.
  destruct (Z.ltb_spec (6 + 2 + fc * 5) 0); [lia|].
  destruct (Z.ltb_spec 256 (6 + 2 + fc * 5)); [lia|].
  rewrite (u32_small (6 + 2 + fc * 5)) by lia.
  reflexivity.
Qed.

(** X17.  [writeFAT] on a busy chip returns [FLASH_STORAGE_BUSY] and sends
    nothing.  Otherwise it returns [FLASH_STORAGE_OK], first erases sector 0
    and then sends programs that are all at address 0: up to 49 files one
    program of [8 + 5 * file_count] bytes, which fits the first page; from 50
    files on at least two programs, each page of the image at address 0
    again. *)
Theorem writeFAT_programs_at_address_zero (s : FlashStorage) :
  let fc := file_count (_fat s) in
  (fst (busy (_flash s)) = true ->
     fst (writeFAT s) = FLASH_STORAGE_BUSY
     /\ journal (_flash (snd (writeFAT s))) = journal (_flash s)
     /\ cells (_flash (snd (writeFAT s))) = cells (_flash s))
  /\ (fst (busy (_flash s)) = false ->
        fst (writeFAT s) = FLASH_STORAGE_OK
        /\ exists new,
             journal (_flash (snd (writeFAT s)))
             = new ++ SectorErase 0 :: journal (_flash s)
             /\ Forall (fun c => exists data len, c = PageProgram 0 data len) new
             /\ (0 <= fc < 50 ->
                   exists data, new = [PageProgram 0 data (8 + fc * 5)]
                                /\ legal_program 0 (8 + fc * 5))
             /\ (50 <= fc <= 255 -> (2 <= length new)%nat)).
Proof.
  intros fc. unfold writeFAT.
  destruct (busy_keeps (_flash s)) as (Hc & Hj & _).
  destruct (busy (_flash s)) as [b d]. cbn [fst snd] in *.
  destruct b; (split; [intros Hb | intros Hb]); try discriminate Hb.
  - fields. auto.
  - cbv zeta. fields. split; [reflexivity|].
    unfold header_size, id_size. fold fc.
    match goal with
    | |- context [fat_pages ?n ?buff ?size 0 ?x] =>
        set (s1 := x); set (img := buff);
        destruct (fat_pages_journal n buff size 0 x) as (new & Nj & Nl & Nall)
    end.
    fold s1 img in Nj.
    assert (J1 : journal (_flash s1) = SectorErase 0 :: journal (_flash s))
      by (unfold s1; fields; rewrite Hj; reflexivity).
    exists new. split; [rewrite Nj, J1; reflexivity|].
    split; [exact Nall|]. split.
    + intros Hfc. rewrite (fat_pages_single img fc s1 Hfc) in Nj.
      apply app_inv_tail in Nj. subst new.
      eexists. split; [reflexivity|].
      unfold legal_program, PAGE. split; [lia|]. right.
      rewrite Z.div_small by lia. rewrite Z.div_small by lia. reflexivity.
    + intros Hfc. rewrite Nl.
      rewrite (u32_small (6 + 2 + fc * 5)) by lia.
      assert (Hd : 1 <= (6 + 2 + fc * 5) / 256 < 6).
      { split; [apply Z.div_le_lower_bound | apply Z.div_lt_upper_bound]; lia. }
      rewrite u32_small by lia. lia.
Qed.

Lemma writeFAT_programs_at_address_zero_witness :
  fst (busy (_flash (power_on (fun _ => 0)))) = false
  /\ fst (writeFAT (power_on (fun _ => 0))) = FLASH_STORAGE_OK.
Proof.
  assert (Hb : fst (busy (_flash (power_on (fun _ => 0)))) = false)
    by reflexivity.
  destruct (writeFAT_programs_at_address_zero (power_on (fun _ => 0)))
    as (_ & H).
  destruct (H Hb) as (H1 & _).
  split; [exact Hb | exact H1].
Defined.

(** ** [write] on a store that [close] has parked *)

Lemma chunks_done buff s :
  write_chunks 2 buff 1024 1024 s = Some (1024, s).
Proof. reflexivity. Qed.

(** X18.  [write] is not refused after [close()].  On a store that [close]
    has parked (still in write mode, cursor and frontier at 0), [write] of
    1024 bytes returns [FLASH_STORAGE_OK], erases sector 0 once and programs
    the bytes from address 0, where the table was: the first 1024 bytes of
    the chip are then the bytes written.  Unless these start with the
    identification string, [init] on a store attached to the chip answers
    [FLASH_STORAGE_NO_FAT_FOUND]. *)
Theorem write_after_close_lands_on_the_table (s : FlashStorage) (B : list Z) :
  parked s ->
  _lookahead_erase_size s = FLASH_STORAGE_STANDARD_LOOKAHEAD_SIZE ->
  length B = 1024%nat -> Forall is_byte B ->
  exists s',
    write (ptr B) 1024 s = Some (FLASH_STORAGE_OK, s')
    /\ _curr_addr s' = 1024 /\ _max_erased_addr s' = 4096
    /\ _buff_index s' = 0
    /\ (exists new,
          journal (_flash s') = new ++ journal (_flash s)
          /\ erases_of 0 new = 1%nat
          /\ program_extents new
             = [(0, 256); (256, 256); (512, 256); (768, 256); (1024, 0)])
    /\ stored (cells (_flash s')) 0 1024 = B
    /\ (replies (_flash s) = [] ->
        strcmp_eq FLASH_STORAGE_IDENTIFICATION_STRING (firstn 6 B) = false ->
        forall s0, _flash s0 = _flash s' ->
          option_map fst (init s0) = Some FLASH_STORAGE_NO_FAT_FOUND).
Proof.
  intros (Hm & Hc & Hb & Hf & _) Hl Hlen HB.
  unfold FLASH_STORAGE_STANDARD_LOOKAHEAD_SIZE in Hl.
  set (sA := set_buff_index 1024 (memcpy_buff 0 (ptr B) 0 1024 s)).
  pose proof (writeFIFO_aligned sA) as W. cbv zeta in W.
  change (_curr_addr sA) with (_curr_addr s) in W.
  change (_buff_index sA) with 1024 in W.
  change (_max_erased_addr sA) with (_max_erased_addr s) in W.
  rewrite Hc, Hf in W.
  destruct W as (W1 & W2 & W3 & W4 & W5); try lia; try reflexivity.
  destruct (writeFIFO_untouched sA) as (U1 & _ & U3 & _ & _).
  pose proof (writeFIFO_buff_index sA) as W0.
  set (sB := snd (writeFIFO sA)) in *.
  change (0 <=? 0 + 1024) with true in W2. cbv iota in W2.
  change (0 + 4096) with 4096 in W2. change (0 + 1024) with 1024 in W1.
  change (_lookahead_erase_size sA) with (_lookahead_erase_size s) in U3.
  set (sC := set_buff_index (u32 (_buff_index sB + u32 (1024 - 1024)))
               (memcpy_buff 0 (ptr B) 1024 (u32 (1024 - 1024)) sB)).
  assert (Hbuf : forall j, _buff sC j = _buff sA j).
  { intros j. unfold sC. fields. rewrite U1.
    change (u32 (1024 - 1024)) with 0.
    destruct (Z.leb_spec 0 j); destruct (Z.ltb_spec j (0 + 0)); cbn [andb];
      try reflexivity; lia. }
  assert (Hw : write (ptr B) 1024 s = Some (FLASH_STORAGE_OK, sC)).
  { unfold write. rewrite Hm, Hb.
    change (u32 (FLASH_STORAGE_FIFO_BUFFER_SIZE - 0)) with 1024.
    change (1024 <? 1024) with false. cbv iota.
    change (_buff_index (memcpy_buff 0 (ptr B) 0 1024 s)) with (_buff_index s).
    rewrite Hb.
    change (u32 (0 + 1024)) with 1024.
    change (Z.to_nat (1024 / 1024)) with 1%nat. fold sA. fold sB.
    rewrite chunks_done.
    change (_buff_index (memcpy_buff 0 (ptr B) 1024 (u32 (1024 - 1024)) sB))
      with (_buff_index sB).
    fold sC.
    change (_max_erased_addr sC) with (_max_erased_addr sB).
    change (_lookahead_erase_size sC) with (_lookahead_erase_size sB).
    change (_curr_addr sC) with (_curr_addr sB).
    rewrite W1, W2, U3, Hl. reflexivity. }
  assert (Hcells : forall i, (i < length B)%nat ->
            cells (_flash sC) (0 + Z.of_nat i) = nth i B 0).
  { intros i Hi. change (cells (_flash sC)) with (cells (_flash sB)).
    rewrite W4. unfold flush_commands.
    change (0 <=? 0 + 1024) with true. cbv iota.
    rewrite replay_app, replay_pages by (try reflexivity; lia).
    cbn [replay apply_command].
    destruct (Z.leb_spec (0 + 256 * 0) (0 + Z.of_nat i));
      destruct (Z.ltb_spec (0 + Z.of_nat i) (0 + 1024)); cbn [andb]; try lia.
    assert (E : ((0 + Z.of_nat i) / SECTOR =? 0 / SECTOR) = true).
    { apply same_sector; [reflexivity | unfold SECTOR; lia]. }
    rewrite E. unfold sA. fields.
    destruct (Z.leb_spec 0 (0 + Z.of_nat i - 0));
      destruct (Z.ltb_spec (0 + Z.of_nat i - 0) (0 + 1024)); cbn [andb]; try lia.
    unfold ptr, byte_at.
    replace (Z.to_nat (0 + (0 + Z.of_nat i - 0 - 0))) with i by lia.
    apply land_erased. rewrite Forall_forall in HB. apply HB.
    apply nth_In. exact Hi. }
  assert (Hst : stored (cells (_flash sC)) 0 1024 = B).
  { replace 1024 with (Z.of_nat (length B)) by lia.
    apply stored_eq. exact Hcells. }
  exists sC. split; [exact Hw|].
  split; [exact W1|]. split; [exact W2|].
  split; [unfold sC; fields; rewrite W0; reflexivity|].
  split.
  { exists (flush_commands 0 1024 0 (_buff sA)).
    split; [exact W3|]. split; reflexivity. }
  split; [exact Hst|].
  intros Hr Hid s0 Hflash.
  assert (Hr0 : replies (_flash s0) = []).
  { rewrite Hflash. change (replies (_flash sC)) with (replies (_flash sB)).
    rewrite W5. exact Hr. }
  rewrite (init_healthy s0 Hr0).
  rewrite readFAT_healthy by exact Hr0.
  cbv zeta. fields. rewrite Hflash.
  assert (H6 : stored (cells (_flash sC)) 0 id_size = firstn 6 B).
  { pose proof (stored_slice (cells (_flash sC)) B 0 6) as S.
    change (Z.of_nat 0) with 0 in S. change (Z.of_nat 6) with 6 in S.
    change (skipn 0 B) with B in S. apply S; [|lia].
    intros i Hi. rewrite <- (Hcells i Hi). reflexivity. }
  rewrite H6, Hid. reflexivity.
Qed.

Lemma write_after_close_lands_on_the_table_witness :
  let s := snd (close demo_writer) in
  exists s',
    write (ptr (repeat 7 1024)) 1024 s = Some (FLASH_STORAGE_OK, s')
    /\ stored (cells (_flash s')) 0 1024 = repeat 7 1024.
Proof.
  intros s.
  destruct (write_after_close_lands_on_the_table s (repeat 7 1024))
    as (s' & H1 & _ & _ & _ & _ & H6 & _).
  - unfold parked. vm_compute. intuition congruence.
  - reflexivity.
  - apply repeat_length.
  - apply repeat_bytes. unfold is_byte. lia.
  - exists s'. split; [exact H1 | exact H6].
Defined.
